(** * notife: configuration resolution and platform dispatch

    A shallow embedding of the TypeScript sources

      - [src/config/index.ts]     (class [ConfigManager])
      - [src/commands/send.ts]    ([handleSendCommand], [sendToPlatform])
      - [src/platforms/base.ts]   ([MessageOptions], [MessageResult])
      - [src/platforms/discord.ts], [src/platforms/telegram.ts]
      - [src/config/setup.ts]     (class [ConfigSetup])
      - [src/index.ts]            ([main])

    Conventions of the embedding.

      - A JavaScript string is a Rocq [string]: the sequence of the bytes of
        its UTF-8 encoding.  Every character the program inspects (the
        separator [|], the digits, the minus sign, [#] and the reserved
        markdown punctuation) is ASCII, and an ASCII byte never occurs inside
        the encoding of another character, so splitting, replacing and
        matching behave on bytes as they do on UTF-16 code units.
      - An optional property ([x?: T], or a property the JSON document may
        omit) is an [option]; [None] is [undefined].
      - An object used as a dictionary ([Record<string, string>],
        [process.env], the file system) is a [gmap] keyed by strings: its
        own properties.  Where the program reads a property under a name
        that comes from the command line (the alias of a channel), the
        properties inherited from [Object.prototype] are looked up after
        the own ones ([JS.get]).
      - The operating system, the network and the JavaScript runtime are
        gathered in one record, [World], which every effectful function
        receives.  Console output and HTTP requests are collected in a list
        of [Event]s, in program order. *)

From Stdlib Require Import ZArith Ascii String List Bool Lia.
From stdpp Require Import base option list strings pretty gmap.

Local Open Scope string_scope.
Local Open Scope Z_scope.
Local Open Scope list_scope.

(** ** JavaScript values used by the program *)

Module JS.

(** [!!s] for a string: only the empty string is falsy. *)
Definition truthy (s : string) : bool :=
  match s with
  | EmptyString => false
  | String _ _ => true
  end.

(** [!!v] for [v : string | undefined]. *)
Definition truthy_opt (v : option string) : bool :=
  match v with
  | Some s => truthy s
  | None => false
  end.

(** [a || b] where [b] is a string. *)
Definition or_else (a : option string) (b : string) : string :=
  match a with
  | Some s => if truthy s then s else b
  | None => b
  end.

(** [a || b] where [b] may itself be [undefined]. *)
Definition or_opt (a b : option string) : option string :=
  if truthy_opt a then a else b.

(** [!!v] for an optional object: an object is truthy, [undefined] is
    not. *)
Definition present {A : Type} (v : option A) : bool :=
  match v with
  | Some _ => true
  | None => false
  end.

(** [a || false] for [a : boolean | undefined]. *)
Definition or_false (a : option bool) : bool :=
  match a with
  | Some b => b
  | None => false
  end.

(** The character class [\d] (without the [u] or [v] flag): [0-9]. *)
Definition is_digit (c : ascii) : bool :=
  let n := nat_of_ascii c in (Nat.leb 48 n && Nat.leb n 57)%bool.

(** [\d*$]: every remaining character is a digit. *)
Fixpoint all_digits (s : string) : bool :=
  match s with
  | EmptyString => true
  | String c s' => (is_digit c && all_digits s')%bool
  end.

(** [/^\d+$/.test(s)].  Without the [m] flag [$] only matches at the
    very end of the input. *)
Definition test_digits (s : string) : bool :=
  match s with
  | EmptyString => false
  | String c s' => (is_digit c && all_digits s')%bool
  end.

(** [/^-?\d+$/.test(s)]. *)
Definition test_signed_digits (s : string) : bool :=
  match s with
  | String "-"%char s' => test_digits s'
  | _ => test_digits s
  end.

(** [s.split(sep)] for a one-character separator: the list of the
    pieces between the separators; never empty. *)
Fixpoint split (sep : ascii) (s : string) : list string :=
  match s with
  | EmptyString => [EmptyString]
  | String c s' =>
      if Ascii.eqb c sep then EmptyString :: split sep s'
      else match split sep s' with
           | p :: ps => String c p :: ps
           | [] => [String c EmptyString]
           end
  end.

(** [s.replace(c, by)] with a string pattern of one character: only
    the first occurrence is replaced. *)
Fixpoint replace_first (c : ascii) (by_ : string) (s : string) : string :=
  match s with
  | EmptyString => EmptyString
  | String x s' =>
      if Ascii.eqb x c then by_ +:+ s'
      else String x (replace_first c by_ s')
  end.

(** [s.replace(new RegExp('\\' + c, 'g'), by)]: the pattern is the
    escaped literal character [c]; every occurrence is replaced, the
    replacement text is not scanned again. *)
Fixpoint replace_all (c : ascii) (by_ : string) (s : string) : string :=
  match s with
  | EmptyString => EmptyString
  | String x s' =>
      if Ascii.eqb x c then by_ +:+ replace_all c by_ s'
      else String x (replace_all c by_ s')
  end.

(** A JavaScript number holding the result of [parseInt]: not a number,
    an integer that a double represents exactly, or an infinity. *)
Inductive number : Type :=
| NaN
| Int (z : Z)
| Infinity (negative : bool).

(** The double nearest to an integer (ties to the even significand):
    integers below 2^53 in magnitude are exact, larger ones keep their 53
    leading bits, and what rounds to 2^1024 or more is an infinity. *)
Definition to_double (z : Z) : number :=
  let a := Z.abs z in
  if a <? 2 ^ 53 then Int z
  else
    let e := Z.log2 a - 52 in
    let q := Z.shiftr a e in
    let r := a - Z.shiftl q e in
    let half := Z.shiftl 1 (e - 1) in
    let q' := if ((half <? r) || ((r =? half) && Z.odd q))%bool then q + 1 else q in
    let rounded := Z.shiftl q' e in
    if 2 ^ 1024 <=? rounded then Infinity (z <? 0)
    else Int (Z.sgn z * rounded).

Definition is_space (c : ascii) : bool :=
  let n := nat_of_ascii c in
  ((Nat.leb 9 n && Nat.leb n 13) || Nat.eqb n 32)%bool.

Fixpoint trim_start (s : string) : string :=
  match s with
  | String c s' => if is_space c then trim_start s' else s
  | EmptyString => EmptyString
  end.

Definition hex_digit (c : ascii) : option Z :=
  let n := nat_of_ascii c in
  if (Nat.leb 48 n && Nat.leb n 57)%bool then Some (Z.of_nat n - 48)
  else if (Nat.leb 65 n && Nat.leb n 70)%bool then Some (Z.of_nat n - 55)
  else if (Nat.leb 97 n && Nat.leb n 102)%bool then Some (Z.of_nat n - 87)
  else None.

(** The longest prefix of hexadecimal digits, read most significant
    digit first; [None] when the prefix is empty. *)
Fixpoint hex_prefix (acc : option Z) (s : string) : option Z :=
  match s with
  | EmptyString => acc
  | String c s' =>
      match hex_digit c with
      | Some d => hex_prefix (Some (16 * default 0 acc + d)) s'
      | None => acc
      end
  end.

Definition strip_0x (s : string) : string :=
  match s with
  | String "0"%char (String "x"%char s') => s'
  | String "0"%char (String "X"%char s') => s'
  | _ => s
  end.

(** [parseInt(s, 16)]: leading white space is skipped, then an optional
    sign, then an optional [0x] prefix, then the longest run of
    hexadecimal digits; [NaN] when that run is empty; the result is the
    double nearest to the integer read.  The model trims ASCII white
    space only. *)
Definition parseInt16 (s : string) : number :=
  let t := trim_start s in
  let '(sign, body) :=
    match t with
    | String "-"%char r => (-1, r)
    | String "+"%char r => (1, r)
    | _ => (1, t)
    end in
  match hex_prefix None (strip_0x body) with
  | Some v => to_double (sign * v)
  | None => NaN
  end.

(** A value that a property access of the program can give: a string,
    or a property that every object inherits from [Object.prototype] (a
    function, or the prototype itself for [__proto__]). *)
Inductive value : Type :=
| Str (s : string)
| Inherited (key : string).

(** [!!v]: functions and objects are truthy. *)
Definition truthy_value (v : value) : bool :=
  match v with
  | Str s => truthy s
  | Inherited _ => true
  end.

(** The names of the properties of [Object.prototype]. *)
Definition object_prototype : list string :=
  [ "constructor"; "hasOwnProperty"; "isPrototypeOf"; "propertyIsEnumerable";
    "toLocaleString"; "toString"; "valueOf"; "__proto__";
    "__defineGetter__"; "__defineSetter__"; "__lookupGetter__";
    "__lookupSetter__" ].

Definition inherited (key : string) : bool :=
  existsb (String.eqb key) object_prototype.

(** [o[key]] for an object parsed from JSON whose own properties are
    strings: an own property wins, then the prototype is searched. *)
Definition get (o : gmap string string) (key : string) : option value :=
  match o !! key with
  | Some s => Some (Str s)
  | None => if inherited key then Some (Inherited key) else None
  end.

(** [o[key] || fallback] *)
Definition get_or (o : gmap string string) (key fallback : string) : value :=
  match get o key with
  | Some v => if truthy_value v then v else Str fallback
  | None => Str fallback
  end.

End JS.

(** ** [src/config/index.ts]: the configuration document *)

(** The [bot] block shared by [DiscordConfig] and [TelegramConfig].  The
    interfaces declare [token: string]; the document is not validated when
    it is read, and [validateConfig] tests for a missing token, so the
    field is optional here. *)
Record BotConfig : Type := {
  token : option string;
  channels : option (gmap string string)
}.

(** The value of [discord.bot] when it is not [undefined] or [null]: a
    falsy value ([false], [0], the empty string), whose properties read as
    [undefined], or a block.  A truthy value that is not an object reads
    like a block without properties. *)
Inductive DiscordBot : Type :=
| FalsyBot
| BotBlock (block : BotConfig).

(** [bot?.token], [bot?.channels]: the block behind a value of [bot]. *)
Definition bot_block (b : DiscordBot) : option BotConfig :=
  match b with
  | BotBlock block => Some block
  | FalsyBot => None
  end.

(** [DiscordConfig].  The interface declares [bot] as required, but the
    value comes unchecked from [JSON.parse] and [validateConfig] tests
    [!discord.bot]: the property can be absent ([None]: [undefined] or
    [null]) or falsy. *)
Record DiscordConfig : Type := { discord_bot : option DiscordBot }.

(** [TelegramConfig]: [bot?] is optional in the interface.  Every use of
    [telegram.bot] is guarded by its truthiness, so a falsy value behaves
    as an absent one and [None] stands for both. *)
Record TelegramConfig : Type := { telegram_bot : option BotConfig }.

(** [Config.platforms].  [other_platforms] are the keys of the object
    beside [discord] and [telegram]; [Object.keys] counts them.  A key
    [discord] or [telegram] with a falsy value is one of them: it is
    counted, and its block is not looked at. *)
Record Platforms : Type := {
  discord : option DiscordConfig;
  telegram : option TelegramConfig;
  other_platforms : list string
}.

(** [Config.defaults]. *)
Record Defaults : Type := {
  platform : option string;
  channel : option string
}.

Record Config : Type := {
  platforms : Platforms;
  defaults : Defaults
}.

Definition no_platforms : Platforms :=
  {| discord := None; telegram := None; other_platforms := [] |}.

Definition no_defaults : Defaults :=
  {| platform := None; channel := None |}.

(** [defaultConfig] of [loadConfig]: [{ platforms: {}, defaults: {} }]. *)
Definition defaultConfig : Config :=
  {| platforms := no_platforms; defaults := no_defaults |}.

(** ** [src/platforms/base.ts]: options and results *)

Inductive Format : Type := plain | markdown | embed.

(** An element of [MessageOptions.fields]. *)
Record Field : Type := {
  name : string;
  value : string;
  inline : option bool
}.

Record MessageOptions : Type := {
  format : option Format;
  silent : option bool;
  title : option string;
  color : option string;
  fields : option (list Field)
}.

(** [MessageResult]; [timestamp] is the reading of the clock. *)
Record MessageResult : Type := {
  success : bool;
  messageId : option string;
  error : option string;
  timestamp : string
}.

(** ** Payloads and HTTP exchanges *)

(** The embed object built by [DiscordPlatform.createBotPayload]. *)
Record Embed : Type := {
  embed_title : string;
  embed_description : string;
  embed_timestamp : string;
  embed_color : option JS.number;
  embed_fields : option (list Field)
}.

(** The payload of the Discord bot API: [{ content }] or [{ embeds }]. *)
Inductive DiscordPayload : Type :=
| Content (content : string)
| Embeds (embeds : list Embed).

(** The payload of the Telegram bot API. *)
Record TelegramPayload : Type := {
  text : string;
  disable_notification : bool;
  parse_mode : option string;
  chat_id : option JS.value
}.

(** The body of a request, before [JSON.stringify]. *)
Inductive Body : Type :=
| DiscordBody (p : DiscordPayload)
| TelegramBody (p : TelegramPayload).

(** The arguments of a call of [fetch]. *)
Record Request : Type := {
  url : string;
  method : string;
  headers : list (string * string);
  body : Body
}.

(** The completion of an operation that may throw.  A thrown value is
    kept as the text that a template literal makes of it. *)
Inductive Completion (A : Type) : Type :=
| Normal (a : A)
| Throw (err : string).
Arguments Normal {A} a.
Arguments Throw {A} err.

(** Sequencing: the rest of a block runs only when nothing was thrown. *)
#[export] Instance completion_bind : MBind Completion :=
  fun A B (k : A -> Completion B) (c : Completion A) =>
    match c with
    | Normal a => k a
    | Throw e => Throw e
    end.

(** What the program reads of the JSON body of a response. *)
Record ResponseJson : Type := {
  json_id : option string;
  json_description : option string;
  json_message_id : option Z
}.

Record Response : Type := {
  ok : bool;
  status : N;
  response_text : Completion string;
  response_json : Completion ResponseJson
}.

(** ** The environment of a run *)

(** An entry of the file system: a file that can be read, a directory, or
    a file whose reading throws (a file without read permission). *)
Inductive FsEntry : Type :=
| RegularFile (content : string)
| Directory
| Unreadable (err : string).

(** The value of [JSON.parse] as far as [loadConfig] looks at it: [null],
    or a value with its [platforms] and [defaults] properties. *)
Inductive Parsed : Type :=
| ParsedNull
| ParsedValue (parsed_platforms : option Platforms)
              (parsed_defaults : option Defaults).

Record World : Type := {
  (** [fs]: the paths that exist. *)
  fs : gmap string FsEntry;
  (** [os.homedir()] and [process.cwd()]. *)
  homedir : string;
  cwd : string;
  (** [process.env]. *)
  env : gmap string string;
  (** [JSON.parse] and [JSON.stringify(options, null, 2)]. *)
  JSON_parse : string -> Completion Parsed;
  JSON_stringify : MessageOptions -> string;
  (** [new Date().toISOString()]. *)
  now : string;
  (** The text of the [TypeError] thrown when the named expression reads
      a property of [undefined] or [null]. *)
  type_error : string -> string;
  (** The text that a template literal makes of the property of
      [Object.prototype] with this name. *)
  prototype_text : string -> string;
  (** The error that the file system raises for a reason of its own when
      the program creates or writes this path, if it does (a missing
      permission, a read-only or full disk). *)
  write_error : string -> option string;
  (** The network. *)
  fetch : Request -> Completion Response
}.

(** [`${v}`] *)
Definition template_text (w : World) (v : JS.value) : string :=
  match v with
  | JS.Str s => s
  | JS.Inherited key => prototype_text w key
  end.

(** What a run does to the outside, in order. *)
Inductive Event : Type :=
| ConsoleLog (line : string)
| ConsoleWarn (line : string)
| ConsoleError (line : string)
| HttpRequest (r : Request).

Definition is_http (e : Event) : bool :=
  match e with
  | HttpRequest _ => true
  | _ => false
  end.

(** [path.join] of segments that need no normalisation. *)
Fixpoint join (segments : list string) : string :=
  match segments with
  | [] => "."
  | [s] => s
  | s :: rest => s +:+ "/" +:+ join rest
  end.

Definition existsSync (w : World) (path : string) : bool :=
  match fs w !! path with
  | Some _ => true
  | None => false
  end.

Definition readFileSync (w : World) (path : string) : Completion string :=
  match fs w !! path with
  | Some (RegularFile content) => Normal content
  | Some Directory => Throw "Error: EISDIR: illegal operation on a directory, read"
  | Some (Unreadable err) => Throw err
  | None => Throw ("Error: ENOENT: no such file or directory, open '" +:+ path +:+ "'")
  end.

(** ** [src/config/index.ts]: class [ConfigManager] *)

Record ConfigManager : Type := {
  config : Config;
  configPath : string
}.

Definition getConfig (cm : ConfigManager) : Config := config cm.

(** [discordConfig?.bot?.channels] *)
Definition discord_channels (c : Config) : option (gmap string string) :=
  d ← discord (platforms c); b ← discord_bot d; block ← bot_block b;
  channels block.

(** [telegramConfig?.bot?.channels] *)
Definition telegram_channels (c : Config) : option (gmap string string) :=
  t ← telegram (platforms c); b ← telegram_bot t; channels b.

Definition getDiscordChannel (cm : ConfigManager) (aliasOrId : string) : JS.value :=
  match discord_channels (config cm) with
  | None => JS.Str aliasOrId
  | Some chans =>
      if JS.test_digits aliasOrId then JS.Str aliasOrId
      else JS.get_or chans aliasOrId aliasOrId
  end.

Definition getTelegramChannel (cm : ConfigManager) (aliasOrId : string) : JS.value :=
  match telegram_channels (config cm) with
  | None => JS.Str aliasOrId
  | Some chans =>
      if JS.test_signed_digits aliasOrId then JS.Str aliasOrId
      else JS.get_or chans aliasOrId aliasOrId
  end.

Definition getDiscordToken (w : World) (cm : ConfigManager) : option string :=
  JS.or_opt (env w !! "NOTIFE_DISCORD_TOKEN")
            (d ← discord (platforms (config cm)); b ← discord_bot d;
             block ← bot_block b; token block).

Definition getTelegramToken (w : World) (cm : ConfigManager) : option string :=
  JS.or_opt (env w !! "NOTIFE_TELEGRAM_TOKEN")
            (t ← telegram (platforms (config cm)); b ← telegram_bot t; token b).

(** The array [possiblePaths] of [findConfigFile], after
    [.filter(Boolean)]. *)
Definition possiblePaths (w : World) : list string :=
  List.filter JS.truthy
    (option_list (env w !! "NOTIFE_CONFIG_PATH") ++
     [ join [homedir w; ".notife"; "config.json"];
       join [cwd w; "config.json"];
       join [cwd w; ".notife.json"];
       join [homedir w; ".notife.json"] ]).

(** The loop [for (const path of possiblePaths) if (existsSync(path))
    return path]. *)
Fixpoint first_existing (w : World) (paths : list string) : option string :=
  match paths with
  | [] => None
  | path :: rest => if existsSync w path then Some path else first_existing w rest
  end.

Definition findConfigFile (w : World) : string :=
  match first_existing w (possiblePaths w) with
  | Some path => path
  | None => join [homedir w; ".notife"; "config.json"]
  end.

(** [loadConfig], with [this.configPath] as an argument: the
    configuration and what is written to the console. *)
Definition loadConfig (w : World) (path : string) : Config * list Event :=
  if negb (existsSync w path) then
    (defaultConfig,
     [ConsoleWarn ("Config file not found at " +:+ path +:+
                   ". Using default configuration.")])
  else
    let attempt :=
      configContent ← readFileSync w path;
      parsedConfig ← JSON_parse w configContent;
      match parsedConfig with
      | ParsedNull => Throw (type_error w "parsedConfig.platforms")
      | ParsedValue p d =>
          Normal {| platforms := default no_platforms p;
                    defaults := default no_defaults d |}
      end in
    match attempt with
    | Normal c => (c, [])
    | Throw err =>
        (defaultConfig, [ConsoleError ("Error loading config file: " +:+ err)])
    end.

(** [new ConfigManager(configPath)] *)
Definition new_ConfigManager (w : World) (path : option string)
  : ConfigManager * list Event :=
  let p := JS.or_else path (findConfigFile w) in
  let '(c, out) := loadConfig w p in
  ({| config := c; configPath := p |}, out).

Record Validation : Type := {
  valid : bool;
  errors : list string
}.

(** [Object.keys(this.config.platforms)] *)
Definition platform_keys (p : Platforms) : list string :=
  (if JS.present (discord p) then ["discord"] else []) ++
  (if JS.present (telegram p) then ["telegram"] else []) ++
  other_platforms p.

(** [validateConfig].  [errors.push] becomes the threading of the list;
    reading [discord.bot.token] throws when [discord.bot] is [undefined]
    or [null], and gives [undefined] when it is another falsy value. *)
Definition validateConfig (w : World) (cm : ConfigManager) : Completion Validation :=
  let errors0 : list string :=
    if Nat.eqb (length (platform_keys (platforms (config cm)))) 0
    then ["No platforms configured"] else [] in
  errors1 ←
    match discord (platforms (config cm)) with
    | Some d =>
        let errors :=
          match discord_bot d with
          | Some (BotBlock _) => errors0
          | Some FalsyBot | None =>
              errors0 ++ ["Discord platform configured but no bot configuration found"]
          end in
        match discord_bot d with
        | None => Throw (type_error w "discord.bot.token")
        | Some bot =>
            if (negb (JS.truthy_opt (block ← bot_block bot; token block)) &&
                negb (JS.truthy_opt (env w !! "NOTIFE_DISCORD_TOKEN")))%bool
            then Normal (errors ++ ["Discord bot configured but no token provided"])
            else Normal errors
        end
    | None => Normal errors0
    end;
  let errors2 :=
    match telegram (platforms (config cm)) with
    | Some t =>
        let errors :=
          if JS.present (telegram_bot t) then errors1
          else errors1 ++ ["Telegram platform configured but no bot configuration found"] in
        match telegram_bot t with
        | Some bot =>
            if (negb (JS.truthy_opt (token bot)) &&
                negb (JS.truthy_opt (env w !! "NOTIFE_TELEGRAM_TOKEN")))%bool
            then errors ++ ["Telegram bot configured but no token provided"]
            else errors
        | None => errors
        end
    | None => errors1
    end in
  Normal {| valid := Nat.eqb (length errors2) 0; errors := errors2 |}.

(** ** [src/platforms/base.ts]: class [BasePlatform] *)

Definition createErrorResult (w : World) (err : string) : MessageResult :=
  {| success := false; messageId := None; error := Some err; timestamp := now w |}.

Definition createSuccessResult (w : World) (id : option string) : MessageResult :=
  {| success := true; messageId := id; error := None; timestamp := now w |}.

(** In the platform classes [options] is an optional parameter read
    through [options?.]; [undefined] behaves as the options without any
    property, [no_options]. *)
Definition no_options : MessageOptions :=
  {| format := None; silent := None; title := None; color := None; fields := None |}.

Definition is_format (f : Format) (o : option Format) : bool :=
  match o, f with
  | Some plain, plain | Some markdown, markdown | Some embed, embed => true
  | _, _ => false
  end.

(** ** [src/platforms/telegram.ts] *)

Module TelegramPlatform.

Definition specialChars : list ascii :=
  [ "_"; "*"; "["; "]"; "("; ")"; "~"; "`"; ">"; "#"; "+"; "-"; "=";
    "|"; "{"; "}"; "."; "!" ]%char.

(** ['\\' + char]: a backslash followed by the character. *)
Definition backslashed (char : ascii) : string :=
  String "\"%char (String char EmptyString).

(** The loop over [specialChars], one global replacement each. *)
Definition escapeMarkdownV2 (text : string) : string :=
  fold_left (fun escaped char => JS.replace_all char (backslashed char) escaped)
            specialChars text.

(** The loop over [options.fields] of [formatAsEmbed], which appends one
    line per field to [formatted]. *)
Definition append_fields (formatted : string) (fs : list Field) : string :=
  fold_left
    (fun formatted field =>
       formatted +:+
       ("*" +:+ escapeMarkdownV2 (name field) +:+ ":* " +:+
        escapeMarkdownV2 (value field) +:+ String "010"%char EmptyString))
    fs formatted.

Definition newline2 : string :=
  String "010"%char (String "010"%char EmptyString).

Definition formatAsEmbed (message : string) (options : MessageOptions) : string :=
  let parts := JS.split "|" message in
  let title := JS.or_else (JS.or_opt (parts !! 0%nat) (title options)) "Notification" in
  let description := JS.or_else (parts !! 1%nat) message in
  let formatted :=
    "*" +:+ escapeMarkdownV2 title +:+ "*" +:+ newline2 +:+
    escapeMarkdownV2 description in
  match fields options with
  | Some fs =>
      if Nat.ltb 0 (length fs) then append_fields (formatted +:+ newline2) fs
      else formatted
  | None => formatted
  end.

Definition createMessagePayload (message : string) (options : MessageOptions)
  : TelegramPayload :=
  let silent_ := JS.or_false (silent options) in
  match format options with
  | Some markdown =>
      {| text := escapeMarkdownV2 message; disable_notification := silent_;
         parse_mode := Some "MarkdownV2"; chat_id := None |}
  | Some embed =>
      {| text := formatAsEmbed message options; disable_notification := silent_;
         parse_mode := Some "MarkdownV2"; chat_id := None |}
  | _ =>
      {| text := message; disable_notification := silent_;
         parse_mode := None; chat_id := None |}
  end.

Definition request (token_ : string) (channelId : JS.value) (message : string)
    (options : MessageOptions) : Request :=
  let payload := createMessagePayload message options in
  {| url := "https://api.telegram.org/bot" +:+ token_ +:+ "/sendMessage";
     method := "POST";
     headers := [("Content-Type", "application/json")];
     body := TelegramBody
               {| text := text payload;
                  disable_notification := disable_notification payload;
                  parse_mode := parse_mode payload;
                  chat_id := Some channelId |} |}.

(** What [sendBotMessage] makes of the outcome of [fetch]; whatever is
    thrown on the way is caught and becomes an error result. *)
Definition interpret (w : World) (outcome : Completion Response) : MessageResult :=
  let attempt : Completion MessageResult :=
    response ← outcome;
    if negb (ok response) then
      errorData ← response_json response;
      Normal (createErrorResult w
                ("Telegram API request failed: " +:+ pretty (status response) +:+
                 " " +:+ JS.or_else (json_description errorData) "Unknown error"))
    else
      result ← response_json response;
      match json_message_id result with
      | Some id => Normal (createSuccessResult w (Some (pretty id)))
      | None => Throw (type_error w "result.result.message_id")
      end in
  match attempt with
  | Normal r => r
  | Throw err => createErrorResult w ("Telegram API error: " +:+ err)
  end.

Definition sendBotMessage (w : World) (token_ : string) (channelId : JS.value)
    (message : string) (options : MessageOptions) : MessageResult * list Event :=
  let req := request token_ channelId message options in
  (interpret w (fetch w req), [HttpRequest req]).

Definition sendMessage (w : World) (cm : ConfigManager)
    (target message : string) (options : MessageOptions)
  : MessageResult * list Event :=
  match getTelegramToken w cm with
  | Some token_ =>
      if negb (JS.truthy token_) then
        (createErrorResult w "Telegram bot token not configured", [])
      else
        let channelId := getTelegramChannel cm target in
        if negb (JS.truthy_value channelId) then
          (createErrorResult w ("Invalid Telegram channel: " +:+ target), [])
        else sendBotMessage w token_ channelId message options
  | None => (createErrorResult w "Telegram bot token not configured", [])
  end.

(** [TelegramPlatform.validateConfig(config)]: the platform block must be
    there and hold a [bot] with a truthy [token]. *)
Definition validateConfig (c : option TelegramConfig) : bool :=
  match c with
  | None => false
  | Some t =>
      match telegram_bot t with
      | Some bot => JS.truthy_opt (token bot)
      | None => false
      end
  end.

End TelegramPlatform.

(** ** [src/platforms/discord.ts] *)

Module DiscordPlatform.

(** [parseInt(s.replace('#', ''), 16)] *)
Definition parse_color (s : string) : JS.number :=
  JS.parseInt16 (JS.replace_first "#" EmptyString s).

Definition createBotPayload (w : World) (message : string)
    (options : MessageOptions) : DiscordPayload :=
  if is_format embed (format options) then
    let parts := JS.split "|" message in
    let color_ :=
      if JS.truthy_opt (parts !! 2%nat) then parse_color <$> parts !! 2%nat
      else if JS.truthy_opt (color options) then parse_color <$> color options
      else None in
    Embeds [ {| embed_title := JS.or_else (parts !! 0%nat) "Notification";
                embed_description := JS.or_else (parts !! 1%nat) message;
                embed_timestamp := now w;
                embed_color := color_;
                embed_fields := fields options |} ]
  else Content message.

Definition request (w : World) (token_ : string) (channelId : JS.value)
    (message : string) (options : MessageOptions) : Request :=
  {| url := "https://discord.com/api/v10/channels/" +:+ template_text w channelId +:+
            "/messages";
     method := "POST";
     headers := [("Authorization", "Bot " +:+ token_);
                 ("Content-Type", "application/json")];
     body := DiscordBody (createBotPayload w message options) |}.

Definition interpret (w : World) (outcome : Completion Response) : MessageResult :=
  let attempt : Completion MessageResult :=
    response ← outcome;
    if negb (ok response) then
      errorText ← response_text response;
      Normal (createErrorResult w
                ("Bot API request failed: " +:+ pretty (status response) +:+
                 " " +:+ errorText))
    else
      result ← response_json response;
      Normal (createSuccessResult w (json_id result)) in
  match attempt with
  | Normal r => r
  | Throw err => createErrorResult w ("Bot API error: " +:+ err)
  end.

Definition sendBotMessage (w : World) (token_ : string) (channelId : JS.value)
    (message : string) (options : MessageOptions) : MessageResult * list Event :=
  let req := request w token_ channelId message options in
  (interpret w (fetch w req), [HttpRequest req]).

Definition sendMessage (w : World) (cm : ConfigManager)
    (target message : string) (options : MessageOptions)
  : MessageResult * list Event :=
  match getDiscordToken w cm with
  | Some token_ =>
      if negb (JS.truthy token_) then
        (createErrorResult w "Discord bot token not configured", [])
      else
        let channelId := getDiscordChannel cm target in
        if negb (JS.truthy_value channelId) then
          (createErrorResult w ("Invalid Discord channel: " +:+ target), [])
        else sendBotMessage w token_ channelId message options
  | None => (createErrorResult w "Discord bot token not configured", [])
  end.

(** [DiscordPlatform.validateConfig(config)]: the platform block must be
    there and hold a [bot] with a truthy [token]. *)
Definition validateConfig (c : option DiscordConfig) : bool :=
  match c with
  | None => false
  | Some d =>
      match discord_bot d with
      | Some (BotBlock bot) => JS.truthy_opt (token bot)
      | Some FalsyBot | None => false
      end
  end.

End DiscordPlatform.

(** ** [src/commands/send.ts] *)

Record SendCommandArgs : Type := {
  m : string;
  args_discord : bool;
  args_telegram : bool;
  channelID : option string;
  args_channel : option string;
  args_format : option Format;
  args_silent : option bool;
  args_config : option string;
  dry_run : bool
}.

(** The first half of [sendToPlatform]: the target of a platform, or the
    line written with [console.error] before the function returns. *)
Inductive Resolution : Type :=
| Resolved (target : string)
| Skipped (line : string).

Definition chooseTarget (platformName : string) (args : SendCommandArgs)
    (cm : ConfigManager) : Resolution :=
  let flags := JS.or_opt (channelID args) (args_channel args) in
  let switch : option string + string :=
    if String.eqb platformName "discord" then
      inl (if JS.truthy_opt flags then flags
           else Some (JS.or_else (channel (defaults (getConfig cm))) "general"))
    else if String.eqb platformName "telegram" then
      let target :=
        if JS.truthy_opt flags then flags
        else channel (defaults (getConfig cm)) in
      if JS.truthy_opt target then inl target
      else inr "Telegram requires --channelID or --channel parameter"
    else inr ("Unsupported platform: " +:+ platformName) in
  match switch with
  | inr line => Skipped line
  | inl (Some target) =>
      if JS.truthy target then Resolved target
      else Skipped ("No target specified for " +:+ platformName)
  | inl None => Skipped ("No target specified for " +:+ platformName)
  end.

(** The preview of the dry-run mode. *)
Definition preview (w : World) (platformName target : string)
    (args : SendCommandArgs) (options : MessageOptions) : list Event :=
  [ ConsoleLog ("[DRY RUN] Would send to " +:+ platformName +:+ ":");
    ConsoleLog ("  Target: " +:+ target);
    ConsoleLog ("  Message: " +:+ m args);
    ConsoleLog ("  Options: " +:+ JSON_stringify w options) ].

(** The report of a result. *)
Definition report (platformName : string) (options : MessageOptions)
    (result : MessageResult) : list Event :=
  if success result then
    if negb (JS.or_false (silent options)) then
      ConsoleLog ("✅ Message sent successfully to " +:+ platformName) ::
      match messageId result with
      | Some id => if JS.truthy id then [ConsoleLog ("   Message ID: " +:+ id)] else []
      | None => []
      end
    else []
  else
    [ConsoleError ("❌ Failed to send message to " +:+ platformName +:+ ": " +:+
                   default "undefined" (error result))].

(** The second half of [sendToPlatform]: the preview, or the call of the
    platform's [sendMessage] and the report of its result. *)
Definition deliver (w : World) (platformName target : string)
    (args : SendCommandArgs) (cm : ConfigManager) (options : MessageOptions)
  : list Event :=
  if dry_run args then preview w platformName target args options
  else
    let sender :=
      if String.eqb platformName "discord" then Some (DiscordPlatform.sendMessage w cm)
      else if String.eqb platformName "telegram" then Some (TelegramPlatform.sendMessage w cm)
      else None in
    match sender with
    | None => [ConsoleError ("Platform " +:+ platformName +:+ " not implemented")]
    | Some sendMessage =>
        let '(result, traffic) := sendMessage target (m args) options in
        (if negb (JS.or_false (silent options))
         then [ConsoleLog ("Sending message to " +:+ platformName +:+ "...")]
         else []) ++
        traffic ++ report platformName options result
    end.

Definition sendToPlatform (w : World) (platformName : string)
    (args : SendCommandArgs) (cm : ConfigManager) (options : MessageOptions)
  : list Event :=
  match chooseTarget platformName args cm with
  | Skipped line => [ConsoleError line]
  | Resolved target => deliver w platformName target args cm options
  end.

(** The array [platforms] of [handleSendCommand]. *)
Definition selectPlatforms (args : SendCommandArgs) (cm : ConfigManager)
  : list string :=
  let flagged :=
    (if args_discord args then ["discord"] else []) ++
    (if args_telegram args then ["telegram"] else []) in
  if Nat.eqb (length flagged) 0
  then [JS.or_else (platform (defaults (getConfig cm))) "discord"]
  else flagged.

(** [messageOptions] of [handleSendCommand]. *)
Definition messageOptions (args : SendCommandArgs) : MessageOptions :=
  {| format := Some (default plain (args_format args));
     silent := Some (JS.or_false (args_silent args));
     title := None; color := None; fields := None |}.

(** The loop [for (const platformName of platforms) await
    sendToPlatform(...)]. *)
Fixpoint sendToPlatforms (w : World) (names : list string)
    (args : SendCommandArgs) (cm : ConfigManager) (options : MessageOptions)
  : list Event :=
  match names with
  | [] => []
  | platformName :: rest =>
      sendToPlatform w platformName args cm options ++
      sendToPlatforms w rest args cm options
  end.

(** [handleSendCommand]: the events of the run, and the code given to
    [process.exit] when it is called. *)
Definition handleSendCommand (w : World) (args : SendCommandArgs)
  : list Event * option N :=
  let '(cm, loading) := new_ConfigManager w (args_config args) in
  match validateConfig w cm with
  | Throw err => (loading ++ [ConsoleError ("Error: " +:+ err)], Some 1%N)
  | Normal validation =>
      if negb (valid validation) then
        (loading ++
         ConsoleError "Configuration validation failed:" ::
         map (fun e => ConsoleError ("  - " +:+ e)) (errors validation),
         Some 1%N)
      else
        (loading ++
         sendToPlatforms w (selectPlatforms args cm) args cm (messageOptions args),
         None)
  end.

(** * Specifications *)

(** ** Identifier patterns *)

(** "Digits only": a non-empty string of the characters [0] to [9]. *)
Definition digits_only (s : string) : Prop :=
  s <> EmptyString /\
  Forall (fun c => (48 <= nat_of_ascii c <= 57)%nat) (list_ascii_of_string s).

(** "Optional leading minus, then digits". *)
Definition optional_minus_then_digits (s : string) : Prop :=
  digits_only s \/ exists t, s = String "-"%char t /\ digits_only t.

(** The entry of an alias in the channel table of a platform, when the
    platform has a table. *)
Definition alias_entry (table : option (gmap string string)) (aliasOrId : string)
  : option string :=
  chans ← table; chans !! aliasOrId.

(** The resolver as the specification words it: identifiers pass, a
    present alias gives its mapped value, an absent alias passes. *)
Definition resolve_as_specified (numeric : string -> bool)
    (table : option (gmap string string)) (aliasOrId : string) : string :=
  if numeric aliasOrId then aliasOrId
  else match alias_entry table aliasOrId with
       | Some mapped => mapped
       | None => aliasOrId
       end.

(** What the resolver does: as specified, except that an alias mapped to
    the empty string is treated like an absent alias. *)
Inductive Resolves (numeric : string -> Prop) (table : option (gmap string string))
    (aliasOrId : string) : string -> Prop :=
| resolves_identifier :
    numeric aliasOrId ->
    Resolves numeric table aliasOrId aliasOrId
| resolves_alias (mapped : string) :
    ~ numeric aliasOrId ->
    alias_entry table aliasOrId = Some mapped ->
    mapped <> EmptyString ->
    Resolves numeric table aliasOrId mapped
| resolves_unknown :
    ~ numeric aliasOrId ->
    alias_entry table aliasOrId = None \/
    alias_entry table aliasOrId = Some EmptyString ->
    Resolves numeric table aliasOrId aliasOrId.

(** ** Markdown escaping *)

(** Membership in the reserved punctuation of MarkdownV2. *)
Definition reserved (c : ascii) : bool :=
  existsb (Ascii.eqb c) TelegramPlatform.specialChars.

(** One escaping pass as the specification words it: every reserved
    character gets one backslash in front, everything else is copied. *)
Fixpoint escape_once (s : string) : string :=
  match s with
  | EmptyString => EmptyString
  | String c s' =>
      if reserved c then String "\"%char (String c (escape_once s'))
      else String c (escape_once s')
  end.

(** ** Configuration path, as the specification words it *)

(** Explicit argument, environment variable, home configuration file,
    current-directory configuration file, home dotfile. *)
Definition candidates_as_specified (w : World) (explicit : option string)
  : list string :=
  List.filter JS.truthy
    (option_list explicit ++ option_list (env w !! "NOTIFE_CONFIG_PATH") ++
     [ join [homedir w; ".notife"; "config.json"];
       join [cwd w; "config.json"];
       join [homedir w; ".notife.json"] ]).

(** ** Traces *)

Definition no_network (trace : list Event) : Prop :=
  Forall (fun e => is_http e = false) trace.

(** ** Sample configurations and environments *)

(** A configuration in which the alias [alerts] is mapped to an
    identifier and the alias [ops] to the empty string, on both
    platforms. *)
Definition sample_config : Config :=
  {| platforms :=
       {| discord :=
            Some {| discord_bot :=
                      Some (BotBlock
                              {| token := Some "discord-token";
                                 channels :=
                                   Some (<["alerts" := "123456789012345678"]>
                                           (<["ops" := ""]> ∅)) |}) |};
          telegram :=
            Some {| telegram_bot :=
                      Some {| token := Some "telegram-token";
                              channels :=
                                Some (<["alerts" := "-1001234567890"]>
                                        (<["ops" := ""]> ∅)) |} |};
          other_platforms := [] |};
     defaults := no_defaults |}.

Definition sample_manager : ConfigManager :=
  {| config := sample_config; configPath := "/home/dev/.notife/config.json" |}.

(** The README's example document: the [discord] block holds [token] and
    [channels] directly and has no [bot] property. *)
Definition botless_config : Config :=
  {| platforms :=
       {| discord := Some {| discord_bot := None |};
          telegram := None;
          other_platforms := [] |};
     defaults := no_defaults |}.

Definition ok_response : Response :=
  {| ok := true; status := 200%N;
     response_text := Normal "{}";
     response_json :=
       Normal {| json_id := Some "42"; json_description := None;
                 json_message_id := Some 42 |} |}.

(** A world whose only file is the home configuration file; the parser
    knows two documents, [sample] and [botless]. *)
Definition sample_world (content : string) : World :=
  {| fs := <["/home/dev/.notife/config.json" := RegularFile content]> ∅;
     homedir := "/home/dev";
     cwd := "/srv/app";
     env := ∅;
     JSON_parse := fun doc =>
       if String.eqb doc "sample"
       then Normal (ParsedValue (Some (platforms sample_config)) None)
       else if String.eqb doc "botless"
       then Normal (ParsedValue (Some (platforms botless_config)) None)
       else if String.eqb doc "null" then Normal ParsedNull
       else Throw "SyntaxError: Unexpected token";
     JSON_stringify := fun _ => "{}";
     now := "2024-01-01T00:00:00.000Z";
     type_error := fun expr => "TypeError: undefined is not an object (evaluating '" +:+ expr +:+ "')";
     prototype_text := fun key =>
       if String.eqb key "__proto__" then "[object Object]"
       else if String.eqb key "constructor" then "function Object() { [native code] }"
       else "function " +:+ key +:+ "() { [native code] }";
     write_error := fun _ => None;
     fetch := fun _ => Normal ok_response |}.

Definition sample_args : SendCommandArgs :=
  {| m := "hello"; args_discord := false; args_telegram := false;
     channelID := None; args_channel := None; args_format := None;
     args_silent := None; args_config := None; dry_run := false |}.

(** A world without any file and without environment variables. *)
Definition empty_world : World :=
  {| fs := ∅;
     homedir := "/home/dev";
     cwd := "/srv/app";
     env := ∅;
     JSON_parse := JSON_parse (sample_world "");
     JSON_stringify := JSON_stringify (sample_world "");
     now := now (sample_world "");
     type_error := type_error (sample_world "");
     prototype_text := prototype_text (sample_world "sample");
     write_error := write_error (sample_world "sample");
     fetch := fetch (sample_world "") |}.

(** A world with the two dotfiles only: one in the current directory,
    one in the home directory. *)
Definition dotfiles_world : World :=
  {| fs := <["/srv/app/.notife.json" := RegularFile "sample"]>
             (<["/home/dev/.notife.json" := RegularFile "sample"]> ∅);
     homedir := "/home/dev";
     cwd := "/srv/app";
     env := ∅;
     JSON_parse := JSON_parse (sample_world "");
     JSON_stringify := JSON_stringify (sample_world "");
     now := now (sample_world "");
     type_error := type_error (sample_world "");
     prototype_text := prototype_text (sample_world "sample");
     write_error := write_error (sample_world "sample");
     fetch := fetch (sample_world "") |}.

(** [chosen] is the first path of [paths] that exists, or [fallback]
    when none exists. *)
Definition first_existing_or (w : World) (paths : list string)
    (fallback chosen : string) : Prop :=
  (exists before after,
     paths = before ++ chosen :: after /\
     existsSync w chosen = true /\
     Forall (fun q => existsSync w q = false) before) \/
  (Forall (fun q => existsSync w q = false) paths /\ chosen = fallback).

(** [--discord --telegram -m hello]: both platforms, no channel flag. *)
Definition both_platforms_args : SendCommandArgs :=
  {| m := "hello"; args_discord := true; args_telegram := true;
     channelID := None; args_channel := None; args_format := None;
     args_silent := None; args_config := None; dry_run := false |}.

(** [--telegram --dry-run -m hello] *)
Definition telegram_dry_run_args : SendCommandArgs :=
  {| m := "hello"; args_discord := false; args_telegram := true;
     channelID := None; args_channel := None; args_format := None;
     args_silent := None; args_config := None; dry_run := true |}.

(** [--discord --channel alerts --dry-run -m hello] *)
Definition discord_alias_dry_run_args : SendCommandArgs :=
  {| m := "hello"; args_discord := true; args_telegram := false;
     channelID := None; args_channel := Some "alerts"; args_format := None;
     args_silent := None; args_config := None; dry_run := true |}.

(** The missing-channel error of Telegram. *)
Definition telegram_needs_channel : Event :=
  ConsoleError "Telegram requires --channelID or --channel parameter".

(** ** Proof automation *)

(** One case of the analysis of [validateConfig]: membership in a list
    of literal messages, against the shape of the configuration. *)
Ltac validation_case :=
  first
    [ intros (? & ? & ? & ? & ? & ?); simplify_eq/=; congruence || tauto
    | intros (? & ? & ?); simplify_eq/=; congruence || tauto
    | let H := fresh "H" in
      intros H; simpl in H; intuition (try discriminate; subst; simpl; eauto 10) ].

(** ** [src/config/setup.ts]: class [ConfigSetup] *)

(** The world after a change of the file system. *)
Definition with_fs (w : World) (files : gmap string FsEntry) : World :=
  {| fs := files;
     homedir := homedir w;
     cwd := cwd w;
     env := env w;
     JSON_parse := JSON_parse w;
     JSON_stringify := JSON_stringify w;
     now := now w;
     type_error := type_error w;
     prototype_text := prototype_text w;
     write_error := write_error w;
     fetch := fetch w |}.

(** A file stands where [path] needs a directory: an entry that is not a
    directory, at a path of which [path] is a descendant.  Nothing can be
    created there (ENOTDIR). *)
Definition not_a_directory (w : World) (path : string) : bool :=
  existsb (fun entry : string * FsEntry =>
             match snd entry with
             | Directory => false
             | RegularFile _ | Unreadable _ =>
                 String.prefix (fst entry +:+ "/") path
             end)
          (map_to_list (fs w)).

(** [mkdirSync(dir, { recursive: true })]: throws when a file stands
    above [dir] or at [dir], or when the file system refuses to create
    the directory for a reason of its own ([write_error]: no permission,
    a read-only or full disk, ...); returns without a change when [dir]
    is a directory already; otherwise the directory exists afterwards.
    The file system of the model has entries for the paths that the
    program names; the missing directories above [dir], which
    [recursive] creates as well, get no entry. *)
Definition mkdirSync (w : World) (dir : string) : Completion World :=
  if not_a_directory w dir then
    Throw ("Error: ENOTDIR: not a directory, mkdir '" +:+ dir +:+ "'")
  else
    match fs w !! dir with
    | Some Directory => Normal w
    | Some _ =>
        Throw ("Error: EEXIST: file already exists, mkdir '" +:+ dir +:+ "'")
    | None =>
        match write_error w dir with
        | Some err => Throw err
        | None => Normal (with_fs w (<[dir := Directory]> (fs w)))
        end
    end.

(** [copyFileSync(src, dest)]: throws when the source cannot be read,
    when a file stands above the destination, when the destination is a
    directory, or when the file system refuses to write the destination
    for a reason of its own ([write_error]); otherwise the destination
    holds the content of the source. *)
Definition copyFileSync (w : World) (src dest : string) : Completion World :=
  content ← readFileSync w src;
  if not_a_directory w dest then
    Throw ("Error: ENOTDIR: not a directory, copyfile '" +:+ src +:+ "' -> '" +:+
           dest +:+ "'")
  else
    match fs w !! dest with
    | Some Directory =>
        Throw ("Error: EISDIR: illegal operation on a directory, copyfile '" +:+
               src +:+ "' -> '" +:+ dest +:+ "'")
    | _ =>
        match write_error w dest with
        | Some err => Throw err
        | None => Normal (with_fs w (<[dest := RegularFile content]> (fs w)))
        end
    end.

Module ConfigSetup.

Definition CONFIG_DIR (w : World) : string := join [homedir w; ".pushr"].

Definition CONFIG_FILE (w : World) : string := join [CONFIG_DIR w; "config.json"].

Definition EXAMPLE_CONFIG : string := "config.json.example".

Definition hasConfig (w : World) : bool := existsSync w (CONFIG_FILE w).

Definition getConfigPath (w : World) : string := CONFIG_FILE w.

(** [findExampleConfig].  [possiblePaths] is the array of the candidate
    locations of the example file, as [path.join] and [path.dirname]
    compute them from the working directory, [__dirname] and
    [process.argv[1]]; the loop returns the first that exists. *)
Definition findExampleConfig (w : World) (possiblePaths : list string)
  : option string :=
  first_existing w possiblePaths.

(** A text between double quotes. *)
Definition quoted (s : string) : string :=
  String "034"%char (s +:+ String "034"%char EmptyString).

(** The lines written by [initializeConfig] after the copy. *)
Definition created_lines (w : World) : list Event :=
  [ ConsoleLog ("✅ Configuration file created at: " +:+ CONFIG_FILE w);
    ConsoleLog "";
    ConsoleLog "📝 Please edit the configuration file to add your platform credentials:";
    ConsoleLog ("   " +:+ CONFIG_FILE w);
    ConsoleLog "";
    ConsoleLog "💡 After configuring, you can use pushr like this:";
    ConsoleLog ("   npx pushr --discord --channel alerts -m " +:+
                quoted "Hello World!");
    ConsoleLog ("   npx pushr --telegram --channel general -m " +:+
                quoted "Deployment complete");
    ConsoleLog "" ].

(** The first statement of [initializeConfig]: the directory is created
    when it is missing. *)
Definition ensure_directory (w : World) : Completion World :=
  if negb (existsSync w (CONFIG_DIR w)) then mkdirSync w (CONFIG_DIR w)
  else Normal w.

(** [initializeConfig]: the world it leaves, and its console output or
    the error it throws.  The directory is created before the example is
    looked up, so it stays when a later statement throws. *)
Definition initializeConfig (w : World) (possiblePaths : list string)
  : World * Completion (list Event) :=
  match ensure_directory w with
  | Throw err =>
      (w, Throw ("Error: Failed to initialize configuration: " +:+ err))
  | Normal w1 =>
      let attempt : Completion World :=
        match findExampleConfig w1 possiblePaths with
        | None => Throw "Error: Could not find config.json.example file"
        | Some examplePath => copyFileSync w1 examplePath (CONFIG_FILE w1)
        end in
      match attempt with
      | Normal w2 => (w2, Normal (created_lines w))
      | Throw err =>
          (w1, Throw ("Error: Failed to initialize configuration: " +:+ err))
      end
  end.

Definition showConfigHelp (w : World) : list Event :=
  [ ConsoleLog "🔧 Configuration Setup Required";
    ConsoleLog "";
    ConsoleLog "It looks like this is your first time using pushr!";
    ConsoleLog "A configuration file has been created for you.";
    ConsoleLog "";
    ConsoleLog "Please follow these steps:";
    ConsoleLog "1. Edit the configuration file with your platform credentials";
    ConsoleLog ("2. File location: " +:+ CONFIG_FILE w);
    ConsoleLog "3. Configure Discord bot token and channel IDs";
    ConsoleLog "4. Configure Telegram bot token and channel IDs";
    ConsoleLog "5. Run your command again";
    ConsoleLog "" ].

End ConfigSetup.

(** ** [src/index.ts]: [main] *)

(** [main].  [args] are the arguments of the send command as the
    command-line parser delivers them to [handleSendCommand]; the parser
    itself (help, version, rejection of unknown flags) is outside the
    model.  The result is the world that the run leaves, its events and
    the code given to [process.exit]. *)
Definition main (w : World) (examplePaths : list string) (args : SendCommandArgs)
  : World * list Event * option N :=
  if negb (ConfigSetup.hasConfig w) then
    let welcome := [ConsoleLog "🚀 Welcome to notife!"; ConsoleLog ""] in
    match ConfigSetup.initializeConfig w examplePaths with
    | (w', Normal created) =>
        (w', welcome ++ created ++ ConfigSetup.showConfigHelp w, Some 0%N)
    | (w', Throw err) =>
        (w', welcome ++ [ConsoleError ("Error: " +:+ err)], Some 1%N)
    end
  else
    let '(trace, code) := handleSendCommand w args in (w, trace, code).

(** ** Measures on traces *)

(** The requests of a trace. *)
Definition requests (trace : list Event) : list Request :=
  omap (fun e => match e with HttpRequest r => Some r | _ => None end) trace.

(** A trace that writes nothing with [console.log]. *)
Definition quiet (trace : list Event) : Prop :=
  Forall (fun e => match e with ConsoleLog _ => False | _ => True end) trace.

(** [prefix] starts [s]. *)
Definition starts_with (prefix s : string) : Prop :=
  exists rest, s = prefix +:+ rest.

(** The number of reserved characters of a text. *)
Fixpoint reserved_count (s : string) : nat :=
  match s with
  | EmptyString => 0%nat
  | String c s' => ((if reserved c then 1 else 0) + reserved_count s')%nat
  end.

(** A digit of base sixteen. *)
Definition is_hex (c : ascii) : Prop := JS.hex_digit c <> None.

(** ** Further sample environments *)

(** The sample world with both tokens in the environment. *)
Definition env_token_world : World :=
  {| fs := fs (sample_world "sample");
     homedir := "/home/dev";
     cwd := "/srv/app";
     env := <["NOTIFE_DISCORD_TOKEN" := "env-token"]>
              (<["NOTIFE_TELEGRAM_TOKEN" := "env-token"]> ∅);
     JSON_parse := JSON_parse (sample_world "sample");
     JSON_stringify := JSON_stringify (sample_world "sample");
     now := now (sample_world "sample");
     type_error := type_error (sample_world "sample");
     prototype_text := prototype_text (sample_world "sample");
     write_error := write_error (sample_world "sample");
     fetch := fetch (sample_world "sample") |}.

(** A configuration with a Telegram block only. *)
Definition telegram_only_manager : ConfigManager :=
  {| config :=
       {| platforms :=
            {| discord := None;
               telegram :=
                 Some {| telegram_bot :=
                           Some {| token := Some "telegram-token";
                                   channels := None |} |};
               other_platforms := [] |};
          defaults := no_defaults |};
     configPath := "/home/dev/.notife/config.json" |}.

(** The world with another network. *)
Definition with_fetch (w : World) (network : Request -> Completion Response)
  : World :=
  {| fs := fs w;
     homedir := homedir w;
     cwd := cwd w;
     env := env w;
     JSON_parse := JSON_parse w;
     JSON_stringify := JSON_stringify w;
     now := now w;
     type_error := type_error w;
     prototype_text := prototype_text w;
     write_error := write_error w;
     fetch := network |}.

(** [--discord --telegram --channelID 42 --silent -m hello] *)
Definition silent_args : SendCommandArgs :=
  {| m := "hello"; args_discord := true; args_telegram := true;
     channelID := Some "42"; args_channel := None; args_format := None;
     args_silent := Some true; args_config := None; dry_run := false |}.

(** A machine on which the program has never run: the only file is the
    example configuration of the package. *)
Definition fresh_world : World :=
  {| fs := <["/srv/app/config.json.example" := RegularFile "sample"]> ∅;
     homedir := "/home/dev";
     cwd := "/srv/app";
     env := ∅;
     JSON_parse := JSON_parse (sample_world "sample");
     JSON_stringify := JSON_stringify (sample_world "sample");
     now := now (sample_world "sample");
     type_error := type_error (sample_world "sample");
     prototype_text := prototype_text (sample_world "sample");
     write_error := write_error (sample_world "sample");
     fetch := fetch (sample_world "sample") |}.

(** The fresh machine with a regular file in the place of the directory
    of the setup. *)
Definition blocked_world : World :=
  with_fs fresh_world (<["/home/dev/.pushr" := RegularFile "notes"]> (fs fresh_world)).

(** The fresh machine with a home directory that cannot be written. *)
Definition readonly_world : World :=
  {| fs := fs fresh_world;
     homedir := homedir fresh_world;
     cwd := cwd fresh_world;
     env := env fresh_world;
     JSON_parse := JSON_parse fresh_world;
     JSON_stringify := JSON_stringify fresh_world;
     now := now fresh_world;
     type_error := type_error fresh_world;
     prototype_text := prototype_text fresh_world;
     write_error := fun path =>
       Some ("Error: EACCES: permission denied, mkdir '" +:+ path +:+ "'");
     fetch := fetch fresh_world |}.

(** A configuration whose Discord block has [bot: false]. *)
Definition falsy_bot_manager : ConfigManager :=
  {| config :=
       {| platforms := {| discord := Some {| discord_bot := Some FalsyBot |};
                          telegram := None;
                          other_platforms := [] |};
          defaults := no_defaults |};
     configPath := "/home/dev/.notife/config.json" |}.

(** A request to one of the two bot interfaces: a POST of a JSON body to
    a channel of Discord or to a bot of Telegram. *)
Definition api_request (r : Request) : Prop :=
  method r = "POST" /\
  In ("Content-Type", "application/json") (headers r) /\
  (starts_with "https://discord.com/api/v10/channels/" (url r) \/
   starts_with "https://api.telegram.org/bot" (url r)).

(** The first truthy value of a list of optional strings. *)
Fixpoint first_truthy (candidates : list (option string)) : option string :=
  match candidates with
  | [] => None
  | candidate :: rest =>
      if JS.truthy_opt candidate then candidate else first_truthy rest
  end.

(** A world whose configuration names [slack] as default platform. *)
Definition slack_default_world : World :=
  {| fs := fs (sample_world "sample");
     homedir := "/home/dev";
     cwd := "/srv/app";
     env := ∅;
     JSON_parse := fun _ =>
       Normal (ParsedValue (Some (platforms sample_config))
                 (Some {| platform := Some "slack"; channel := None |}));
     JSON_stringify := JSON_stringify (sample_world "sample");
     now := now (sample_world "sample");
     type_error := type_error (sample_world "sample");
     prototype_text := prototype_text (sample_world "sample");
     write_error := write_error (sample_world "sample");
     fetch := fetch (sample_world "sample") |}.

(** * Lemmas on strings *)

Example split_three_parts :
  JS.split "|" "Title|Description|#ff0000" = ["Title"; "Description"; "#ff0000"].
Proof. reflexivity. Qed.

Example split_keeps_empty_parts :
  JS.split "|" "" = [""] /\ JS.split "|" "a||" = ["a"; ""; ""].
Proof. split; reflexivity. Qed.

Example identifier_patterns :
  JS.test_digits "123456789012345678" = true /\
  JS.test_digits "" = false /\
  JS.test_digits "12a" = false /\
  JS.test_digits "-100" = false /\
  JS.test_signed_digits "-1001234567890" = true /\
  JS.test_signed_digits "-" = false /\
  JS.test_signed_digits "--1" = false /\
  JS.test_signed_digits "@channel" = false.
Proof. repeat split; reflexivity. Qed.

Example parseInt16_values :
  JS.parseInt16 "ff0000" = JS.Int 16711680 /\
  JS.parseInt16 "0x10" = JS.Int 16 /\
  JS.parseInt16 "12px" = JS.Int 18 /\
  JS.parseInt16 "-ff" = JS.Int (-255) /\
  JS.parseInt16 "red" = JS.NaN /\
  JS.parseInt16 "" = JS.NaN.
Proof. repeat split; reflexivity. Qed.

Example replace_first_only :
  JS.replace_first "#" "" "#ff#00" = "ff#00".
Proof. reflexivity. Qed.

(** Escaping a text twice doubles the backslashes: the formatter is not
    idempotent. *)
Example escapeMarkdownV2_values :
  TelegramPlatform.escapeMarkdownV2 "v1.2 (beta)_*" = "v1\.2 \(beta\)\_\*" /\
  TelegramPlatform.escapeMarkdownV2 "a\b" = "a\b" /\
  TelegramPlatform.escapeMarkdownV2 (TelegramPlatform.escapeMarkdownV2 "_") = "\\_".
Proof. repeat split; reflexivity. Qed.

Lemma truthy_nonempty (s : string) : JS.truthy s = true <-> s <> EmptyString.
Proof. destruct s; simpl; split; congruence. Qed.

Lemma truthy_empty (s : string) : JS.truthy s = false <-> s = EmptyString.
Proof. destruct s; simpl; split; congruence. Qed.

Lemma append_cons (x : ascii) (a b : string) :
  String x a +:+ b = String x (a +:+ b).
Proof. reflexivity. Qed.

Lemma append_empty_l (b : string) : EmptyString +:+ b = b.
Proof. reflexivity. Qed.

Lemma append_empty_r (a : string) : a +:+ EmptyString = a.
Proof.
  induction a as [|x a IH]; [reflexivity |]. now rewrite append_cons, IH.
Qed.

Lemma append_assoc (a b c : string) : (a +:+ b) +:+ c = a +:+ (b +:+ c).
Proof.
  induction a as [|x a IH]; [reflexivity |]. now rewrite !append_cons, IH.
Qed.

Lemma is_digit_range (c : ascii) :
  JS.is_digit c = true <-> (48 <= nat_of_ascii c <= 57)%nat.
Proof.
  unfold JS.is_digit. rewrite andb_true_iff, !Nat.leb_le. reflexivity.
Qed.

Lemma all_digits_Forall (s : string) :
  JS.all_digits s = true <->
  Forall (fun c => (48 <= nat_of_ascii c <= 57)%nat) (list_ascii_of_string s).
Proof.
  induction s as [|c s IH]; simpl.
  - split; [constructor | reflexivity].
  - rewrite andb_true_iff, Forall_cons, IH, is_digit_range. reflexivity.
Qed.

Lemma test_digits_spec (s : string) : JS.test_digits s = true <-> digits_only s.
Proof.
  unfold digits_only. destruct s as [|c s].
  - simpl. split; [discriminate | intros [H _]; congruence].
  - change (JS.test_digits (String c s)) with (JS.all_digits (String c s)).
    rewrite all_digits_Forall. split; [intros H; split; [discriminate | exact H] | tauto].
Qed.

Lemma minus_is_no_digit (t : string) : ~ digits_only (String "-"%char t).
Proof.
  intros [_ H]. simpl in H. apply Forall_cons in H as [H _].
  change (nat_of_ascii "-") with 45%nat in H. lia.
Qed.

Lemma test_signed_digits_minus (t : string) :
  JS.test_signed_digits (String "-"%char t) = JS.test_digits t.
Proof. reflexivity. Qed.

Lemma test_signed_digits_other (c : ascii) (s : string) :
  c <> "-"%char ->
  JS.test_signed_digits (String c s) = JS.test_digits (String c s).
Proof.
  intros Hc. unfold JS.test_signed_digits.
  destruct c as [[] [] [] [] [] [] [] []]; try reflexivity. now destruct Hc.
Qed.

Lemma test_signed_digits_spec (s : string) :
  JS.test_signed_digits s = true <-> optional_minus_then_digits s.
Proof.
  unfold optional_minus_then_digits. destruct s as [|c s].
  - simpl. split; [discriminate |].
    intros [[H _] | (t & Heq & _)]; [congruence | discriminate].
  - destruct (decide (c = "-"%char)) as [-> | Hc].
    + rewrite test_signed_digits_minus, test_digits_spec. split.
      * intros H. right. exists s. split; [reflexivity | exact H].
      * intros [H | (t & Heq & H)]; [now apply minus_is_no_digit in H |].
        now injection Heq as ->.
    + rewrite test_signed_digits_other, test_digits_spec by exact Hc.
      split; [tauto |].
      intros [H | (t & Heq & _)]; [exact H |]. injection Heq as -> _. now destruct Hc.
Qed.

(** * The channel resolver *)

Lemma inherited_spec (key : string) :
  JS.inherited key = true <-> In key JS.object_prototype.
Proof.
  unfold JS.inherited. rewrite existsb_exists. split.
  - intros (x & Hin & Heq). apply String.eqb_eq in Heq. now subst.
  - intros Hin. exists key. split; [exact Hin | apply String.eqb_refl].
Qed.

Lemma get_or_cases (chans : gmap string string) (aliasOrId : string) :
  ~ In aliasOrId JS.object_prototype ->
  (exists mapped, chans !! aliasOrId = Some mapped /\ mapped <> EmptyString /\
                  JS.get_or chans aliasOrId aliasOrId = JS.Str mapped) \/
  ((chans !! aliasOrId = None \/ chans !! aliasOrId = Some EmptyString) /\
   JS.get_or chans aliasOrId aliasOrId = JS.Str aliasOrId).
Proof.
  intros Hown. unfold JS.get_or, JS.get.
  destruct (chans !! aliasOrId) as [[|c v]|]; simpl.
  - right. eauto.
  - left. eexists. repeat split. discriminate.
  - destruct (JS.inherited aliasOrId) eqn:Hin.
    + now apply inherited_spec in Hin.
    + right. eauto.
Qed.

Lemma resolver_shape (numeric_test : string -> bool) (numeric : string -> Prop)
    (table : option (gmap string string)) (aliasOrId : string) :
  (numeric_test aliasOrId = true <-> numeric aliasOrId) ->
  ~ In aliasOrId JS.object_prototype ->
  exists r,
    match table with
    | None => JS.Str aliasOrId
    | Some chans =>
        if numeric_test aliasOrId then JS.Str aliasOrId
        else JS.get_or chans aliasOrId aliasOrId
    end = JS.Str r /\
    Resolves numeric table aliasOrId r.
Proof.
  intros Hnum Hown. destruct (numeric_test aliasOrId) eqn:Htest.
  - assert (numeric aliasOrId) by now apply Hnum.
    exists aliasOrId. split; [now destruct table | now apply resolves_identifier].
  - assert (~ numeric aliasOrId) as Hnot by (rewrite <- Hnum; congruence).
    destruct table as [chans|].
    + destruct (get_or_cases chans aliasOrId Hown)
        as [(mapped & Hsome & Hne & ->) | [Hnone ->]].
      * exists mapped. split; [reflexivity | now apply resolves_alias].
      * exists aliasOrId. split; [reflexivity | now apply resolves_unknown].
    + exists aliasOrId. split; [reflexivity |].
      apply resolves_unknown; [exact Hnot | now left].
Qed.

Lemma or_else_nonempty (entry : option string) (fallback : string) :
  fallback <> EmptyString -> JS.or_else entry fallback <> EmptyString.
Proof.
  intros Hf. destruct entry as [[|c v]|]; simpl; [exact Hf | discriminate | exact Hf].
Qed.

Lemma get_or_truthy (chans : gmap string string) (key fallback : string) :
  fallback <> EmptyString -> JS.truthy_value (JS.get_or chans key fallback) = true.
Proof.
  intros Hf. apply truthy_nonempty in Hf. unfold JS.get_or.
  destruct (JS.get chans key) as [v|]; [| exact Hf].
  destruct (JS.truthy_value v) eqn:Hv; [exact Hv | exact Hf].
Qed.

Lemma getDiscordChannel_truthy (cm : ConfigManager) (target : string) :
  target <> EmptyString -> JS.truthy_value (getDiscordChannel cm target) = true.
Proof.
  intros H. unfold getDiscordChannel.
  destruct (discord_channels (config cm)); [| now apply truthy_nonempty].
  destruct (JS.test_digits target);
    [now apply truthy_nonempty | now apply get_or_truthy].
Qed.

Lemma getTelegramChannel_truthy (cm : ConfigManager) (target : string) :
  target <> EmptyString -> JS.truthy_value (getTelegramChannel cm target) = true.
Proof.
  intros H. unfold getTelegramChannel.
  destruct (telegram_channels (config cm)); [| now apply truthy_nonempty].
  destruct (JS.test_signed_digits target);
    [now apply truthy_nonempty | now apply get_or_truthy].
Qed.

(** The policy determines the result. *)
Lemma Resolves_deterministic (numeric : string -> Prop)
    (table : option (gmap string string)) (aliasOrId r1 r2 : string) :
  Resolves numeric table aliasOrId r1 ->
  Resolves numeric table aliasOrId r2 ->
  r1 = r2.
Proof.
  intros H1 H2.
  destruct H1 as [Hn | mapped Hn He Hm | Hn He];
    destruct H2 as [Hn' | mapped' Hn' He' Hm' | Hn' He'];
    try reflexivity; try contradiction; try congruence.
  - destruct He' as [He' | He']; congruence.
  - destruct He as [He | He]; congruence.
Qed.

(** C3 (as amended). For every configuration and every input that is not
    the name of a property inherited from [Object.prototype], the Discord
    and the Telegram resolver return a string: the input unchanged when
    it matches the platform's identifier pattern, whatever the alias
    table holds; otherwise the mapped value when the input is an alias
    with a non-empty mapped value, and the input unchanged when the alias
    is absent or mapped to the empty string.  The resolvers are total
    functions: nothing is raised. *)
Theorem channel_resolver_policy (cm : ConfigManager) (aliasOrId : string) :
  ~ In aliasOrId JS.object_prototype ->
  (exists r,
     getDiscordChannel cm aliasOrId = JS.Str r /\
     Resolves digits_only (discord_channels (config cm)) aliasOrId r) /\
  (exists r,
     getTelegramChannel cm aliasOrId = JS.Str r /\
     Resolves optional_minus_then_digits (telegram_channels (config cm))
              aliasOrId r).
Proof.
  intros Hown. split.
  - apply (resolver_shape JS.test_digits); [apply test_digits_spec | exact Hown].
  - apply (resolver_shape JS.test_signed_digits);
      [apply test_signed_digits_spec | exact Hown].
Qed.

(** C3 at the alias [alerts] of the sample configuration. *)
Lemma channel_resolver_policy_witness :
  ~ In "alerts" JS.object_prototype /\
  (exists r,
     getDiscordChannel sample_manager "alerts" = JS.Str r /\
     Resolves digits_only (discord_channels (config sample_manager)) "alerts" r) /\
  (exists r,
     getTelegramChannel sample_manager "alerts" = JS.Str r /\
     Resolves optional_minus_then_digits
              (telegram_channels (config sample_manager)) "alerts" r).
Proof.
  assert (~ In "alerts" JS.object_prototype) as Hown.
  { intros Hin. apply inherited_spec in Hin. vm_compute in Hin. discriminate. }
  split; [exact Hown | exact (channel_resolver_policy sample_manager "alerts" Hown)].
Defined.

(** C3 (as stated) fails: the alias [ops] is present in both channel
    tables, mapped to the empty string, and both resolvers return the
    alias instead of the mapped value. *)
Lemma resolver_drops_empty_mapping :
  JS.test_digits "ops" = false /\
  JS.test_signed_digits "ops" = false /\
  alias_entry (discord_channels sample_config) "ops" = Some EmptyString /\
  alias_entry (telegram_channels sample_config) "ops" = Some EmptyString /\
  getDiscordChannel sample_manager "ops" = JS.Str "ops" /\
  getTelegramChannel sample_manager "ops" = JS.Str "ops" /\
  getDiscordChannel sample_manager "ops" <>
    JS.Str (resolve_as_specified JS.test_digits
              (discord_channels sample_config) "ops") /\
  getTelegramChannel sample_manager "ops" <>
    JS.Str (resolve_as_specified JS.test_signed_digits
              (telegram_channels sample_config) "ops").
Proof. vm_compute. repeat split; discriminate. Qed.

(** * The senders reach the network for every non-empty target *)

Lemma discord_sendMessage_shape (w : World) (cm : ConfigManager)
    (target message : string) (options : MessageOptions) :
  target <> EmptyString ->
  DiscordPlatform.sendMessage w cm target message options =
  match getDiscordToken w cm with
  | Some token_ =>
      if JS.truthy token_
      then DiscordPlatform.sendBotMessage w token_ (getDiscordChannel cm target)
             message options
      else (createErrorResult w "Discord bot token not configured", [])
  | None => (createErrorResult w "Discord bot token not configured", [])
  end.
Proof.
  intros Ht. unfold DiscordPlatform.sendMessage.
  destruct (getDiscordToken w cm) as [tok|]; [|reflexivity].
  destruct (JS.truthy tok); [simpl | reflexivity].
  now rewrite (getDiscordChannel_truthy cm target Ht).
Qed.

Lemma telegram_sendMessage_shape (w : World) (cm : ConfigManager)
    (target message : string) (options : MessageOptions) :
  target <> EmptyString ->
  TelegramPlatform.sendMessage w cm target message options =
  match getTelegramToken w cm with
  | Some token_ =>
      if JS.truthy token_
      then TelegramPlatform.sendBotMessage w token_ (getTelegramChannel cm target)
             message options
      else (createErrorResult w "Telegram bot token not configured", [])
  | None => (createErrorResult w "Telegram bot token not configured", [])
  end.
Proof.
  intros Ht. unfold TelegramPlatform.sendMessage.
  destruct (getTelegramToken w cm) as [tok|]; [|reflexivity].
  destruct (JS.truthy tok); [simpl | reflexivity].
  now rewrite (getTelegramChannel_truthy cm target Ht).
Qed.

(** For a non-empty target that is not the name of an inherited property
    the resolvers return a non-empty string. *)
Lemma resolved_channel_nonempty_string (cm : ConfigManager) (target : string) :
  target <> EmptyString ->
  ~ In target JS.object_prototype ->
  (exists r, getDiscordChannel cm target = JS.Str r /\ r <> EmptyString) /\
  (exists r, getTelegramChannel cm target = JS.Str r /\ r <> EmptyString).
Proof.
  intros Hne Hown. split.
  - pose proof (getDiscordChannel_truthy cm target Hne) as Htruthy.
    destruct (resolver_shape JS.test_digits digits_only
                (discord_channels (config cm)) target
                (test_digits_spec target) Hown) as (r & Hr & _).
    fold (getDiscordChannel cm target) in Hr. rewrite Hr in Htruthy.
    exists r. split; [exact Hr | now destruct r].
  - pose proof (getTelegramChannel_truthy cm target Hne) as Htruthy.
    destruct (resolver_shape JS.test_signed_digits optional_minus_then_digits
                (telegram_channels (config cm)) target
                (test_signed_digits_spec target) Hown) as (r & Hr & _).
    fold (getTelegramChannel cm target) in Hr. rewrite Hr in Htruthy.
    exists r. split; [exact Hr | now destruct r].
Qed.

(** An alias that is not a key of the channel table and names a property
    of [Object.prototype] resolves to that property. *)
Lemma inherited_alias_resolves_to_property (chans : gmap string string)
    (aliasOrId : string) :
  chans !! aliasOrId = None ->
  In aliasOrId JS.object_prototype ->
  JS.get_or chans aliasOrId aliasOrId = JS.Inherited aliasOrId.
Proof.
  intros Hnone Hin. apply inherited_spec in Hin.
  unfold JS.get_or, JS.get. now rewrite Hnone, Hin.
Qed.

(** C10 fails on the code.  With a channel table that has no key
    [constructor], both resolvers give for the non-empty target
    [constructor] the function that every object inherits, not a string;
    the sender then puts the text of that function into the address of
    the request.  The "Invalid ... channel" branch is still not taken:
    the value is truthy. *)
Theorem resolver_returns_inherited_property :
  alias_entry (discord_channels sample_config) "constructor" = None /\
  getDiscordChannel sample_manager "constructor" = JS.Inherited "constructor" /\
  getTelegramChannel sample_manager "constructor" = JS.Inherited "constructor" /\
  (forall s, getDiscordChannel sample_manager "constructor" <> JS.Str s) /\
  snd (DiscordPlatform.sendMessage (sample_world "sample") sample_manager
         "constructor" "hello" no_options) =
    [ HttpRequest
        {| url := "https://discord.com/api/v10/channels/function Object() { [native code] }/messages";
           method := "POST";
           headers := [("Authorization", "Bot discord-token");
                       ("Content-Type", "application/json")];
           body := DiscordBody (Content "hello") |} ] /\
  snd (TelegramPlatform.sendMessage (sample_world "sample") sample_manager
         "constructor" "hello" no_options) =
    [ HttpRequest
        {| url := "https://api.telegram.org/bottelegram-token/sendMessage";
           method := "POST";
           headers := [("Content-Type", "application/json")];
           body := TelegramBody
                     {| text := "hello"; disable_notification := false;
                        parse_mode := None;
                        chat_id := Some (JS.Inherited "constructor") |} |} ].
Proof. vm_compute. repeat split; try reflexivity. intros s. discriminate. Qed.

(** * Markdown escaping *)

Lemma replace_all_app (c : ascii) (by_ s1 s2 : string) :
  JS.replace_all c by_ (s1 +:+ s2) =
  JS.replace_all c by_ s1 +:+ JS.replace_all c by_ s2.
Proof.
  induction s1 as [|x s1 IH]; [reflexivity |].
  rewrite append_cons. simpl. rewrite IH.
  destruct (Ascii.eqb x c); [now rewrite append_assoc | now rewrite append_cons].
Qed.

(** A sequence of global replacements distributes over concatenation. *)
Lemma replacements_app (chars : list ascii) (s1 s2 : string) :
  fold_left (fun escaped char =>
               JS.replace_all char (TelegramPlatform.backslashed char) escaped)
            chars (s1 +:+ s2) =
  fold_left (fun escaped char =>
               JS.replace_all char (TelegramPlatform.backslashed char) escaped)
            chars s1 +:+
  fold_left (fun escaped char =>
               JS.replace_all char (TelegramPlatform.backslashed char) escaped)
            chars s2.
Proof.
  revert s1 s2. induction chars as [|char chars IH]; intros s1 s2; simpl.
  - reflexivity.
  - rewrite replace_all_app. apply IH.
Qed.

Lemma escapeMarkdownV2_app (s1 s2 : string) :
  TelegramPlatform.escapeMarkdownV2 (s1 +:+ s2) =
  TelegramPlatform.escapeMarkdownV2 s1 +:+ TelegramPlatform.escapeMarkdownV2 s2.
Proof. apply replacements_app. Qed.

(** The eighteen passes on a single character: the pass of the character
    itself puts the backslash, and no later pass touches the backslash or
    the character. *)
Lemma escapeMarkdownV2_char (c : ascii) :
  TelegramPlatform.escapeMarkdownV2 (String c EmptyString) =
  if reserved c then TelegramPlatform.backslashed c else String c EmptyString.
Proof. destruct c as [[] [] [] [] [] [] [] []]; vm_compute; reflexivity. Qed.

Lemma escapeMarkdownV2_escape_once (s : string) :
  TelegramPlatform.escapeMarkdownV2 s = escape_once s.
Proof.
  induction s as [|c s IH]; [reflexivity |].
  change (String c s) with (String c EmptyString +:+ s).
  rewrite escapeMarkdownV2_app, escapeMarkdownV2_char, IH.
  change (escape_once (String c EmptyString +:+ s))
    with (if reserved c then String "\"%char (String c (escape_once s))
          else String c (escape_once s)).
  destruct (reserved c); reflexivity.
Qed.

Lemma reserved_spec (c : ascii) :
  reserved c = true <->
  In c [ "_"; "*"; "["; "]"; "("; ")"; "~"; "`"; ">"; "#"; "+"; "-"; "=";
         "|"; "{"; "}"; "."; "!" ]%char.
Proof.
  unfold reserved. rewrite existsb_exists. split.
  - intros (x & Hin & Heq). apply Ascii.eqb_eq in Heq. now subst.
  - intros Hin. exists c. split; [exact Hin | apply Ascii.eqb_refl].
Qed.

(** C5. The reserved characters are the eighteen distinct characters
    [_ * [ ] ( ) ~ ` > # + - = | { } . !]; on every string the formatter
    computes exactly one escaping pass (each reserved character gets one
    backslash in front, every other character is copied); and a send in
    the markdown format issues one request whose text is that single pass
    over the message. *)
Theorem markdown_escaping_single_pass :
  length TelegramPlatform.specialChars = 18%nat /\
  NoDup TelegramPlatform.specialChars /\
  (forall c, reserved c = true <->
             In c [ "_"; "*"; "["; "]"; "("; ")"; "~"; "`"; ">"; "#"; "+"; "-";
                    "="; "|"; "{"; "}"; "."; "!" ]%char) /\
  (forall s, TelegramPlatform.escapeMarkdownV2 s = escape_once s) /\
  (forall (w : World) (token_ : string) (channelId : JS.value)
          (message : string)
          (silent_ : option bool) (title_ color_ : option string)
          (fields_ : option (list Field)),
     snd (TelegramPlatform.sendBotMessage w token_ channelId message
            {| format := Some markdown; silent := silent_; title := title_;
               color := color_; fields := fields_ |}) =
     [ HttpRequest
         {| url := "https://api.telegram.org/bot" +:+ token_ +:+ "/sendMessage";
            method := "POST";
            headers := [("Content-Type", "application/json")];
            body := TelegramBody
                      {| text := escape_once message;
                         disable_notification := JS.or_false silent_;
                         parse_mode := Some "MarkdownV2";
                         chat_id := Some channelId |} |} ]).
Proof.
  split; [reflexivity |].
  split; [apply (bool_decide_unpack _); vm_compute; exact I |].
  split; [exact reserved_spec |].
  split; [exact escapeMarkdownV2_escape_once |].
  intros. unfold TelegramPlatform.sendBotMessage, TelegramPlatform.request. simpl.
  now rewrite escapeMarkdownV2_escape_once.
Qed.

(** * Embed formatting *)

Lemma split_without_separator (sep : ascii) (s : string) :
  ~ In sep (list_ascii_of_string s) -> JS.split sep s = [s].
Proof.
  induction s as [|c s IH]; intros Hno; [reflexivity |].
  simpl in *. destruct (Ascii.eqb_spec c sep) as [-> | Hne].
  - destruct Hno. now left.
  - rewrite IH; [reflexivity | tauto].
Qed.

(** C6. For a non-empty message without [|], with the embed format: the
    Discord payload is a single embed whose title and description are
    both the whole message, and the Telegram text is the escaped message
    in bold followed by the escaped message; neither the "Notification"
    title nor [options.title] is used. *)
Theorem embed_without_separator (w : World) (message : string)
    (silent_ : option bool) (title_ color_ : option string)
    (fields_ : option (list Field)) :
  message <> EmptyString ->
  ~ In "|"%char (list_ascii_of_string message) ->
  DiscordPlatform.createBotPayload w message
    {| format := Some embed; silent := silent_; title := title_;
       color := color_; fields := fields_ |} =
  Embeds [ {| embed_title := message;
              embed_description := message;
              embed_timestamp := now w;
              embed_color :=
                if JS.truthy_opt color_
                then DiscordPlatform.parse_color <$> color_ else None;
              embed_fields := fields_ |} ] /\
  TelegramPlatform.formatAsEmbed message
    {| format := Some embed; silent := silent_; title := title_;
       color := color_; fields := fields_ |} =
  match fields_ with
  | Some (f :: fs) =>
      TelegramPlatform.append_fields
        (("*" +:+ escape_once message +:+ "*" +:+ TelegramPlatform.newline2 +:+
          escape_once message) +:+ TelegramPlatform.newline2)
        (f :: fs)
  | _ =>
      "*" +:+ escape_once message +:+ "*" +:+ TelegramPlatform.newline2 +:+
      escape_once message
  end.
Proof.
  intros Hne Hsep.
  assert (JS.truthy message = true) as Htruthy by now apply truthy_nonempty.
  split.
  - unfold DiscordPlatform.createBotPayload. simpl.
    rewrite (split_without_separator _ _ Hsep). simpl.
    now rewrite Htruthy.
  - unfold TelegramPlatform.formatAsEmbed, JS.or_opt. simpl.
    rewrite (split_without_separator _ _ Hsep). simpl.
    rewrite Htruthy. simpl. rewrite Htruthy, !escapeMarkdownV2_escape_once.
    now destruct fields_ as [[|f fs]|].
Qed.

(** C6 at the message [OnlyTitle]. *)
Lemma embed_without_separator_witness :
  DiscordPlatform.createBotPayload (sample_world "sample") "OnlyTitle"
    {| format := Some embed; silent := None; title := Some "Custom";
       color := None; fields := None |} =
  Embeds [ {| embed_title := "OnlyTitle";
              embed_description := "OnlyTitle";
              embed_timestamp := "2024-01-01T00:00:00.000Z";
              embed_color := None;
              embed_fields := None |} ].
Proof.
  apply (embed_without_separator (sample_world "sample") "OnlyTitle"
           None (Some "Custom") None None).
  - discriminate.
  - vm_compute. intuition discriminate.
Defined.

(** C7. The message [Title|Description|#ff0000] in the embed format gives
    a Discord payload with one embed: title [Title], description
    [Description], colour 16711680, and the reading of the clock at
    formatting time, rendered by [toISOString], as timestamp. *)
Theorem discord_embed_example (w : World)
    (silent_ : option bool) (title_ color_ : option string)
    (fields_ : option (list Field)) :
  DiscordPlatform.createBotPayload w "Title|Description|#ff0000"
    {| format := Some embed; silent := silent_; title := title_;
       color := color_; fields := fields_ |} =
  Embeds [ {| embed_title := "Title";
              embed_description := "Description";
              embed_timestamp := now w;
              embed_color := Some (JS.Int 16711680);
              embed_fields := fields_ |} ].
Proof. reflexivity. Qed.

(** * Loading the configuration *)

(** C8. [loadConfig] returns the empty default configuration, without
    throwing, when no file exists at the resolved path (with a warning)
    and when the content of the file does not parse (with the parser's
    error written to the console); the constructor of [ConfigManager]
    does so for the path it resolves. *)
Theorem load_degrades_to_default (w : World) (explicit : option string) :
  platform_keys (platforms defaultConfig) = [] /\
  defaults defaultConfig = {| platform := None; channel := None |} /\
  (forall path,
     fs w !! path = None ->
     loadConfig w path =
       (defaultConfig,
        [ConsoleWarn ("Config file not found at " +:+ path +:+
                      ". Using default configuration.")])) /\
  (forall path content err,
     fs w !! path = Some (RegularFile content) ->
     JSON_parse w content = Throw err ->
     loadConfig w path =
       (defaultConfig, [ConsoleError ("Error loading config file: " +:+ err)])) /\
  (fs w !! JS.or_else explicit (findConfigFile w) = None \/
   (exists content err,
      fs w !! JS.or_else explicit (findConfigFile w) = Some (RegularFile content) /\
      JSON_parse w content = Throw err) ->
   fst (new_ConfigManager w explicit) =
     {| config := defaultConfig;
        configPath := JS.or_else explicit (findConfigFile w) |}).
Proof.
  assert (forall path, fs w !! path = None ->
            loadConfig w path =
              (defaultConfig,
               [ConsoleWarn ("Config file not found at " +:+ path +:+
                             ". Using default configuration.")])) as Hmissing.
  { intros path H. unfold loadConfig, existsSync. now rewrite H. }
  assert (forall path content err,
            fs w !! path = Some (RegularFile content) ->
            JSON_parse w content = Throw err ->
            loadConfig w path =
              (defaultConfig,
               [ConsoleError ("Error loading config file: " +:+ err)])) as Hbroken.
  { intros path content err H Hp.
    unfold loadConfig, existsSync, readFileSync. rewrite H. simpl.
    unfold mbind, completion_bind. now rewrite Hp. }
  repeat split; [exact Hmissing | exact Hbroken |].
  unfold new_ConfigManager.
  intros [H | (content & err & H & Hp)].
  - now rewrite (Hmissing _ H).
  - now rewrite (Hbroken _ _ _ H Hp).
Qed.

(** C8 in two worlds: one without any file, one whose configuration file
    holds a malformed document. *)
Lemma load_degrades_to_default_witness :
  loadConfig empty_world "/home/dev/.notife/config.json" =
    (defaultConfig,
     [ConsoleWarn "Config file not found at /home/dev/.notife/config.json. Using default configuration."]) /\
  loadConfig (sample_world "{ platforms: ") "/home/dev/.notife/config.json" =
    (defaultConfig,
     [ConsoleError "Error loading config file: SyntaxError: Unexpected token"]) /\
  fst (new_ConfigManager empty_world None) =
    {| config := defaultConfig; configPath := "/home/dev/.notife/config.json" |} /\
  fst (new_ConfigManager (sample_world "{ platforms: ") None) =
    {| config := defaultConfig; configPath := "/home/dev/.notife/config.json" |}.
Proof.
  destruct (load_degrades_to_default empty_world None)
    as (_ & _ & Hmissing & _ & Hnew).
  destruct (load_degrades_to_default (sample_world "{ platforms: ") None)
    as (_ & _ & _ & Hbroken & Hnew').
  split; [apply Hmissing; vm_compute; reflexivity |].
  split; [apply (Hbroken _ "{ platforms: "); vm_compute; reflexivity |].
  split.
  - apply Hnew. left. vm_compute. reflexivity.
  - apply Hnew'. right. exists "{ platforms: ", "SyntaxError: Unexpected token".
    split; vm_compute; reflexivity.
Defined.

(** * The path of the configuration file *)

Lemma first_existing_spec (w : World) (paths : list string) (fallback : string) :
  first_existing_or w paths fallback (default fallback (first_existing w paths)).
Proof.
  induction paths as [|path rest IH]; simpl.
  - right. split; [constructor | reflexivity].
  - destruct (existsSync w path) eqn:Hpath; simpl.
    + left. exists [], rest. repeat split; [exact Hpath | constructor].
    + destruct IH as [(before & after & Heq & Hex & Hbefore) | [Hnone Heq]].
      * left. exists (path :: before), after.
        split; [now rewrite Heq at 1 |]. split; [exact Hex | now constructor].
      * right. split; [now constructor | exact Heq].
Qed.

Lemma joined_truthy (a b : string) : JS.truthy (a +:+ "/" +:+ b) = true.
Proof. destruct a; reflexivity. Qed.

Lemma possiblePaths_order (w : World) :
  possiblePaths w =
  match env w !! "NOTIFE_CONFIG_PATH" with
  | Some p => if JS.truthy p then [p] else []
  | None => []
  end ++
  [ join [homedir w; ".notife"; "config.json"];
    join [cwd w; "config.json"];
    join [cwd w; ".notife.json"];
    join [homedir w; ".notife.json"] ].
Proof.
  unfold possiblePaths. rewrite List.filter_app. f_equal.
  - destruct (env w !! "NOTIFE_CONFIG_PATH") as [p|]; simpl; [|reflexivity].
    now destruct (JS.truthy p).
  - cbn [List.filter join]. now rewrite !joined_truthy.
Qed.

Lemma configPath_new (w : World) (explicit : option string) :
  configPath (fst (new_ConfigManager w explicit)) =
  JS.or_else explicit (findConfigFile w).
Proof.
  unfold new_ConfigManager.
  now destruct (loadConfig w (JS.or_else explicit (findConfigFile w))).
Qed.

(** C2 (as amended). A non-empty explicit path is used as it is, whether
    or not it exists.  Otherwise the candidates are, in this order: the
    path of the environment variable when it is set and non-empty, the
    home configuration file, the configuration file of the current
    directory, the dotfile of the current directory, the dotfile of the
    home directory; the first candidate that exists is chosen, and the
    home configuration file when none exists. *)
Theorem config_path_precedence (w : World) (explicit : option string) :
  configPath (fst (new_ConfigManager w explicit)) =
    match explicit with
    | Some p => if JS.truthy p then p else findConfigFile w
    | None => findConfigFile w
    end /\
  possiblePaths w =
    match env w !! "NOTIFE_CONFIG_PATH" with
    | Some p => if JS.truthy p then [p] else []
    | None => []
    end ++
    [ join [homedir w; ".notife"; "config.json"];
      join [cwd w; "config.json"];
      join [cwd w; ".notife.json"];
      join [homedir w; ".notife.json"] ] /\
  first_existing_or w (possiblePaths w)
    (join [homedir w; ".notife"; "config.json"]) (findConfigFile w).
Proof.
  split; [apply configPath_new |].
  split; [apply possiblePaths_order |].
  unfold findConfigFile.
  pose proof (first_existing_spec w (possiblePaths w)
                (join [homedir w; ".notife"; "config.json"])) as H.
  now destruct (first_existing w (possiblePaths w)).
Qed.

(** C2 (as stated) fails twice.  An explicit path that does not exist is
    chosen although the home configuration file exists; and the dotfile
    of the current directory, a candidate the stated order does not have,
    is chosen before the dotfile of the home directory. *)
Lemma config_path_not_as_specified :
  first_existing (sample_world "sample")
    (candidates_as_specified (sample_world "sample") (Some "/tmp/missing.json")) =
    Some "/home/dev/.notife/config.json" /\
  configPath (fst (new_ConfigManager (sample_world "sample")
                     (Some "/tmp/missing.json"))) = "/tmp/missing.json" /\
  first_existing dotfiles_world (candidates_as_specified dotfiles_world None) =
    Some "/home/dev/.notife.json" /\
  configPath (fst (new_ConfigManager dotfiles_world None)) =
    "/srv/app/.notife.json".
Proof. vm_compute. repeat split; reflexivity. Qed.

(** * Validation *)

Lemma loadConfig_console_only (w : World) (path : string) :
  no_network (snd (loadConfig w path)).
Proof.
  unfold loadConfig, no_network.
  destruct (negb (existsSync w path)); simpl; [repeat constructor |].
  match goal with |- context [match ?a with Normal _ => _ | Throw _ => _ end] =>
    destruct a end; simpl; repeat constructor.
Qed.

Lemma new_ConfigManager_console_only (w : World) (explicit : option string) :
  no_network (snd (new_ConfigManager w explicit)).
Proof.
  unfold new_ConfigManager.
  pose proof (loadConfig_console_only w (JS.or_else explicit (findConfigFile w))) as H.
  now destruct (loadConfig w (JS.or_else explicit (findConfigFile w))).
Qed.

(** Whenever the run ends with [process.exit(1)], nothing was sent. *)
Lemma abort_before_network (w : World) (args : SendCommandArgs) :
  snd (handleSendCommand w args) = Some 1%N ->
  no_network (fst (handleSendCommand w args)).
Proof.
  unfold handleSendCommand.
  pose proof (new_ConfigManager_console_only w (args_config args)) as Hload.
  destruct (new_ConfigManager w (args_config args)) as [cm loading]. simpl in Hload.
  destruct (validateConfig w cm) as [v | err]; simpl.
  - destruct (negb (valid v)); simpl; [intros _ | discriminate].
    apply Forall_app. split; [exact Hload |].
    constructor; [reflexivity |].
    induction (errors v) as [|e es IH]; simpl; constructor; [reflexivity | exact IH].
  - intros _. apply Forall_app. split; [exact Hload | repeat constructor].
Qed.

(** Without a Discord configuration, or with a [bot] property in it that
    is neither [undefined] nor [null], [validateConfig] returns its list
    of errors. *)
Lemma validateConfig_returns (w : World) (cm : ConfigManager) :
  (forall d, discord (platforms (config cm)) = Some d -> discord_bot d <> None) ->
  exists v, validateConfig w cm = Normal v /\
            valid v = Nat.eqb (length (errors v)) 0.
Proof.
  intros Hbot. unfold validateConfig.
  destruct (discord (platforms (config cm))) as [d|]; simpl.
  - destruct (discord_bot d) as [bot|] eqn:Hd; [| now destruct (Hbot d)].
    simpl.
    destruct (negb (JS.truthy_opt (block ← bot_block bot; token block)) &&
              negb (JS.truthy_opt (env w !! "NOTIFE_DISCORD_TOKEN")))%bool;
      simpl; eexists; split; reflexivity.
  - eexists; split; reflexivity.
Qed.

(** When [validateConfig] returns, its list holds exactly the errors of
    the configuration: each message is present if and only if its
    condition holds, [valid] says that the list is empty, and the list
    holds nothing else. *)
Lemma validateConfig_complete (w : World) (cm : ConfigManager) (v : Validation) :
  validateConfig w cm = Normal v ->
  (valid v = true <-> errors v = []) /\
  (In "No platforms configured" (errors v) <->
   platform_keys (platforms (config cm)) = []) /\
  (In "Discord platform configured but no bot configuration found" (errors v) <->
   exists d,
     discord (platforms (config cm)) = Some d /\ discord_bot d = Some FalsyBot) /\
  (In "Discord bot configured but no token provided" (errors v) <->
   exists d bot,
     discord (platforms (config cm)) = Some d /\ discord_bot d = Some bot /\
     JS.truthy_opt (block ← bot_block bot; token block) = false /\
     JS.truthy_opt (env w !! "NOTIFE_DISCORD_TOKEN") = false) /\
  (In "Telegram platform configured but no bot configuration found" (errors v) <->
   exists t, telegram (platforms (config cm)) = Some t /\ telegram_bot t = None) /\
  (In "Telegram bot configured but no token provided" (errors v) <->
   exists t bot,
     telegram (platforms (config cm)) = Some t /\ telegram_bot t = Some bot /\
     JS.truthy_opt (token bot) = false /\
     JS.truthy_opt (env w !! "NOTIFE_TELEGRAM_TOKEN") = false) /\
  (forall e, In e (errors v) ->
     In e [ "No platforms configured";
            "Discord platform configured but no bot configuration found";
            "Discord bot configured but no token provided";
            "Telegram platform configured but no bot configuration found";
            "Telegram bot configured but no token provided" ]).
Proof.
  destruct cm as [[[d t others] dflt] path]. unfold validateConfig. simpl.
  destruct d as [[[[|[dtoken dchans]]|]]|];
    destruct t as [[[[ttoken tchans]|]]|];
    destruct others as [|o others]; simpl;
    try discriminate;
    repeat match goal with
           | |- context [JS.truthy_opt ?x] =>
               let E := fresh "E" in destruct (JS.truthy_opt x) eqn:E; simpl
           end;
    intros [= <-]; simpl;
    (split; [split; [discriminate || reflexivity | discriminate || reflexivity] |]);
    repeat split;
    solve [ validation_case ].
Qed.

(** C1 fails on the code. A configuration whose [discord] block has no
    [bot] property makes [validateConfig] throw while it reads
    [discord.bot.token], after it has recorded the error for the missing
    block; the run of the README's example document prints the thrown
    error alone and exits, so the recorded errors are never reported. *)
Theorem validateConfig_throws_without_discord_bot (w : World)
    (t : option TelegramConfig) (others : list string) (d : Defaults)
    (path : string) :
  validateConfig w
    {| config :=
         {| platforms := {| discord := Some {| discord_bot := None |};
                            telegram := t;
                            other_platforms := others |};
            defaults := d |};
       configPath := path |} =
    Throw (type_error w "discord.bot.token") /\
  handleSendCommand (sample_world "botless") sample_args =
    ([ConsoleError "Error: TypeError: undefined is not an object (evaluating 'discord.bot.token')"],
     Some 1%N).
Proof. split; reflexivity. Qed.

(** * Dispatch *)

Lemma or_opt_falsy (a b : option string) :
  JS.truthy_opt a = false -> JS.or_opt a b = b.
Proof. unfold JS.or_opt. now intros ->. Qed.

Lemma or_else_falsy (a : option string) (b : string) :
  JS.truthy_opt a = false -> JS.or_else a b = b.
Proof. destruct a as [[|c s]|]; simpl; [reflexivity | discriminate | reflexivity]. Qed.

Lemma or_else_truthy (a : option string) (b : string) :
  JS.truthy b = true -> JS.truthy (JS.or_else a b) = true.
Proof. intros Hb. destruct a as [[|c s]|]; simpl; auto. Qed.

Section Dispatch.

Variables (w : World) (args : SendCommandArgs) (cm : ConfigManager)
          (options : MessageOptions).

Lemma chooseTarget_discord :
  exists target, chooseTarget "discord" args cm = Resolved target.
Proof.
  unfold chooseTarget. simpl.
  destruct (JS.or_opt (channelID args) (args_channel args)) as [flag|] eqn:Hflag;
    simpl.
  - destruct (JS.truthy flag) eqn:Hf; simpl.
    + rewrite Hf. eauto.
    + rewrite or_else_truthy by reflexivity. eauto.
  - rewrite or_else_truthy by reflexivity. eauto.
Qed.

Lemma sendToPlatforms_app (before after : list string) :
  sendToPlatforms w (before ++ after) args cm options =
  sendToPlatforms w before args cm options ++
  sendToPlatforms w after args cm options.
Proof.
  induction before as [|p before IH]; simpl; [reflexivity |].
  now rewrite IH, app_assoc.
Qed.

Section NoChannel.

Hypothesis no_channelID : JS.truthy_opt (channelID args) = false.
Hypothesis no_alias : JS.truthy_opt (args_channel args) = false.
Hypothesis no_default :
  JS.truthy_opt (channel (defaults (getConfig cm))) = false.

Lemma chooseTarget_discord_fallback :
  chooseTarget "discord" args cm = Resolved "general".
Proof.
  unfold chooseTarget. simpl.
  rewrite (or_opt_falsy _ _ no_channelID), no_alias.
  now rewrite (or_else_falsy _ _ no_default).
Qed.

Lemma chooseTarget_telegram_skipped :
  chooseTarget "telegram" args cm =
  Skipped "Telegram requires --channelID or --channel parameter".
Proof.
  unfold chooseTarget. simpl.
  rewrite (or_opt_falsy _ _ no_channelID), no_alias.
  now rewrite no_default.
Qed.

End NoChannel.

Section DryRun.

Hypothesis dry : dry_run args = true.

Lemma sendToPlatform_dry_run (platformName : string) :
  sendToPlatform w platformName args cm options =
  match chooseTarget platformName args cm with
  | Resolved target => preview w platformName target args options
  | Skipped line => [ConsoleError line]
  end.
Proof.
  unfold sendToPlatform, deliver. rewrite dry. reflexivity.
Qed.

Lemma sendToPlatform_dry_run_console (platformName : string) :
  no_network (sendToPlatform w platformName args cm options).
Proof.
  rewrite sendToPlatform_dry_run.
  destruct (chooseTarget platformName args cm); repeat constructor.
Qed.

Lemma sendToPlatforms_dry_run_console (names : list string) :
  no_network (sendToPlatforms w names args cm options).
Proof.
  induction names as [|p names IH]; simpl; [constructor |].
  apply Forall_app. split; [apply sendToPlatform_dry_run_console | exact IH].
Qed.

End DryRun.

End Dispatch.

(** C4. Without channel-ID flag, alias flag and default channel: the
    dispatch to Telegram writes one error and sends nothing, the platforms
    listed after Telegram are still dispatched, and the dispatch to
    Discord goes to the channel name [general]; a valid run with both
    platform flags consists of the Discord dispatch to [general] followed
    by the Telegram error, and does not exit with a failure. *)
Theorem telegram_skipped_discord_falls_back (w : World) (args : SendCommandArgs)
    (cm : ConfigManager) (options : MessageOptions) :
  JS.truthy_opt (channelID args) = false ->
  JS.truthy_opt (args_channel args) = false ->
  JS.truthy_opt (channel (defaults (getConfig cm))) = false ->
  sendToPlatform w "telegram" args cm options = [telegram_needs_channel] /\
  sendToPlatform w "discord" args cm options =
    deliver w "discord" "general" args cm options /\
  (forall before after,
     sendToPlatforms w (before ++ "telegram" :: after) args cm options =
     sendToPlatforms w before args cm options ++
     telegram_needs_channel :: sendToPlatforms w after args cm options) /\
  (forall loading validation,
     args_discord args = true ->
     args_telegram args = true ->
     new_ConfigManager w (args_config args) = (cm, loading) ->
     validateConfig w cm = Normal validation ->
     valid validation = true ->
     handleSendCommand w args =
       (loading ++
        deliver w "discord" "general" args cm (messageOptions args) ++
        [telegram_needs_channel],
        None)).
Proof.
  intros HchannelID Halias Hdefault.
  assert (forall o, sendToPlatform w "telegram" args cm o = [telegram_needs_channel])
    as Htelegram.
  { intros o. unfold sendToPlatform.
    now rewrite (chooseTarget_telegram_skipped args cm HchannelID Halias Hdefault). }
  assert (forall o, sendToPlatform w "discord" args cm o =
                    deliver w "discord" "general" args cm o) as Hdiscord.
  { intros o. unfold sendToPlatform.
    now rewrite (chooseTarget_discord_fallback args cm HchannelID Halias Hdefault). }
  split; [apply Htelegram |]. split; [apply Hdiscord |]. split.
  - intros before after. rewrite sendToPlatforms_app. simpl.
    now rewrite Htelegram.
  - intros loading validation Hd Ht Hnew Hvalidate Hvalid.
    unfold handleSendCommand. rewrite Hnew, Hvalidate, Hvalid. simpl.
    unfold selectPlatforms. rewrite Hd, Ht. simpl.
    now rewrite Htelegram, Hdiscord, app_nil_r.
Qed.

(** C4 on the sample configuration, with both platform flags. *)
Lemma telegram_skipped_discord_falls_back_witness :
  handleSendCommand (sample_world "sample") both_platforms_args =
    ([ ConsoleLog "Sending message to discord...";
       HttpRequest
         {| url := "https://discord.com/api/v10/channels/general/messages";
            method := "POST";
            headers := [("Authorization", "Bot discord-token");
                        ("Content-Type", "application/json")];
            body := DiscordBody (Content "hello") |};
       ConsoleLog "✅ Message sent successfully to discord";
       ConsoleLog "   Message ID: 42";
       telegram_needs_channel ],
     None).
Proof.
  destruct (telegram_skipped_discord_falls_back
              (sample_world "sample") both_platforms_args sample_manager
              (messageOptions both_platforms_args)
              eq_refl eq_refl eq_refl) as (_ & _ & _ & Hrun).
  rewrite (Hrun [] {| valid := true; errors := [] |});
    vm_compute; reflexivity.
Defined.

Lemma chooseTarget_discord_first (args : SendCommandArgs) (cm : ConfigManager) :
  chooseTarget "discord" args cm =
  Resolved (default "general"
              (first_truthy [channelID args; args_channel args;
                             channel (defaults (getConfig cm))])).
Proof.
  unfold chooseTarget, JS.or_opt. simpl.
  destruct (channelID args) as [[|c1 s1]|], (args_channel args) as [[|c2 s2]|],
    (channel (defaults (getConfig cm))) as [[|c3 s3]|]; reflexivity.
Qed.

Lemma chooseTarget_telegram_first (args : SendCommandArgs) (cm : ConfigManager) :
  chooseTarget "telegram" args cm =
  match first_truthy [channelID args; args_channel args;
                      channel (defaults (getConfig cm))] with
  | Some target => Resolved target
  | None => Skipped "Telegram requires --channelID or --channel parameter"
  end.
Proof.
  unfold chooseTarget, JS.or_opt. simpl.
  destruct (channelID args) as [[|c1 s1]|], (args_channel args) as [[|c2 s2]|],
    (channel (defaults (getConfig cm))) as [[|c3 s3]|]; reflexivity.
Qed.

Lemma chooseTarget_unsupported (args : SendCommandArgs) (cm : ConfigManager)
    (platformName : string) :
  platformName <> "discord" ->
  platformName <> "telegram" ->
  chooseTarget platformName args cm =
  Skipped ("Unsupported platform: " +:+ platformName).
Proof.
  intros Hd Ht. unfold chooseTarget.
  apply String.eqb_neq in Hd. apply String.eqb_neq in Ht.
  now rewrite Hd, Ht.
Qed.

Lemma sendToPlatforms_flat_map (w : World) (names : list string)
    (args : SendCommandArgs) (cm : ConfigManager) (options : MessageOptions) :
  sendToPlatforms w names args cm options =
  flat_map (fun platformName => sendToPlatform w platformName args cm options)
           names.
Proof.
  induction names as [|p names IH]; simpl; [reflexivity | now rewrite IH].
Qed.

Lemma selectPlatforms_cases (args : SendCommandArgs) (cm : ConfigManager) :
  selectPlatforms args cm =
  match args_discord args, args_telegram args with
  | true, true => ["discord"; "telegram"]
  | true, false => ["discord"]
  | false, true => ["telegram"]
  | false, false => [JS.or_else (platform (defaults (getConfig cm))) "discord"]
  end.
Proof.
  unfold selectPlatforms.
  now destruct (args_discord args), (args_telegram args).
Qed.

(** C9 (as amended). In a dry run nothing is sent over the network.  The
    target of a platform is the first non-empty value among the
    channel-ID flag, the channel flag and the default channel.  The
    dispatch to Discord always writes the preview, with [general] as
    target when there is no such value; the dispatch to Telegram writes
    the preview when there is one, and its error line alone otherwise;
    the dispatch to any other platform name writes the line "Unsupported
    platform" alone.  The preview holds the platform name, the target as
    it was given (an alias is not resolved: no resolver is applied to
    it), the message and the options.  A run whose configuration is valid
    consists of the loading events followed by the dispatch, in order, of
    every selected platform: those of the platform flags, or else the
    default platform, or else Discord; it does not exit with a failure. *)
Theorem dry_run_previews_without_network (w : World) (args : SendCommandArgs) :
  dry_run args = true ->
  no_network (fst (handleSendCommand w args)) /\
  (forall cm options,
     sendToPlatform w "discord" args cm options =
       [ ConsoleLog "[DRY RUN] Would send to discord:";
         ConsoleLog ("  Target: " +:+
                     default "general"
                       (first_truthy [channelID args; args_channel args;
                                      channel (defaults (getConfig cm))]));
         ConsoleLog ("  Message: " +:+ m args);
         ConsoleLog ("  Options: " +:+ JSON_stringify w options) ] /\
     sendToPlatform w "telegram" args cm options =
       match first_truthy [channelID args; args_channel args;
                           channel (defaults (getConfig cm))] with
       | Some target =>
           [ ConsoleLog "[DRY RUN] Would send to telegram:";
             ConsoleLog ("  Target: " +:+ target);
             ConsoleLog ("  Message: " +:+ m args);
             ConsoleLog ("  Options: " +:+ JSON_stringify w options) ]
       | None =>
           [ConsoleError "Telegram requires --channelID or --channel parameter"]
       end /\
     (forall platformName,
        platformName <> "discord" ->
        platformName <> "telegram" ->
        sendToPlatform w platformName args cm options =
          [ConsoleError ("Unsupported platform: " +:+ platformName)])) /\
  (forall cm loading validation,
     new_ConfigManager w (args_config args) = (cm, loading) ->
     validateConfig w cm = Normal validation ->
     valid validation = true ->
     handleSendCommand w args =
       (loading ++
        flat_map
          (fun platformName =>
             sendToPlatform w platformName args cm
               {| format := Some (default plain (args_format args));
                  silent := Some (JS.or_false (args_silent args));
                  title := None; color := None; fields := None |})
          match args_discord args, args_telegram args with
          | true, true => ["discord"; "telegram"]
          | true, false => ["discord"]
          | false, true => ["telegram"]
          | false, false =>
              [JS.or_else (platform (defaults (getConfig cm))) "discord"]
          end,
        None)).
Proof.
  intros Hdry. split; [| split].
  - unfold handleSendCommand.
    pose proof (new_ConfigManager_console_only w (args_config args)) as Hload.
    destruct (new_ConfigManager w (args_config args)) as [cm loading].
    simpl in Hload.
    destruct (validateConfig w cm) as [v | err]; simpl.
    + destruct (negb (valid v)); simpl; apply Forall_app; (split; [exact Hload |]).
      * constructor; [reflexivity |].
        induction (errors v) as [|e es IH]; simpl; constructor;
          [reflexivity | exact IH].
      * now apply sendToPlatforms_dry_run_console.
    + apply Forall_app. split; [exact Hload | repeat constructor].
  - intros cm options. split; [| split].
    + rewrite (sendToPlatform_dry_run w args cm options Hdry).
      now rewrite chooseTarget_discord_first.
    + rewrite (sendToPlatform_dry_run w args cm options Hdry).
      rewrite chooseTarget_telegram_first.
      now destruct (first_truthy _).
    + intros platformName Hd Ht.
      rewrite (sendToPlatform_dry_run w args cm options Hdry).
      now rewrite (chooseTarget_unsupported args cm platformName Hd Ht).
  - intros cm loading validation Hnew Hvalidate Hvalid.
    unfold handleSendCommand. rewrite Hnew, Hvalidate, Hvalid. simpl.
    now rewrite sendToPlatforms_flat_map, selectPlatforms_cases.
Qed.

(** C9 on a dry run to Discord with the alias [alerts]: the whole run is
    the preview, with the alias as target. *)
Lemma dry_run_previews_without_network_witness :
  no_network (fst (handleSendCommand (sample_world "sample")
                     discord_alias_dry_run_args)) /\
  handleSendCommand (sample_world "sample") discord_alias_dry_run_args =
    ([ ConsoleLog "[DRY RUN] Would send to discord:";
       ConsoleLog "  Target: alerts";
       ConsoleLog "  Message: hello";
       ConsoleLog "  Options: {}" ],
     None).
Proof.
  destruct (dry_run_previews_without_network (sample_world "sample")
              discord_alias_dry_run_args eq_refl) as (Hnet & Hpreview & Hrun).
  split; [exact Hnet |].
  rewrite (Hrun sample_manager [] {| valid := true; errors := [] |});
    [| reflexivity | reflexivity | reflexivity].
  cbn [args_discord args_telegram discord_alias_dry_run_args flat_map].
  destruct (Hpreview sample_manager
              {| format := Some (default plain (args_format discord_alias_dry_run_args));
                 silent := Some (JS.or_false (args_silent discord_alias_dry_run_args));
                 title := None; color := None; fields := None |})
    as (Hdiscord & _).
  rewrite Hdiscord. vm_compute. reflexivity.
Defined.

(** C9 (as stated) fails. A dry run that selects Telegram without any
    channel writes the missing-channel error and no preview; and the
    preview of a dry run with an alias shows the alias, not the identifier
    that the resolver gives for it. *)
Lemma dry_run_without_preview :
  dry_run telegram_dry_run_args = true /\
  selectPlatforms telegram_dry_run_args sample_manager = ["telegram"] /\
  handleSendCommand (sample_world "sample") telegram_dry_run_args =
    ([telegram_needs_channel], None) /\
  getDiscordChannel sample_manager "alerts" = JS.Str "123456789012345678" /\
  handleSendCommand (sample_world "sample") discord_alias_dry_run_args =
    ([ ConsoleLog "[DRY RUN] Would send to discord:";
       ConsoleLog "  Target: alerts";
       ConsoleLog "  Message: hello";
       ConsoleLog "  Options: {}" ],
     None).
Proof. vm_compute. repeat split; reflexivity. Qed.

(** * Further properties of the escaping *)

Lemma reserved_backslash : reserved "\"%char = false.
Proof. reflexivity. Qed.

Lemma escape_once_length (s : string) :
  String.length (escape_once s) = (String.length s + reserved_count s)%nat.
Proof.
  induction s as [|c s IH]; [reflexivity |].
  simpl. destruct (reserved c); simpl; rewrite IH; lia.
Qed.

Lemma escape_once_reserved_count (s : string) :
  reserved_count (escape_once s) = reserved_count s.
Proof.
  induction s as [|c s IH]; [reflexivity |].
  simpl. destruct (reserved c) eqn:Hc; simpl; rewrite ?Hc, IH; reflexivity.
Qed.

Lemma escape_once_clean (s : string) :
  reserved_count s = 0%nat -> escape_once s = s.
Proof.
  induction s as [|c s IH]; [reflexivity |].
  simpl. destruct (reserved c); [discriminate |].
  intros H. now rewrite IH.
Qed.

(** The escaped text never begins with a reserved character. *)
Lemma escape_once_head (s : string) (c : ascii) (rest : string) :
  escape_once s = String c rest -> reserved c = false.
Proof.
  destruct s as [|x s]; [discriminate |].
  simpl. destruct (reserved x) eqn:Hx; intros [= <- _]; [reflexivity | exact Hx].
Qed.

Lemma escape_once_injective (s1 s2 : string) :
  escape_once s1 = escape_once s2 -> s1 = s2.
Proof.
  revert s2. induction s1 as [|c1 s1 IH]; intros [|c2 s2]; simpl.
  - reflexivity.
  - destruct (reserved c2); discriminate.
  - destruct (reserved c1); discriminate.
  - destruct (reserved c1) eqn:H1, (reserved c2) eqn:H2; intros H.
    + injection H as -> H. now rewrite (IH _ H).
    + injection H as <- H. symmetry in H. apply escape_once_head in H. congruence.
    + injection H as -> H. apply escape_once_head in H. congruence.
    + injection H as -> H. now rewrite (IH _ H).
Qed.

(** X1. The escaped text is longer than the text by the number of its
    reserved characters, and it is the text itself exactly when the text
    has no reserved character. *)
Theorem escapeMarkdownV2_length (s : string) :
  String.length (TelegramPlatform.escapeMarkdownV2 s) =
    (String.length s + reserved_count s)%nat /\
  (TelegramPlatform.escapeMarkdownV2 s = s <-> reserved_count s = 0%nat).
Proof.
  rewrite escapeMarkdownV2_escape_once. split; [apply escape_once_length |].
  split; [| apply escape_once_clean].
  intros H. pose proof (escape_once_length s) as Hlen. rewrite H in Hlen. lia.
Qed.

(** X2. Escaping loses nothing: two texts with the same escaped form are
    the same text. *)
Theorem escapeMarkdownV2_injective (s1 s2 : string) :
  TelegramPlatform.escapeMarkdownV2 s1 = TelegramPlatform.escapeMarkdownV2 s2 ->
  s1 = s2.
Proof.
  rewrite !escapeMarkdownV2_escape_once. apply escape_once_injective.
Qed.

(** X2 at the text [a_b]. *)
Lemma escapeMarkdownV2_injective_witness : "a_b" = "a_b".
Proof.
  apply (escapeMarkdownV2_injective "a_b" "a_b"). vm_compute. reflexivity.
Defined.

(** X3. Escaping is not idempotent: a second pass adds one more
    backslash per reserved character, so it changes every text that has
    a reserved character. *)
Theorem escapeMarkdownV2_twice (s : string) :
  String.length
    (TelegramPlatform.escapeMarkdownV2 (TelegramPlatform.escapeMarkdownV2 s)) =
    (String.length s + 2 * reserved_count s)%nat /\
  (TelegramPlatform.escapeMarkdownV2 (TelegramPlatform.escapeMarkdownV2 s) =
     TelegramPlatform.escapeMarkdownV2 s <-> reserved_count s = 0%nat).
Proof.
  rewrite !escapeMarkdownV2_escape_once.
  assert (String.length (escape_once (escape_once s)) =
          (String.length s + 2 * reserved_count s)%nat) as Hlen.
  { rewrite escape_once_length, escape_once_length, escape_once_reserved_count. lia. }
  split; [exact Hlen |]. split.
  - intros H. rewrite H, escape_once_length in Hlen. lia.
  - intros H. rewrite (escape_once_clean s H). now apply escape_once_clean.
Qed.

(** * Further properties of the payloads *)

(** X4. Only Telegram escapes: for the plain and the markdown format the
    Discord payload is the message itself, the Telegram text of the plain
    format is the message itself without parse mode, and the Telegram
    text of the markdown format is the message itself exactly when the
    message has no reserved character. *)
Theorem markdown_changes_telegram_only (w : World) (message : string)
    (silent_ : option bool) (title_ color_ : option string)
    (fields_ : option (list Field)) :
  DiscordPlatform.createBotPayload w message
    {| format := Some markdown; silent := silent_; title := title_;
       color := color_; fields := fields_ |} = Content message /\
  DiscordPlatform.createBotPayload w message
    {| format := Some plain; silent := silent_; title := title_;
       color := color_; fields := fields_ |} = Content message /\
  TelegramPlatform.createMessagePayload message
    {| format := Some plain; silent := silent_; title := title_;
       color := color_; fields := fields_ |} =
    {| text := message; disable_notification := JS.or_false silent_;
       parse_mode := None; chat_id := None |} /\
  (text (TelegramPlatform.createMessagePayload message
           {| format := Some markdown; silent := silent_; title := title_;
              color := color_; fields := fields_ |}) = message <->
   reserved_count message = 0%nat).
Proof.
  repeat split; simpl.
  - intros H. rewrite escapeMarkdownV2_escape_once in H.
    pose proof (escape_once_length message) as Hlen. rewrite H in Hlen. lia.
  - intros H. rewrite escapeMarkdownV2_escape_once. now apply escape_once_clean.
Qed.

Lemma split_nonempty (sep : ascii) (s : string) : JS.split sep s <> [].
Proof.
  induction s as [|c s IH]; simpl; [discriminate |].
  destruct (Ascii.eqb c sep); [discriminate |].
  destruct (JS.split sep s); discriminate.
Qed.

(** No piece of a split holds the separator. *)
Lemma split_pieces_clean (sep : ascii) (s : string) :
  Forall (fun piece => ~ In sep (list_ascii_of_string piece)) (JS.split sep s).
Proof.
  induction s as [|c s IH]; simpl.
  - constructor; [tauto | constructor].
  - destruct (Ascii.eqb_spec c sep) as [-> | Hne].
    + constructor; [simpl; tauto | exact IH].
    + destruct (JS.split sep s) as [|piece pieces].
      * constructor; [simpl; intuition congruence | constructor].
      * apply Forall_cons in IH as [Hpiece Hpieces].
        constructor; [simpl; intuition congruence | exact Hpieces].
Qed.

Lemma split_leading_separator (sep : ascii) (s : string) :
  JS.split sep (String sep s) = EmptyString :: JS.split sep s.
Proof. simpl. now rewrite Ascii.eqb_refl. Qed.

(** X5. A Discord embed is never blank.  For every message the embed
    format gives one embed whose title is not empty and holds no [|]; the
    description is not empty unless the message is; and a message that
    begins with [|] gets the title [Notification]. *)
Theorem discord_embed_never_blank (w : World) (message : string)
    (silent_ : option bool) (title_ color_ : option string)
    (fields_ : option (list Field)) :
  exists e,
    DiscordPlatform.createBotPayload w message
      {| format := Some embed; silent := silent_; title := title_;
         color := color_; fields := fields_ |} = Embeds [e] /\
    embed_title e <> EmptyString /\
    ~ In "|"%char (list_ascii_of_string (embed_title e)) /\
    (message <> EmptyString -> embed_description e <> EmptyString) /\
    (forall rest, message = String "|"%char rest -> embed_title e = "Notification").
Proof.
  unfold DiscordPlatform.createBotPayload. simpl.
  eexists. split; [reflexivity |]. simpl.
  pose proof (split_pieces_clean "|" message) as Hclean.
  pose proof (split_nonempty "|" message) as Hne.
  destruct (JS.split "|" message) as [|p0 rest0] eqn:Hsplit; [congruence |].
  apply Forall_cons in Hclean as [Hp0 _]. simpl.
  split; [| split; [| split]].
  - destruct p0; simpl; discriminate.
  - destruct p0; simpl; [| exact Hp0].
    intros H. repeat (destruct H as [H | H]; [discriminate H |]). exact H.
  - intros Hm. now apply or_else_nonempty.
  - intros rest ->. rewrite split_leading_separator in Hsplit.
    now injection Hsplit as <- _.
Qed.

(** X5 at the message [|Disk full]. *)
Lemma discord_embed_never_blank_witness :
  exists e,
    DiscordPlatform.createBotPayload (sample_world "sample") "|Disk full"
      {| format := Some embed; silent := None; title := None;
         color := None; fields := None |} = Embeds [e] /\
    embed_title e = "Notification" /\
    embed_description e <> EmptyString.
Proof.
  destruct (discord_embed_never_blank (sample_world "sample") "|Disk full"
              None None None None) as (e & Hpayload & _ & _ & Hdesc & Htitle).
  exists e. split; [exact Hpayload |]. split.
  - apply (Htitle "Disk full"). reflexivity.
  - apply Hdesc. discriminate.
Defined.

(** * The colour of an embed *)

(** What a digit of base sixteen is not, and the range of its value. *)
Lemma hex_digit_facts (c : ascii) (d : Z) :
  JS.hex_digit c = Some d ->
  0 <= d < 16 /\ JS.is_space c = false /\
  c <> "-"%char /\ c <> "+"%char /\ c <> "x"%char /\ c <> "X"%char /\
  c <> "#"%char.
Proof.
  destruct c as [[] [] [] [] [] [] [] []]; vm_compute; intros [= <-];
    repeat split; congruence.
Qed.

Lemma hex_prefix_bounds (h : string) (a : Z) :
  Forall is_hex (list_ascii_of_string h) ->
  0 <= a ->
  exists v, JS.hex_prefix (Some a) h = Some v /\
            a * 16 ^ Z.of_nat (String.length h) <= v <
            (a + 1) * 16 ^ Z.of_nat (String.length h).
Proof.
  revert a. induction h as [|c h IH]; intros a Hhex Ha.
  - exists a. simpl. split; [reflexivity | lia].
  - simpl in Hhex. apply Forall_cons in Hhex as [Hc Hh].
    unfold is_hex in Hc. destruct (JS.hex_digit c) as [d|] eqn:Hd; [| congruence].
    apply hex_digit_facts in Hd as Hrange. destruct Hrange as [Hrange _].
    destruct (IH (16 * a + d) Hh ltac:(lia)) as (v & Hv & Hlo & Hhi).
    exists v. split.
    + simpl. now rewrite Hd.
    + change (String.length (String c h)) with (S (String.length h)).
      rewrite Nat2Z.inj_succ, Z.pow_succ_r by lia.
      assert (0 < 16 ^ Z.of_nat (String.length h)) by (apply Z.pow_pos_nonneg; lia).
      split; nia.
Qed.

Lemma strip_0x_hex (c : ascii) (h : string) :
  Forall is_hex (list_ascii_of_string (String c h)) ->
  JS.strip_0x (String c h) = String c h.
Proof.
  intros Hhex. simpl in Hhex. apply Forall_cons in Hhex as [_ Hh].
  destruct h as [|c' h]; [now destruct c as [[] [] [] [] [] [] [] []] |].
  simpl in Hh. apply Forall_cons in Hh as [Hc' _]. unfold is_hex in Hc'.
  destruct (JS.hex_digit c') as [d|] eqn:Hd; [| congruence].
  apply hex_digit_facts in Hd as (_ & _ & _ & _ & Hx & HX & _).
  unfold JS.strip_0x.
  destruct c as [[] [] [] [] [] [] [] []]; try reflexivity.
  destruct c' as [[] [] [] [] [] [] [] []]; try reflexivity; congruence.
Qed.

(** An integer below [2^53] in absolute value is a double. *)
Lemma to_double_exact (z : Z) : Z.abs z < 2 ^ 53 -> JS.to_double z = JS.Int z.
Proof.
  intros H. unfold JS.to_double. apply Z.ltb_lt in H. now rewrite H.
Qed.

Lemma to_double_not_NaN (z : Z) : JS.to_double z <> JS.NaN.
Proof.
  unfold JS.to_double. cbv zeta.
  destruct (Z.abs z <? 2 ^ 53); [discriminate |].
  match goal with |- (if ?b then _ else _) <> _ => destruct b end; discriminate.
Qed.

(** A run of hexadecimal digits is read whole: the integer it denotes,
    rounded to a double. *)
Lemma parseInt16_hex (c : ascii) (h : string) :
  Forall is_hex (list_ascii_of_string (String c h)) ->
  exists v, JS.parseInt16 (String c h) = JS.to_double v /\
            0 <= v < 16 ^ Z.of_nat (String.length (String c h)).
Proof.
  intros Hhex. pose proof (strip_0x_hex c h Hhex) as Hstrip.
  pose proof Hhex as Hall. simpl in Hhex. apply Forall_cons in Hhex as [Hc Hh].
  unfold is_hex in Hc. destruct (JS.hex_digit c) as [d|] eqn:Hd; [| congruence].
  apply hex_digit_facts in Hd as Hfacts.
  destruct Hfacts as (Hrange & Hspace & Hminus & Hplus & _).
  destruct (hex_prefix_bounds h d Hh ltac:(lia)) as (v & Hv & Hlo & Hhi).
  exists v. split.
  - unfold JS.parseInt16. simpl JS.trim_start. rewrite Hspace.
    assert (match String c h with
            | String "-"%char r => (-1, r)
            | String "+"%char r => (1, r)
            | _ => (1, String c h)
            end = (1, String c h)) as ->.
    { destruct c as [[] [] [] [] [] [] [] []]; try reflexivity; congruence. }
    rewrite Hstrip. simpl JS.hex_prefix. rewrite Hd. simpl default.
    replace (16 * 0 + d) with d by lia. rewrite Hv. f_equal. lia.
  - change (String.length (String c h)) with (S (String.length h)).
    rewrite Nat2Z.inj_succ, Z.pow_succ_r by lia.
    assert (0 < 16 ^ Z.of_nat (String.length h)) by (apply Z.pow_pos_nonneg; lia).
    split; nia.
Qed.

Lemma replace_first_hex (c : ascii) (h : string) :
  Forall is_hex (list_ascii_of_string (String c h)) ->
  JS.replace_first "#" EmptyString (String c h) = String c h.
Proof.
  revert c. induction h as [|c' h IH]; intros c Hhex.
  - simpl in Hhex. apply Forall_cons in Hhex as [Hc _]. unfold is_hex in Hc.
    destruct (JS.hex_digit c) as [d|] eqn:Hd; [| congruence].
    apply hex_digit_facts in Hd as (_ & _ & _ & _ & _ & _ & Hsharp).
    simpl. destruct (Ascii.eqb_spec c "#"%char); [congruence | reflexivity].
  - simpl in Hhex. apply Forall_cons in Hhex as [Hc Hh]. unfold is_hex in Hc.
    destruct (JS.hex_digit c) as [d|] eqn:Hd; [| congruence].
    apply hex_digit_facts in Hd as (_ & _ & _ & _ & _ & _ & Hsharp).
    change (JS.replace_first "#" EmptyString (String c (String c' h)))
      with (if Ascii.eqb c "#"%char then EmptyString +:+ String c' h
            else String c (JS.replace_first "#" EmptyString (String c' h))).
    destruct (Ascii.eqb_spec c "#"%char); [congruence |].
    now rewrite (IH c' Hh).
Qed.

(** X6. A colour written as at most thirteen digits of base sixteen, with
    or without a leading [#], is read as a number, never as [NaN], and
    [n] digits give a number below [16^n]: six digits stay below
    16777216.  (From fourteen digits on the number read is rounded to a
    double, and fourteen [f] give [16^14] itself.)  Whatever the number
    of digits, the result is the same with and without the [#], and is
    not [NaN]. *)
Theorem parse_color_bounds (c : ascii) (h : string) :
  Forall is_hex (list_ascii_of_string (String c h)) ->
  DiscordPlatform.parse_color (String "#"%char (String c h)) =
    DiscordPlatform.parse_color (String c h) /\
  DiscordPlatform.parse_color (String c h) <> JS.NaN /\
  ((String.length (String c h) <= 13)%nat ->
   exists v,
     DiscordPlatform.parse_color (String "#"%char (String c h)) = JS.Int v /\
     DiscordPlatform.parse_color (String c h) = JS.Int v /\
     0 <= v < 16 ^ Z.of_nat (String.length (String c h))).
Proof.
  intros Hhex. destruct (parseInt16_hex c h Hhex) as (v & Hv & Hbound).
  assert (DiscordPlatform.parse_color (String "#"%char (String c h)) =
          JS.parseInt16 (String c h)) as Hsharp by reflexivity.
  assert (DiscordPlatform.parse_color (String c h) = JS.parseInt16 (String c h))
    as Hplain.
  { unfold DiscordPlatform.parse_color. now rewrite (replace_first_hex c h Hhex). }
  rewrite Hsharp, Hplain, Hv. split; [reflexivity |].
  split; [apply to_double_not_NaN |].
  intros Hlen. exists v.
  assert (JS.to_double v = JS.Int v) as ->; [| now repeat split].
  apply to_double_exact.
  assert (16 ^ Z.of_nat (String.length (String c h)) <= 16 ^ 13).
  { apply Z.pow_le_mono_r; lia. }
  assert (16 ^ 13 < 2 ^ 53) by reflexivity. lia.
Qed.

(** X6 at the colour [ff0000], and fourteen [f] beyond its bound. *)
Lemma parse_color_bounds_witness :
  (exists v,
     DiscordPlatform.parse_color "#ff0000" = JS.Int v /\ 0 <= v < 16777216) /\
  DiscordPlatform.parse_color "ffffffffffffff" = JS.Int (16 ^ 14).
Proof.
  split; [| vm_compute; reflexivity].
  destruct (parse_color_bounds "f" "f0000") as (_ & _ & Hbounded).
  - repeat constructor; vm_compute; discriminate.
  - destruct Hbounded as (v & Hv & _ & Hbound); [simpl; lia |].
    exists v. split; [exact Hv | exact Hbound].
Defined.

(** * Tokens *)

(** X7. A non-empty token in the environment wins over the token of the
    configuration file, on the wire: the Discord request carries it in
    the [Authorization] header and the Telegram request in its URL,
    whatever the file holds. *)
Theorem environment_token_on_the_wire (w : World) (cm : ConfigManager)
    (fromEnv target message : string) (options : MessageOptions) :
  fromEnv <> EmptyString ->
  target <> EmptyString ->
  (env w !! "NOTIFE_DISCORD_TOKEN" = Some fromEnv ->
   exists r,
     snd (DiscordPlatform.sendMessage w cm target message options) = [HttpRequest r] /\
     headers r = [("Authorization", "Bot " +:+ fromEnv);
                  ("Content-Type", "application/json")]) /\
  (env w !! "NOTIFE_TELEGRAM_TOKEN" = Some fromEnv ->
   exists r,
     snd (TelegramPlatform.sendMessage w cm target message options) = [HttpRequest r] /\
     url r = "https://api.telegram.org/bot" +:+ fromEnv +:+ "/sendMessage").
Proof.
  intros Hne Ht. apply truthy_nonempty in Hne. split; intros Henv.
  - rewrite (discord_sendMessage_shape w cm target message options Ht).
    unfold getDiscordToken, JS.or_opt. rewrite Henv. simpl. rewrite Hne. simpl.
    rewrite Hne. eexists. split; reflexivity.
  - rewrite (telegram_sendMessage_shape w cm target message options Ht).
    unfold getTelegramToken, JS.or_opt. rewrite Henv. simpl. rewrite Hne. simpl.
    rewrite Hne. eexists. split; reflexivity.
Qed.

(** X8. After a successful validation every configured platform has a
    token: the getter of a platform that is present in the configuration
    returns a non-empty token. *)
Theorem valid_configuration_has_tokens (w : World) (cm : ConfigManager)
    (v : Validation) :
  validateConfig w cm = Normal v ->
  valid v = true ->
  (discord (platforms (config cm)) <> None ->
   JS.truthy_opt (getDiscordToken w cm) = true) /\
  (telegram (platforms (config cm)) <> None ->
   JS.truthy_opt (getTelegramToken w cm) = true).
Proof.
  destruct cm as [[[d t others] dflt] path].
  unfold validateConfig, getDiscordToken, getTelegramToken, JS.or_opt. simpl.
  destruct (JS.truthy_opt (env w !! "NOTIFE_DISCORD_TOKEN")) eqn:Ed;
    destruct (JS.truthy_opt (env w !! "NOTIFE_TELEGRAM_TOKEN")) eqn:Et;
    destruct d as [[[[|[dtoken dchans]]|]]|];
    destruct t as [[[[ttoken tchans]|]]|];
    destruct others as [|o others]; simpl;
    try discriminate;
    try (destruct (JS.truthy_opt dtoken) eqn:Edt; simpl);
    try (destruct (JS.truthy_opt ttoken) eqn:Ett; simpl);
    intros [= <-]; simpl; intros Hvalid; try discriminate Hvalid;
    split; intros Hpresent; congruence.
Qed.

(** X7 with the token [env-token] in the environment and another token
    in the file. *)
Lemma environment_token_on_the_wire_witness :
  (exists r,
     snd (DiscordPlatform.sendMessage env_token_world sample_manager
            "42" "hello" no_options) = [HttpRequest r] /\
     headers r = [("Authorization", "Bot env-token");
                  ("Content-Type", "application/json")]) /\
  (exists r,
     snd (TelegramPlatform.sendMessage env_token_world sample_manager
            "42" "hello" no_options) = [HttpRequest r] /\
     url r = "https://api.telegram.org/botenv-token/sendMessage").
Proof.
  destruct (environment_token_on_the_wire env_token_world sample_manager
              "env-token" "42" "hello" no_options) as [Hd Ht];
    [discriminate | discriminate |].
  split; [apply Hd | apply Ht]; vm_compute; reflexivity.
Defined.

(** X8 on the sample configuration. *)
Lemma valid_configuration_has_tokens_witness :
  JS.truthy_opt (getDiscordToken (sample_world "sample") sample_manager) = true /\
  JS.truthy_opt (getTelegramToken (sample_world "sample") sample_manager) = true.
Proof.
  destruct (valid_configuration_has_tokens (sample_world "sample") sample_manager
              {| valid := true; errors := [] |} eq_refl eq_refl) as [Hd Ht].
  split; [apply Hd | apply Ht]; discriminate.
Defined.

(** * The result of a send *)

(** X9. A platform without token is not contacted.  When the getter of
    the token gives nothing (the platform is absent from the
    configuration and the environment), the dispatch of a real run writes
    the failure and issues no request; the validation does not prevent
    this, since it only looks at the platforms that are configured. *)
Theorem send_without_token (w : World) (args : SendCommandArgs)
    (cm : ConfigManager) (options : MessageOptions) (target : string) :
  dry_run args = false ->
  (JS.truthy_opt (getDiscordToken w cm) = false ->
   deliver w "discord" target args cm options =
     (if negb (JS.or_false (silent options))
      then [ConsoleLog "Sending message to discord..."] else []) ++
     [ConsoleError "❌ Failed to send message to discord: Discord bot token not configured"]) /\
  (JS.truthy_opt (getTelegramToken w cm) = false ->
   deliver w "telegram" target args cm options =
     (if negb (JS.or_false (silent options))
      then [ConsoleLog "Sending message to telegram..."] else []) ++
     [ConsoleError "❌ Failed to send message to telegram: Telegram bot token not configured"]).
Proof.
  intros Hdry. split; intros Htoken; unfold deliver; rewrite Hdry; simpl.
  - unfold DiscordPlatform.sendMessage.
    destruct (getDiscordToken w cm) as [tok|]; simpl in *; [rewrite Htoken |];
      reflexivity.
  - unfold TelegramPlatform.sendMessage.
    destruct (getTelegramToken w cm) as [tok|]; simpl in *; [rewrite Htoken |];
      reflexivity.
Qed.

(** X9 with a configuration that has a Telegram block only: it passes
    the validation, and the dispatch to Discord fails without request. *)
Lemma send_without_token_witness :
  validateConfig (sample_world "sample") telegram_only_manager =
    Normal {| valid := true; errors := [] |} /\
  deliver (sample_world "sample") "discord" "general" sample_args
    telegram_only_manager (messageOptions sample_args) =
    [ ConsoleLog "Sending message to discord...";
      ConsoleError "❌ Failed to send message to discord: Discord bot token not configured" ].
Proof.
  split; [reflexivity |].
  destruct (send_without_token (sample_world "sample") sample_args
              telegram_only_manager (messageOptions sample_args) "general"
              eq_refl) as [Hd _].
  rewrite Hd; reflexivity.
Defined.

(** A result is well formed: a success has no error text, a failure has
    an error text and no message identifier. *)
Lemma error_result_well_formed (w : World) (err : string) :
  (success (createErrorResult w err) = true <->
   error (createErrorResult w err) = None) /\
  (success (createErrorResult w err) = false ->
   messageId (createErrorResult w err) = None).
Proof. simpl. repeat split; discriminate || reflexivity. Qed.

Lemma discord_interpret_well_formed (w : World) (outcome : Completion Response) :
  (success (DiscordPlatform.interpret w outcome) = true <->
   error (DiscordPlatform.interpret w outcome) = None) /\
  (success (DiscordPlatform.interpret w outcome) = false ->
   messageId (DiscordPlatform.interpret w outcome) = None).
Proof.
  unfold DiscordPlatform.interpret, mbind, completion_bind.
  destruct outcome as [resp|err]; [| apply error_result_well_formed].
  destruct (ok resp); simpl.
  - destruct (response_json resp); [| apply error_result_well_formed].
    simpl. repeat split; discriminate || reflexivity.
  - destruct (response_text resp); apply error_result_well_formed.
Qed.

Lemma telegram_interpret_well_formed (w : World) (outcome : Completion Response) :
  (success (TelegramPlatform.interpret w outcome) = true <->
   error (TelegramPlatform.interpret w outcome) = None) /\
  (success (TelegramPlatform.interpret w outcome) = false ->
   messageId (TelegramPlatform.interpret w outcome) = None).
Proof.
  unfold TelegramPlatform.interpret, mbind, completion_bind.
  destruct outcome as [resp|err]; [| apply error_result_well_formed].
  destruct (ok resp); simpl.
  - destruct (response_json resp) as [json|]; [| apply error_result_well_formed].
    destruct (json_message_id json); [| apply error_result_well_formed].
    simpl. repeat split; discriminate || reflexivity.
  - destruct (response_json resp); apply error_result_well_formed.
Qed.

(** X10. The result of [sendMessage] is well formed on both platforms,
    whatever the network does: it is a success exactly when it has no
    error text, a failure has no message identifier, at most one request
    is issued, and a success has issued exactly one. *)
Theorem sendMessage_result_well_formed (w : World) (cm : ConfigManager)
    (target message : string) (options : MessageOptions) :
  let well_formed (outcome : MessageResult * list Event) :=
    (success (fst outcome) = true <-> error (fst outcome) = None) /\
    (success (fst outcome) = false -> messageId (fst outcome) = None) /\
    (length (snd outcome) <= 1)%nat /\
    (success (fst outcome) = true -> exists r, snd outcome = [HttpRequest r]) in
  well_formed (DiscordPlatform.sendMessage w cm target message options) /\
  well_formed (TelegramPlatform.sendMessage w cm target message options).
Proof.
  assert (forall err,
            (success (createErrorResult w err) = true <->
             error (createErrorResult w err) = None) /\
            (success (createErrorResult w err) = false ->
             messageId (createErrorResult w err) = None) /\
            (length (@nil Event) <= 1)%nat /\
            (success (createErrorResult w err) = true ->
             exists r, @nil Event = [HttpRequest r])) as Hlocal.
  { intros err. simpl. repeat split; discriminate || lia || reflexivity. }
  simpl. split.
  - unfold DiscordPlatform.sendMessage.
    destruct (getDiscordToken w cm) as [tok|]; [| apply Hlocal].
    destruct (JS.truthy tok); simpl; [| apply Hlocal].
    destruct (JS.truthy_value (getDiscordChannel cm target)); simpl; [| apply Hlocal].
    destruct (discord_interpret_well_formed w
                (fetch w (DiscordPlatform.request w tok
                            (getDiscordChannel cm target) message options)))
      as [Hiff Hid].
    repeat split; try apply Hiff; try exact Hid; try lia; eauto.
  - unfold TelegramPlatform.sendMessage.
    destruct (getTelegramToken w cm) as [tok|]; [| apply Hlocal].
    destruct (JS.truthy tok); simpl; [| apply Hlocal].
    destruct (JS.truthy_value (getTelegramChannel cm target)); simpl; [| apply Hlocal].
    destruct (telegram_interpret_well_formed w
                (fetch w (TelegramPlatform.request tok
                            (getTelegramChannel cm target) message options)))
      as [Hiff Hid].
    repeat split; try apply Hiff; try exact Hid; try lia; eauto.
Qed.

(** X11. What counts as a success.  Discord reports a success for every
    response with an ok status whose body parses, with or without an
    identifier; Telegram moreover needs the identifier of the message: an
    ok response without it is reported as a failure. *)
Theorem send_success_iff (w : World) (outcome : Completion Response) :
  (success (DiscordPlatform.interpret w outcome) = true <->
   exists resp json,
     outcome = Normal resp /\ ok resp = true /\ response_json resp = Normal json) /\
  (success (TelegramPlatform.interpret w outcome) = true <->
   exists resp json id,
     outcome = Normal resp /\ ok resp = true /\ response_json resp = Normal json /\
     json_message_id json = Some id).
Proof.
  unfold DiscordPlatform.interpret, TelegramPlatform.interpret, mbind,
    completion_bind.
  destruct outcome as [resp|err].
  - destruct (ok resp) eqn:Hok; cbn [negb].
    + destruct (response_json resp) as [json|err] eqn:Hjson.
      * split; [split; [eauto | reflexivity] |].
        destruct (json_message_id json) as [id|] eqn:Hid; split;
          try reflexivity; try discriminate.
        -- intros _. exists resp, json, id. auto.
        -- intros (resp' & json' & id' & [= <-] & _ & Hj & Hi).
           rewrite Hjson in Hj. injection Hj as <-. congruence.
      * split; split; try discriminate.
        -- intros (resp' & json' & [= <-] & _ & Hj). congruence.
        -- intros (resp' & json' & id' & [= <-] & _ & Hj & _). congruence.
    + split; split.
      * destruct (response_text resp); discriminate.
      * intros (resp' & json' & [= <-] & Hok' & _). congruence.
      * destruct (response_json resp); discriminate.
      * intros (resp' & json' & id' & [= <-] & Hok' & _). congruence.
  - split; split; try discriminate.
    + intros (resp & json & H & _). discriminate.
    + intros (resp & json & id & H & _). discriminate.
Qed.

(** * The requests of a run *)

Lemma requests_app (t1 t2 : list Event) :
  requests (t1 ++ t2) = requests t1 ++ requests t2.
Proof. apply omap_app. Qed.

Lemma requests_console (trace : list Event) :
  no_network trace -> requests trace = [].
Proof.
  induction 1 as [|e trace He _ IH]; [reflexivity |].
  destruct e; try discriminate; exact IH.
Qed.

Lemma report_console (platformName : string) (options : MessageOptions)
    (result : MessageResult) :
  no_network (report platformName options result).
Proof.
  unfold report.
  destruct (success result); [| repeat constructor].
  destruct (negb (JS.or_false (silent options))); [| constructor].
  constructor; [reflexivity |].
  destruct (messageId result) as [id|]; [| constructor].
  destruct (JS.truthy id); repeat constructor.
Qed.

Lemma discord_request_api (w : World) (tok : string) (chan : JS.value)
    (message : string) (options : MessageOptions) :
  api_request (DiscordPlatform.request w tok chan message options).
Proof.
  repeat split; simpl; [tauto |].
  left. now exists (template_text w chan +:+ "/messages").
Qed.

Lemma telegram_request_api (tok : string) (chan : JS.value) (message : string)
    (options : MessageOptions) :
  api_request (TelegramPlatform.request tok chan message options).
Proof.
  repeat split; simpl; [tauto |].
  right. now exists (tok +:+ "/sendMessage").
Qed.

Lemma discord_traffic (w : World) (cm : ConfigManager) (target message : string)
    (options : MessageOptions) :
  snd (DiscordPlatform.sendMessage w cm target message options) = [] \/
  exists r, snd (DiscordPlatform.sendMessage w cm target message options) =
              [HttpRequest r] /\ api_request r.
Proof.
  unfold DiscordPlatform.sendMessage.
  destruct (getDiscordToken w cm) as [tok|]; [| now left].
  destruct (JS.truthy tok); simpl; [| now left].
  destruct (JS.truthy_value (getDiscordChannel cm target)); simpl; [| now left].
  right. eexists. split; [reflexivity | apply discord_request_api].
Qed.

Lemma telegram_traffic (w : World) (cm : ConfigManager) (target message : string)
    (options : MessageOptions) :
  snd (TelegramPlatform.sendMessage w cm target message options) = [] \/
  exists r, snd (TelegramPlatform.sendMessage w cm target message options) =
              [HttpRequest r] /\ api_request r.
Proof.
  unfold TelegramPlatform.sendMessage.
  destruct (getTelegramToken w cm) as [tok|]; [| now left].
  destruct (JS.truthy tok); simpl; [| now left].
  destruct (JS.truthy_value (getTelegramChannel cm target)); simpl; [| now left].
  right. eexists. split; [reflexivity | apply telegram_request_api].
Qed.

(** The dispatch to one platform issues no request, or one request to a
    bot interface. *)
Lemma sendToPlatform_requests (w : World) (platformName : string)
    (args : SendCommandArgs) (cm : ConfigManager) (options : MessageOptions) :
  requests (sendToPlatform w platformName args cm options) = [] \/
  exists r, requests (sendToPlatform w platformName args cm options) = [r] /\
            api_request r.
Proof.
  unfold sendToPlatform.
  destruct (chooseTarget platformName args cm) as [target | line]; [| now left].
  unfold deliver. destruct (dry_run args); [now left |].
  assert (forall (sendMessage : string -> string -> MessageOptions ->
                                MessageResult * list Event),
            (snd (sendMessage target (m args) options) = [] \/
             exists r, snd (sendMessage target (m args) options) = [HttpRequest r] /\
                       api_request r) ->
            requests
              (let '(result, traffic) := sendMessage target (m args) options in
               (if negb (JS.or_false (silent options))
                then [ConsoleLog ("Sending message to " +:+ platformName +:+ "...")]
                else []) ++ traffic ++ report platformName options result) = [] \/
            exists r,
              requests
                (let '(result, traffic) := sendMessage target (m args) options in
                 (if negb (JS.or_false (silent options))
                  then [ConsoleLog ("Sending message to " +:+ platformName +:+ "...")]
                  else []) ++ traffic ++ report platformName options result) = [r] /\
              api_request r) as Hsend.
  { intros sendMessage Htraffic.
    destruct (sendMessage target (m args) options) as [result traffic].
    simpl in Htraffic.
    rewrite !requests_app, (requests_console _ (report_console _ _ _)), app_nil_r.
    assert (requests (if negb (JS.or_false (silent options))
                      then [ConsoleLog ("Sending message to " +:+ platformName +:+ "...")]
                      else []) = []) as ->
      by now destruct (negb (JS.or_false (silent options))).
    destruct Htraffic as [-> | (r & -> & Hr)]; [now left | right; eauto]. }
  destruct (String.eqb platformName "discord").
  - apply Hsend, discord_traffic.
  - destruct (String.eqb platformName "telegram"); [| now left].
    apply Hsend, telegram_traffic.
Qed.

Lemma sendToPlatforms_requests (w : World) (names : list string)
    (args : SendCommandArgs) (cm : ConfigManager) (options : MessageOptions) :
  (length (requests (sendToPlatforms w names args cm options)) <= length names)%nat /\
  Forall api_request (requests (sendToPlatforms w names args cm options)).
Proof.
  induction names as [|p names [IHlen IHapi]]; simpl; [split; [lia | constructor] |].
  rewrite requests_app, length_app.
  destruct (sendToPlatform_requests w p args cm options) as [-> | (r & -> & Hr)];
    simpl; split; try lia; auto.
Qed.

Lemma run_requests (w : World) (args : SendCommandArgs) :
  exists cm,
    (requests (fst (handleSendCommand w args)) = [] \/
     requests (fst (handleSendCommand w args)) =
       requests (sendToPlatforms w (selectPlatforms args cm) args cm
                   (messageOptions args))).
Proof.
  unfold handleSendCommand.
  pose proof (new_ConfigManager_console_only w (args_config args)) as Hload.
  destruct (new_ConfigManager w (args_config args)) as [cm loading].
  simpl in Hload. exists cm.
  destruct (validateConfig w cm) as [v | err]; simpl.
  - destruct (negb (valid v)); simpl.
    + left. rewrite requests_app, (requests_console _ Hload). simpl.
      apply requests_console.
      induction (errors v) as [|e es IH]; simpl; constructor; [reflexivity | exact IH].
    + right. now rewrite requests_app, (requests_console _ Hload).
  - left. rewrite requests_app, (requests_console _ Hload). reflexivity.
Qed.

Lemma selectPlatforms_length (args : SendCommandArgs) (cm : ConfigManager) :
  (length (selectPlatforms args cm) <=
   if (args_discord args && args_telegram args)%bool then 2 else 1)%nat.
Proof.
  unfold selectPlatforms.
  destruct (args_discord args), (args_telegram args); simpl; lia.
Qed.

(** X12. A run issues at most one request per selected platform: at
    most two requests, and at most one unless both platform flags are
    given. *)
Theorem run_request_count (w : World) (args : SendCommandArgs) :
  (length (requests (fst (handleSendCommand w args))) <=
   if (args_discord args && args_telegram args)%bool then 2 else 1)%nat.
Proof.
  destruct (run_requests w args) as (cm & [-> | ->]).
  - simpl. destruct (args_discord args && args_telegram args)%bool; lia.
  - pose proof (sendToPlatforms_requests w (selectPlatforms args cm) args cm
                  (messageOptions args)) as [Hlen _].
    pose proof (selectPlatforms_length args cm). lia.
Qed.


(** * Silent runs *)

Lemma loadConfig_quiet (w : World) (path : string) : quiet (snd (loadConfig w path)).
Proof.
  unfold loadConfig, quiet.
  destruct (negb (existsSync w path)); simpl; [repeat constructor |].
  match goal with |- context [match ?a with Normal _ => _ | Throw _ => _ end] =>
    destruct a end; simpl; repeat constructor.
Qed.

Lemma new_ConfigManager_quiet (w : World) (explicit : option string) :
  quiet (snd (new_ConfigManager w explicit)).
Proof.
  unfold new_ConfigManager.
  pose proof (loadConfig_quiet w (JS.or_else explicit (findConfigFile w))) as H.
  now destruct (loadConfig w (JS.or_else explicit (findConfigFile w))).
Qed.

Lemma sendToPlatform_quiet (w : World) (platformName : string)
    (args : SendCommandArgs) (cm : ConfigManager) (options : MessageOptions) :
  dry_run args = false ->
  JS.or_false (silent options) = true ->
  quiet (sendToPlatform w platformName args cm options).
Proof.
  intros Hdry Hsilent. unfold sendToPlatform, quiet.
  destruct (chooseTarget platformName args cm) as [target | line];
    [| repeat constructor].
  unfold deliver. rewrite Hdry.
  assert (forall (sendMessage : string -> string -> MessageOptions ->
                                MessageResult * list Event),
            (snd (sendMessage target (m args) options) = [] \/
             exists r, snd (sendMessage target (m args) options) = [HttpRequest r] /\
                       api_request r) ->
            quiet
              (let '(result, traffic) := sendMessage target (m args) options in
               (if negb (JS.or_false (silent options))
                then [ConsoleLog ("Sending message to " +:+ platformName +:+ "...")]
                else []) ++ traffic ++ report platformName options result)) as Hsend.
  { intros sendMessage Htraffic.
    destruct (sendMessage target (m args) options) as [result traffic].
    simpl in Htraffic. rewrite Hsilent. simpl.
    apply Forall_app. split.
    - destruct Htraffic as [-> | (r & -> & _)]; repeat constructor.
    - unfold report. rewrite Hsilent. simpl.
      destruct (success result); repeat constructor. }
  destruct (String.eqb platformName "discord").
  - apply Hsend, discord_traffic.
  - destruct (String.eqb platformName "telegram"); [| repeat constructor].
    apply Hsend, telegram_traffic.
Qed.

(** X14. With the silent flag, a run that is not a dry run writes
    nothing with [console.log]: no progress line and no success line,
    only warnings and errors. *)
Theorem silent_run_is_quiet (w : World) (args : SendCommandArgs) :
  args_silent args = Some true ->
  dry_run args = false ->
  quiet (fst (handleSendCommand w args)).
Proof.
  intros Hsilent Hdry. unfold handleSendCommand.
  pose proof (new_ConfigManager_quiet w (args_config args)) as Hload.
  destruct (new_ConfigManager w (args_config args)) as [cm loading].
  simpl in Hload.
  destruct (validateConfig w cm) as [v | err]; simpl.
  - destruct (negb (valid v)); simpl; apply Forall_app; (split; [exact Hload |]).
    + constructor; [exact I |].
      induction (errors v) as [|e es IH]; simpl; constructor; [exact I | exact IH].
    + induction (selectPlatforms args cm) as [|p ps IH]; simpl; [constructor |].
      apply Forall_app. split; [| exact IH].
      apply sendToPlatform_quiet; [exact Hdry |].
      unfold messageOptions. simpl. now rewrite Hsilent.
  - apply Forall_app. split; [exact Hload | repeat constructor].
Qed.

(** X14 on a silent run to both platforms. *)
Lemma silent_run_is_quiet_witness :
  quiet (fst (handleSendCommand (sample_world "sample") silent_args)) /\
  length (requests (fst (handleSendCommand (sample_world "sample") silent_args))) =
    2%nat.
Proof.
  split.
  - apply (silent_run_is_quiet (sample_world "sample") silent_args); reflexivity.
  - vm_compute. reflexivity.
Defined.

(** * The exit status *)

Lemma first_existing_with_fetch (w : World)
    (network : Request -> Completion Response) (paths : list string) :
  first_existing (with_fetch w network) paths = first_existing w paths.
Proof.
  induction paths as [|path rest IH]; [reflexivity |].
  simpl. unfold existsSync at 1. simpl. fold (existsSync w path).
  now rewrite IH.
Qed.

Lemma new_ConfigManager_with_fetch (w : World)
    (network : Request -> Completion Response) (explicit : option string) :
  new_ConfigManager (with_fetch w network) explicit = new_ConfigManager w explicit.
Proof.
  unfold new_ConfigManager, findConfigFile.
  change (possiblePaths (with_fetch w network)) with (possiblePaths w).
  rewrite first_existing_with_fetch. reflexivity.
Qed.

(** X15. The exit status does not depend on the network: the run exits
    with a failure exactly when the validation throws or finds errors,
    and a run that is the same except for what the network answers ends
    with the same status. *)
Theorem exit_status_ignores_the_network (w : World)
    (network : Request -> Completion Response) (args : SendCommandArgs) :
  snd (handleSendCommand (with_fetch w network) args) =
    snd (handleSendCommand w args) /\
  (snd (handleSendCommand w args) = None <->
   exists v,
     validateConfig w (fst (new_ConfigManager w (args_config args))) = Normal v /\
     valid v = true).
Proof.
  split.
  - unfold handleSendCommand. rewrite new_ConfigManager_with_fetch.
    destruct (new_ConfigManager w (args_config args)) as [cm loading].
    change (validateConfig (with_fetch w network) cm) with (validateConfig w cm).
    destruct (validateConfig w cm) as [v | err]; [| reflexivity].
    now destruct (negb (valid v)).
  - unfold handleSendCommand.
    destruct (new_ConfigManager w (args_config args)) as [cm loading]. simpl.
    destruct (validateConfig w cm) as [v | err]; simpl.
    + destruct (valid v) eqn:Hv; simpl; split; eauto; try discriminate.
      intros (v' & [= <-] & Hv'). congruence.
    + split; [discriminate | intros (v & H & _); discriminate].
Qed.

(** * The choice of the target and of the platforms *)

(** X16. The target of a platform is the first non-empty value among the
    channel-ID flag, the channel flag and the default channel, in this
    order; when there is none Discord takes [general] and Telegram is
    skipped; and a chosen target is never empty. *)
Theorem target_precedence (args : SendCommandArgs) (cm : ConfigManager) :
  chooseTarget "discord" args cm =
    Resolved (default "general"
                (first_truthy [channelID args; args_channel args;
                               channel (defaults (getConfig cm))])) /\
  chooseTarget "telegram" args cm =
    match first_truthy [channelID args; args_channel args;
                        channel (defaults (getConfig cm))] with
    | Some target => Resolved target
    | None => Skipped "Telegram requires --channelID or --channel parameter"
    end /\
  (forall platformName target,
     chooseTarget platformName args cm = Resolved target ->
     target <> EmptyString).
Proof.
  split; [| split].
  - unfold chooseTarget, JS.or_opt. simpl.
    destruct (channelID args) as [[|c1 s1]|], (args_channel args) as [[|c2 s2]|],
      (channel (defaults (getConfig cm))) as [[|c3 s3]|]; reflexivity.
  - unfold chooseTarget, JS.or_opt. simpl.
    destruct (channelID args) as [[|c1 s1]|], (args_channel args) as [[|c2 s2]|],
      (channel (defaults (getConfig cm))) as [[|c3 s3]|]; reflexivity.
  - intros platformName target. unfold chooseTarget.
    match goal with |- context [match ?x with inl _ => _ | inr _ => _ end] =>
      destruct x as [[t|]|line] end; try discriminate.
    destruct t; simpl; [discriminate |]. intros [= <-]. discriminate.
Qed.

(** X17. A default platform that is neither [discord] nor [telegram] is
    reported and nothing is sent: without platform flag, a valid run
    writes the line "Unsupported platform" for it and ends without
    failure status. *)
Theorem unsupported_default_platform (w : World) (args : SendCommandArgs)
    (cm : ConfigManager) (loading : list Event) (v : Validation) (p : string) :
  args_discord args = false ->
  args_telegram args = false ->
  new_ConfigManager w (args_config args) = (cm, loading) ->
  validateConfig w cm = Normal v ->
  valid v = true ->
  platform (defaults (getConfig cm)) = Some p ->
  p <> EmptyString ->
  p <> "discord" ->
  p <> "telegram" ->
  handleSendCommand w args =
    (loading ++ [ConsoleError ("Unsupported platform: " +:+ p)], None).
Proof.
  intros Hd Ht Hnew Hvalidate Hvalid Hp Hne Hnd Hnt.
  unfold handleSendCommand. rewrite Hnew, Hvalidate, Hvalid. simpl.
  unfold selectPlatforms. rewrite Hd, Ht, Hp. simpl.
  apply truthy_nonempty in Hne. rewrite Hne. simpl.
  unfold sendToPlatform, chooseTarget.
  apply String.eqb_neq in Hnd, Hnt. rewrite Hnd, Hnt. reflexivity.
Qed.

(** X17 with the default platform [slack]. *)
Lemma unsupported_default_platform_witness :
  handleSendCommand slack_default_world sample_args =
    ([ConsoleError "Unsupported platform: slack"], None).
Proof.
  apply (unsupported_default_platform slack_default_world sample_args
           {| config := {| platforms := platforms sample_config;
                           defaults := {| platform := Some "slack";
                                          channel := None |} |};
              configPath := "/home/dev/.notife/config.json" |}
           [] {| valid := true; errors := [] |} "slack");
    vm_compute; reflexivity || discriminate.
Defined.

(** * Validation of a platform and of the configuration *)

(** X18. The two validations agree in one direction: when every platform
    block that is present passes the [validateConfig] of its platform
    class, and at least one platform is configured, the [validateConfig]
    of the configuration manager finds no error. *)
Theorem platform_validation_implies_valid (w : World) (cm : ConfigManager) :
  platform_keys (platforms (config cm)) <> [] ->
  (discord (platforms (config cm)) = None \/
   DiscordPlatform.validateConfig (discord (platforms (config cm))) = true) ->
  (telegram (platforms (config cm)) = None \/
   TelegramPlatform.validateConfig (telegram (platforms (config cm))) = true) ->
  validateConfig w cm = Normal {| valid := true; errors := [] |}.
Proof.
  destruct cm as [[[d t others] dflt] path].
  unfold validateConfig, platform_keys. simpl.
  intros Hkeys Hd Ht.
  destruct d as [[[[|[dtoken dchans]]|]]|]; simpl in *;
    try (destruct Hd as [Hd | Hd]; discriminate Hd);
    destruct t as [[[[ttoken tchans]|]]|]; simpl in *;
    try (destruct Ht as [Ht | Ht]; discriminate Ht);
    try (destruct Hd as [Hd | Hd]; [discriminate Hd | rewrite Hd]);
    try (destruct Ht as [Ht | Ht]; [discriminate Ht | rewrite Ht]);
    simpl; try reflexivity;
    destruct others; simpl; [congruence | reflexivity].
Qed.

(** X18 on the sample configuration. *)
Lemma platform_validation_implies_valid_witness :
  validateConfig (sample_world "sample") sample_manager =
    Normal {| valid := true; errors := [] |}.
Proof.
  apply (platform_validation_implies_valid (sample_world "sample") sample_manager).
  - discriminate.
  - right. reflexivity.
  - right. reflexivity.
Defined.

(** * Runs without configured platform *)

Lemma no_keys_no_platforms (p : Platforms) :
  platform_keys p = [] -> discord p = None /\ telegram p = None.
Proof.
  unfold platform_keys. destruct (discord p), (telegram p); simpl;
    intros H; try discriminate; split; reflexivity.
Qed.

Lemma validateConfig_no_platforms (w : World) (cm : ConfigManager) :
  platform_keys (platforms (config cm)) = [] ->
  validateConfig w cm =
    Normal {| valid := false; errors := ["No platforms configured"] |}.
Proof.
  intros Hkeys. destruct (no_keys_no_platforms _ Hkeys) as [Hd Ht].
  unfold validateConfig. now rewrite Hkeys, Hd, Ht.
Qed.

(** X19. A run whose loaded configuration has no platform (no file, a
    file that does not parse, a document without [platforms]) sends
    nothing: it writes the validation failure with the single error "No
    platforms configured" and exits with status 1. *)
Theorem empty_configuration_aborts (w : World) (args : SendCommandArgs)
    (cm : ConfigManager) (loading : list Event) :
  new_ConfigManager w (args_config args) = (cm, loading) ->
  platform_keys (platforms (config cm)) = [] ->
  handleSendCommand w args =
    (loading ++
     [ ConsoleError "Configuration validation failed:";
       ConsoleError "  - No platforms configured" ],
     Some 1%N) /\
  requests (fst (handleSendCommand w args)) = [].
Proof.
  intros Hnew Hkeys.
  assert (handleSendCommand w args =
            (loading ++
             [ ConsoleError "Configuration validation failed:";
               ConsoleError "  - No platforms configured" ],
             Some 1%N)) as Hrun.
  { unfold handleSendCommand.
    now rewrite Hnew, (validateConfig_no_platforms w cm Hkeys). }
  split; [exact Hrun |].
  apply requests_console, abort_before_network. now rewrite Hrun.
Qed.

(** X19 in the world without any file. *)
Lemma empty_configuration_aborts_witness :
  handleSendCommand empty_world sample_args =
    ([ ConsoleWarn "Config file not found at /home/dev/.notife/config.json. Using default configuration.";
       ConsoleError "Configuration validation failed:";
       ConsoleError "  - No platforms configured" ],
     Some 1%N).
Proof.
  apply (empty_configuration_aborts empty_world sample_args
           {| config := defaultConfig;
              configPath := "/home/dev/.notife/config.json" |}
           [ConsoleWarn "Config file not found at /home/dev/.notife/config.json. Using default configuration."]);
    vm_compute; reflexivity.
Defined.

(** * First-run setup *)

Lemma append_inv_head (a x y : string) : a +:+ x = a +:+ y -> x = y.
Proof.
  induction a as [|c a IH]; [trivial |].
  rewrite !append_cons. intros [= H]. exact (IH H).
Qed.

Lemma chars_app (a b : string) :
  list_ascii_of_string (a +:+ b) = list_ascii_of_string a ++ list_ascii_of_string b.
Proof.
  induction a as [|c a IH]; [reflexivity |].
  rewrite append_cons. simpl. now rewrite IH.
Qed.

(** Two texts with different endings are different. *)
Ltac different_endings :=
  let H := fresh "H" in
  intros H;
  apply (f_equal (fun x => rev (list_ascii_of_string x))) in H;
  rewrite !chars_app, !rev_app_distr in H;
  simpl in H; discriminate H.

Lemma CONFIG_DIR_path (w : World) :
  ConfigSetup.CONFIG_DIR w = homedir w +:+ "/.pushr".
Proof. reflexivity. Qed.

Lemma CONFIG_FILE_path (w : World) :
  ConfigSetup.CONFIG_FILE w = homedir w +:+ "/.pushr/config.json".
Proof.
  unfold ConfigSetup.CONFIG_FILE, ConfigSetup.CONFIG_DIR.
  change (join [join [homedir w; ".pushr"]; "config.json"])
    with ((homedir w +:+ "/.pushr") +:+ "/config.json").
  now rewrite append_assoc.
Qed.

Lemma CONFIG_FILE_not_DIR (w : World) :
  ConfigSetup.CONFIG_FILE w <> ConfigSetup.CONFIG_DIR w.
Proof.
  rewrite CONFIG_FILE_path, CONFIG_DIR_path. intros H.
  apply append_inv_head in H. discriminate H.
Qed.

(** The paths that [ConfigManager] tries are not the paths that the setup
    writes, unless the working directory is the directory of the setup. *)
Lemma manager_paths_not_setup_paths (w : World) :
  env w !! "NOTIFE_CONFIG_PATH" = None ->
  join [cwd w; "config.json"] <> ConfigSetup.CONFIG_FILE w ->
  Forall (fun q => q <> ConfigSetup.CONFIG_DIR w /\ q <> ConfigSetup.CONFIG_FILE w)
         (possiblePaths w).
Proof.
  intros Henv Hcwd. rewrite possiblePaths_order, Henv. simpl app.
  rewrite CONFIG_FILE_path in *. rewrite CONFIG_DIR_path.
  change (join [homedir w; ".notife"; "config.json"])
    with (homedir w +:+ "/.notife/config.json").
  change (join [cwd w; "config.json"]) with (cwd w +:+ "/config.json") in *.
  change (join [cwd w; ".notife.json"]) with (cwd w +:+ "/.notife.json").
  change (join [homedir w; ".notife.json"]) with (homedir w +:+ "/.notife.json").
  repeat constructor; try exact Hcwd;
    try (intros H; apply append_inv_head in H; discriminate H);
    different_endings.
Qed.

Lemma first_existing_same (w w' : World) (paths : list string) :
  Forall (fun q => existsSync w' q = existsSync w q) paths ->
  first_existing w' paths = first_existing w paths.
Proof.
  induction 1 as [|q paths Hq _ IH]; [reflexivity |].
  simpl. now rewrite Hq, IH.
Qed.

Lemma first_existing_In (w : World) (paths : list string) (p : string) :
  first_existing w paths = Some p -> In p paths /\ existsSync w p = true.
Proof.
  induction paths as [|q paths IH]; [discriminate |].
  simpl. destruct (existsSync w q) eqn:Hq.
  - intros [= <-]. split; [now left | exact Hq].
  - intros H. destruct (IH H). split; [now right | assumption].
Qed.

Lemma first_existing_none (w : World) (paths : list string) :
  Forall (fun q => existsSync w q = false) paths -> first_existing w paths = None.
Proof.
  induction 1 as [|q paths Hq _ IH]; [reflexivity |].
  simpl. now rewrite Hq.
Qed.

Lemma not_a_directory_false (w : World) (path : string) :
  not_a_directory w path = false <->
  forall p e, fs w !! p = Some e -> e <> Directory ->
              String.prefix (p +:+ "/") path = false.
Proof.
  unfold not_a_directory. split.
  - intros Hnone p e Hp He.
    destruct (String.prefix (p +:+ "/") path) eqn:Hprefix; [| reflexivity].
    rewrite <- Hnone. symmetry. apply existsb_exists.
    exists (p, e). split.
    + apply list_elem_of_In. now apply elem_of_map_to_list.
    + simpl. now destruct e.
  - intros Hall.
    destruct (existsb _ (map_to_list (fs w))) eqn:Hex; [| reflexivity].
    apply existsb_exists in Hex as ([p e] & Hin & Hb).
    apply list_elem_of_In, elem_of_map_to_list in Hin.
    destruct e as [content | | err]; simpl in Hb; [| discriminate Hb |];
      now rewrite (Hall p _ Hin) in Hb.
Qed.

Lemma prefix_append (a b c : string) :
  String.prefix a b = true -> String.prefix a (b +:+ c) = true.
Proof.
  revert b. induction a as [|x a IH]; intros b;
    [intros _; now destruct (b +:+ c) |].
  destruct b as [|y b]; [discriminate |].
  rewrite append_cons. simpl.
  destruct (ascii_dec x y); [apply IH | discriminate].
Qed.

Lemma prefix_refl (a : string) : String.prefix a a = true.
Proof.
  induction a as [|x a IH]; [reflexivity |].
  simpl. now destruct (ascii_dec x x).
Qed.

(** What can be created at the configuration file can be created at its
    directory. *)
Lemma not_a_directory_DIR (w : World) :
  not_a_directory w (ConfigSetup.CONFIG_FILE w) = false ->
  not_a_directory w (ConfigSetup.CONFIG_DIR w) = false.
Proof.
  rewrite !not_a_directory_false. intros Hfile p e Hp He.
  specialize (Hfile p e Hp He).
  destruct (String.prefix (p +:+ "/") (ConfigSetup.CONFIG_DIR w)) eqn:Hprefix;
    [| reflexivity].
  rewrite <- Hfile. symmetry.
  change (ConfigSetup.CONFIG_FILE w)
    with (ConfigSetup.CONFIG_DIR w +:+ "/config.json").
  now apply prefix_append.
Qed.

(** The world in which [initializeConfig] looks for the example: the
    directory of the setup exists, and nothing else has changed. *)
Lemma ensure_directory_frame (w w1 : World) :
  ConfigSetup.ensure_directory w = Normal w1 ->
  existsSync w1 (ConfigSetup.CONFIG_DIR w) = true /\
  (forall q, q <> ConfigSetup.CONFIG_DIR w -> fs w1 !! q = fs w !! q) /\
  (forall p e, fs w1 !! p = Some e -> e <> Directory -> fs w !! p = Some e) /\
  homedir w1 = homedir w /\ cwd w1 = cwd w /\ env w1 = env w /\
  JSON_parse w1 = JSON_parse w /\ type_error w1 = type_error w /\
  write_error w1 = write_error w /\ fetch w1 = fetch w.
Proof.
  unfold ConfigSetup.ensure_directory.
  destruct (existsSync w (ConfigSetup.CONFIG_DIR w)) eqn:Hdir; simpl.
  - intros [= <-]. repeat split; auto.
  - unfold mkdirSync. unfold existsSync in Hdir.
    destruct (not_a_directory w (ConfigSetup.CONFIG_DIR w)); [discriminate |].
    destruct (fs w !! ConfigSetup.CONFIG_DIR w) eqn:Hentry; [discriminate Hdir |].
    destruct (write_error w (ConfigSetup.CONFIG_DIR w)); [discriminate |].
    intros [= <-]. simpl. repeat split.
    + unfold existsSync. simpl. now rewrite lookup_insert_eq.
    + intros q Hq. now rewrite lookup_insert_ne.
    + intros p e.
      destruct (decide (ConfigSetup.CONFIG_DIR w = p)) as [<- | Hne].
      * rewrite lookup_insert_eq. intros [= <-] He. now destruct He.
      * now rewrite lookup_insert_ne.
Qed.

(** The directory can be made when it exists, or when no file stands
    above it and the file system does not refuse. *)
Lemma ensure_directory_returns (w : World) :
  existsSync w (ConfigSetup.CONFIG_DIR w) = true \/
  (not_a_directory w (ConfigSetup.CONFIG_DIR w) = false /\
   write_error w (ConfigSetup.CONFIG_DIR w) = None) ->
  exists w1, ConfigSetup.ensure_directory w = Normal w1.
Proof.
  unfold ConfigSetup.ensure_directory.
  destruct (existsSync w (ConfigSetup.CONFIG_DIR w)) eqn:Hdir; simpl; [eauto |].
  intros [Hex | [Hbelow Hwrite]]; [discriminate |].
  unfold mkdirSync. unfold existsSync in Hdir. rewrite Hbelow.
  destruct (fs w !! ConfigSetup.CONFIG_DIR w); [discriminate Hdir |].
  rewrite Hwrite. eauto.
Qed.

(** [initializeConfig] touches two paths only, and nothing but the file
    system. *)
Lemma initializeConfig_frame (w : World) (possible : list string) :
  let w' := fst (ConfigSetup.initializeConfig w possible) in
  (forall q, q <> ConfigSetup.CONFIG_DIR w -> q <> ConfigSetup.CONFIG_FILE w ->
             fs w' !! q = fs w !! q) /\
  homedir w' = homedir w /\ cwd w' = cwd w /\ env w' = env w /\
  JSON_parse w' = JSON_parse w /\ type_error w' = type_error w /\
  fetch w' = fetch w.
Proof.
  simpl. unfold ConfigSetup.initializeConfig.
  destruct (ConfigSetup.ensure_directory w) as [w1 | err] eqn:Hensure;
    [| simpl; repeat split].
  apply ensure_directory_frame in Hensure
    as (_ & Hfs1 & _ & Hhome & Hcwd & Henv & Hparse & Htype & _ & Hfetch).
  assert (homedir w1 = homedir w /\ cwd w1 = cwd w /\ env w1 = env w /\
          JSON_parse w1 = JSON_parse w /\ type_error w1 = type_error w /\
          fetch w1 = fetch w) as Hsame by (repeat split; assumption).
  assert (ConfigSetup.CONFIG_FILE w1 = ConfigSetup.CONFIG_FILE w) as Hfile1
    by (unfold ConfigSetup.CONFIG_FILE, ConfigSetup.CONFIG_DIR; now rewrite Hhome).
  assert (forall q, q <> ConfigSetup.CONFIG_DIR w -> q <> ConfigSetup.CONFIG_FILE w ->
                    fs w1 !! q = fs w !! q) as Hkept by (intros q Hq _; now apply Hfs1).
  destruct (ConfigSetup.findExampleConfig w1 possible) as [ex|]; simpl;
    [| split; [exact Hkept | exact Hsame]].
  unfold copyFileSync, mbind, completion_bind.
  destruct (readFileSync w1 ex) as [content|err]; simpl;
    [| split; [exact Hkept | exact Hsame]].
  destruct (not_a_directory w1 (ConfigSetup.CONFIG_FILE w1)); simpl;
    [split; [exact Hkept | exact Hsame] |].
  assert (forall w2,
            w2 = with_fs w1 (<[ConfigSetup.CONFIG_FILE w1 := RegularFile content]> (fs w1)) ->
            (forall q, q <> ConfigSetup.CONFIG_DIR w ->
                       q <> ConfigSetup.CONFIG_FILE w -> fs w2 !! q = fs w !! q) /\
            homedir w2 = homedir w /\ cwd w2 = cwd w /\ env w2 = env w /\
            JSON_parse w2 = JSON_parse w /\ type_error w2 = type_error w /\
            fetch w2 = fetch w) as Hwritten.
  { intros w2 ->. split; [| exact Hsame].
    intros q Hdir Hfile. simpl.
    rewrite Hfile1, lookup_insert_ne; [now apply Hfs1 | congruence]. }
  destruct (fs w1 !! ConfigSetup.CONFIG_FILE w1) as [[content' | | err]|];
    destruct (write_error w1 (ConfigSetup.CONFIG_FILE w1)); simpl;
    try (split; [exact Hkept | exact Hsame]);
    exact (Hwritten _ eq_refl).
Qed.

(** X20. A successful setup copies the example: when the first existing
    candidate is a readable file (and the directory of the setup is not
    itself a candidate), no file stands where the configuration file
    needs a directory, the configuration file is not a directory, and
    the file system does not refuse to create the directory (when it is
    missing) and to write the file, then [initializeConfig] returns
    normally, the configuration file of the setup then holds the content
    of the example, [hasConfig] is true, and no other file has changed
    (the directories above the directory of the setup left aside). *)
Theorem setup_copies_the_example (w : World) (possible : list string)
    (example content : string) :
  ~ In (ConfigSetup.CONFIG_DIR w) possible ->
  ConfigSetup.findExampleConfig w possible = Some example ->
  fs w !! example = Some (RegularFile content) ->
  not_a_directory w (ConfigSetup.CONFIG_FILE w) = false ->
  fs w !! ConfigSetup.CONFIG_FILE w <> Some Directory ->
  existsSync w (ConfigSetup.CONFIG_DIR w) = true \/
    write_error w (ConfigSetup.CONFIG_DIR w) = None ->
  write_error w (ConfigSetup.CONFIG_FILE w) = None ->
  snd (ConfigSetup.initializeConfig w possible) =
    Normal (ConfigSetup.created_lines w) /\
  fs (fst (ConfigSetup.initializeConfig w possible)) !! ConfigSetup.CONFIG_FILE w =
    Some (RegularFile content) /\
  ConfigSetup.hasConfig (fst (ConfigSetup.initializeConfig w possible)) = true /\
  (forall q, q <> ConfigSetup.CONFIG_DIR w -> q <> ConfigSetup.CONFIG_FILE w ->
             String.prefix (q +:+ "/") (ConfigSetup.CONFIG_DIR w) = false ->
             fs (fst (ConfigSetup.initializeConfig w possible)) !! q = fs w !! q).
Proof.
  intros Hdir Hex Hcontent Hbelow Hnotdir Hmkdir Hwrite.
  pose proof (initializeConfig_frame w possible) as Hframe. simpl in Hframe.
  destruct Hframe as (Hframe & _).
  destruct (ensure_directory_returns w) as (w1 & Hensure).
  { destruct Hmkdir as [Hexists | Hmkdir]; [now left | right].
    split; [now apply not_a_directory_DIR | exact Hmkdir]. }
  pose proof (ensure_directory_frame w w1 Hensure)
    as (_ & Hfs1 & Hfiles & Hhome & _ & _ & _ & _ & Hwrite1 & _).
  assert (ConfigSetup.CONFIG_FILE w1 = ConfigSetup.CONFIG_FILE w) as Hfile1
    by (unfold ConfigSetup.CONFIG_FILE, ConfigSetup.CONFIG_DIR; now rewrite Hhome).
  assert (ConfigSetup.findExampleConfig w1 possible = Some example) as Hex1.
  { unfold ConfigSetup.findExampleConfig in *. rewrite <- Hex.
    apply first_existing_same, Forall_forall. intros q Hq.
    unfold existsSync. rewrite Hfs1; [reflexivity |].
    intros ->. apply Hdir. now apply list_elem_of_In. }
  assert (example <> ConfigSetup.CONFIG_DIR w) as Hne.
  { intros ->. apply Hdir. unfold ConfigSetup.findExampleConfig in Hex.
    now apply first_existing_In in Hex as [Hin _]. }
  assert (not_a_directory w1 (ConfigSetup.CONFIG_FILE w) = false) as Hbelow1.
  { apply not_a_directory_false. intros p e Hp He.
    apply (proj1 (not_a_directory_false w _) Hbelow p e); [| exact He].
    now apply Hfiles. }
  assert (fs w1 !! ConfigSetup.CONFIG_FILE w <> Some Directory) as Hnotdir1.
  { rewrite Hfs1; [exact Hnotdir | apply CONFIG_FILE_not_DIR]. }
  assert (ConfigSetup.initializeConfig w possible =
            (with_fs w1 (<[ConfigSetup.CONFIG_FILE w := RegularFile content]> (fs w1)),
             Normal (ConfigSetup.created_lines w))) as Hinit.
  { unfold ConfigSetup.initializeConfig. rewrite Hensure, Hex1.
    unfold copyFileSync, readFileSync, mbind, completion_bind.
    rewrite (Hfs1 _ Hne), Hcontent. simpl.
    rewrite Hfile1, Hbelow1, Hwrite1, Hwrite.
    now destruct (fs w1 !! ConfigSetup.CONFIG_FILE w) as [[c | | err]|]. }
  rewrite Hinit in Hframe |- *. simpl fst in *. simpl snd.
  split; [reflexivity |].
  split; [| split; [| intros q Hq1 Hq2 _; now apply Hframe]].
  - simpl. now rewrite lookup_insert_eq.
  - unfold ConfigSetup.hasConfig, existsSync.
    change (ConfigSetup.CONFIG_FILE
              (with_fs w1 (<[ConfigSetup.CONFIG_FILE w:=RegularFile content]> (fs w1))))
      with (ConfigSetup.CONFIG_FILE w1).
    rewrite Hfile1. simpl. now rewrite lookup_insert_eq.
Qed.

(** X20 on the fresh machine. *)
Lemma setup_copies_the_example_witness :
  snd (ConfigSetup.initializeConfig fresh_world ["/srv/app/config.json.example"]) =
    Normal (ConfigSetup.created_lines fresh_world) /\
  fs (fst (ConfigSetup.initializeConfig fresh_world
             ["/srv/app/config.json.example"])) !! "/home/dev/.pushr/config.json" =
    Some (RegularFile "sample").
Proof.
  destruct (setup_copies_the_example fresh_world ["/srv/app/config.json.example"]
              "/srv/app/config.json.example" "sample") as (Hr & Hfile & _).
  - vm_compute. intros [H | []]. discriminate H.
  - vm_compute. reflexivity.
  - vm_compute. reflexivity.
  - vm_compute. reflexivity.
  - vm_compute. discriminate.
  - right. reflexivity.
  - reflexivity.
  - split; [exact Hr | exact Hfile].
Defined.

(** A regular file in the place of the directory of the setup, a file
    system that refuses to create the directory: the setup throws, and
    [main] exits with status 1. *)
Example setup_refused :
  snd (ConfigSetup.initializeConfig blocked_world ["/srv/app/config.json.example"]) =
    Throw "Error: Failed to initialize configuration: Error: ENOTDIR: not a directory, copyfile '/srv/app/config.json.example' -> '/home/dev/.pushr/config.json'" /\
  snd (main blocked_world ["/srv/app/config.json.example"] sample_args) = Some 1%N /\
  ConfigSetup.initializeConfig readonly_world ["/srv/app/config.json.example"] =
    (readonly_world,
     Throw "Error: Failed to initialize configuration: Error: EACCES: permission denied, mkdir '/home/dev/.pushr'").
Proof. vm_compute. repeat split; reflexivity. Qed.

(** X21. A setup that finds no example fails and still leaves the
    directory: when the directory of the setup exists, or can be created
    (no file stands above it and the file system does not refuse), and
    no candidate exists, [initializeConfig] throws "Failed
    to initialize configuration: Error: Could not find
    config.json.example file", the directory of the setup exists
    afterwards, the configuration file does not, so the next run starts
    the setup again; and [main] reports the error and exits with
    status 1. *)
Theorem setup_without_example (w : World) (possible : list string)
    (args : SendCommandArgs) :
  ConfigSetup.hasConfig w = false ->
  ~ In (ConfigSetup.CONFIG_DIR w) possible ->
  Forall (fun q => existsSync w q = false) possible ->
  existsSync w (ConfigSetup.CONFIG_DIR w) = true \/
    (not_a_directory w (ConfigSetup.CONFIG_DIR w) = false /\
     write_error w (ConfigSetup.CONFIG_DIR w) = None) ->
  snd (ConfigSetup.initializeConfig w possible) =
    Throw "Error: Failed to initialize configuration: Error: Could not find config.json.example file" /\
  existsSync (fst (ConfigSetup.initializeConfig w possible))
             (ConfigSetup.CONFIG_DIR w) = true /\
  ConfigSetup.hasConfig (fst (ConfigSetup.initializeConfig w possible)) = false /\
  main w possible args =
    (fst (ConfigSetup.initializeConfig w possible),
     [ ConsoleLog "🚀 Welcome to notife!"; ConsoleLog "";
       ConsoleError "Error: Error: Failed to initialize configuration: Error: Could not find config.json.example file" ],
     Some 1%N).
Proof.
  intros Hconfig Hdir Hnone Hmkdir.
  destruct (ensure_directory_returns w Hmkdir) as (w1 & Hensure).
  pose proof (ensure_directory_frame w w1 Hensure)
    as (Hexists & Hfs1 & _ & Hhome & _).
  assert (ConfigSetup.initializeConfig w possible =
            (w1, Throw "Error: Failed to initialize configuration: Error: Could not find config.json.example file"))
    as Hinit.
  { unfold ConfigSetup.initializeConfig. rewrite Hensure.
    assert (ConfigSetup.findExampleConfig w1 possible = None) as ->; [| reflexivity].
    unfold ConfigSetup.findExampleConfig. apply first_existing_none.
    apply Forall_forall. intros q Hq.
    rewrite Forall_forall in Hnone. rewrite <- (Hnone q Hq).
    unfold existsSync. rewrite Hfs1; [reflexivity |].
    intros ->. apply Hdir. now apply list_elem_of_In. }
  unfold main. rewrite Hconfig, Hinit. simpl.
  repeat split; [exact Hexists |].
  unfold ConfigSetup.hasConfig, existsSync in *.
  assert (ConfigSetup.CONFIG_FILE w1 = ConfigSetup.CONFIG_FILE w) as ->
    by (unfold ConfigSetup.CONFIG_FILE, ConfigSetup.CONFIG_DIR; now rewrite Hhome).
  rewrite Hfs1; [exact Hconfig |]. apply CONFIG_FILE_not_DIR.
Qed.

(** X21 in the world without any file. *)
Lemma setup_without_example_witness :
  snd (main empty_world ["/srv/app/config.json.example"] sample_args) = Some 1%N /\
  existsSync (fst (ConfigSetup.initializeConfig empty_world
                     ["/srv/app/config.json.example"]))
             "/home/dev/.pushr" = true.
Proof.
  destruct (setup_without_example empty_world ["/srv/app/config.json.example"]
              sample_args) as (_ & Hdir & _ & Hmain).
  - reflexivity.
  - vm_compute. intros [H | []]. discriminate H.
  - repeat constructor.
  - right. split; reflexivity.
  - split; [now rewrite Hmain | exact Hdir].
Defined.

(** The status of [handleSendCommand] is a failure or none. *)
Lemma handleSendCommand_status (w : World) (args : SendCommandArgs) :
  snd (handleSendCommand w args) = None \/ snd (handleSendCommand w args) = Some 1%N.
Proof.
  unfold handleSendCommand.
  destruct (new_ConfigManager w (args_config args)) as [cm loading].
  destruct (validateConfig w cm) as [v | err]; [| now right].
  destruct (negb (valid v)); [now right | now left].
Qed.

(** The lines of a setup that returns. *)
Lemma initializeConfig_created (w : World) (possible : list string)
    (created : list Event) :
  snd (ConfigSetup.initializeConfig w possible) = Normal created ->
  created = ConfigSetup.created_lines w.
Proof.
  unfold ConfigSetup.initializeConfig.
  destruct (ConfigSetup.ensure_directory w) as [w1 | err]; [| discriminate].
  match goal with
  | |- context [match ?a with Normal _ => _ | Throw _ => _ end] => destruct a
  end; [| discriminate].
  now intros [= <-].
Qed.

(** X22. The first run never sends.  As long as the configuration file
    of the setup is missing, [main] does not look at the command line: it
    issues no request, ends with status 0 or 1, and behaves the same for
    all arguments. *)
Theorem first_run_never_sends (w : World) (possible : list string)
    (args args' : SendCommandArgs) :
  ConfigSetup.hasConfig w = false ->
  requests (snd (fst (main w possible args))) = [] /\
  (snd (main w possible args) = Some 0%N \/ snd (main w possible args) = Some 1%N) /\
  main w possible args = main w possible args'.
Proof.
  intros Hconfig. unfold main. rewrite Hconfig. simpl.
  destruct (ConfigSetup.initializeConfig w possible) as [w' [created | err]] eqn:Hinit;
    simpl; repeat split; auto.
  pose proof (initializeConfig_created w possible created) as Hcreated.
  rewrite Hinit in Hcreated. rewrite (Hcreated eq_refl). reflexivity.
Qed.

(** X22 on the fresh machine. *)
Lemma first_run_never_sends_witness :
  requests (snd (fst (main fresh_world ["/srv/app/config.json.example"]
                        both_platforms_args))) = [] /\
  snd (main fresh_world ["/srv/app/config.json.example"] both_platforms_args) =
    Some 0%N.
Proof.
  destruct (first_run_never_sends fresh_world ["/srv/app/config.json.example"]
              both_platforms_args sample_args eq_refl) as (Hreq & _ & _).
  split; [exact Hreq | reflexivity].
Defined.

(** * The setup and the configuration manager *)

Lemma initializeConfig_success (w : World) (possible : list string)
    (created : list Event) :
  snd (ConfigSetup.initializeConfig w possible) = Normal created ->
  ConfigSetup.hasConfig (fst (ConfigSetup.initializeConfig w possible)) = true.
Proof.
  unfold ConfigSetup.initializeConfig.
  destruct (ConfigSetup.ensure_directory w) as [w1 | err]; [| discriminate].
  destruct (ConfigSetup.findExampleConfig w1 possible) as [ex|]; [| discriminate].
  unfold copyFileSync, mbind, completion_bind.
  destruct (readFileSync w1 ex) as [content|err]; [| discriminate].
  destruct (not_a_directory w1 (ConfigSetup.CONFIG_FILE w1)); [discriminate |].
  destruct (fs w1 !! ConfigSetup.CONFIG_FILE w1) as [[content' | | err]|];
    try discriminate;
    (destruct (write_error w1 (ConfigSetup.CONFIG_FILE w1)); [discriminate |]);
    intros _; simpl; unfold ConfigSetup.hasConfig, existsSync;
    change (ConfigSetup.CONFIG_FILE
              (with_fs w1 (<[ConfigSetup.CONFIG_FILE w1:=RegularFile content]> (fs w1))))
      with (ConfigSetup.CONFIG_FILE w1);
    simpl; now rewrite lookup_insert_eq.
Qed.

Lemma possiblePaths_same (w w' : World) :
  homedir w' = homedir w -> cwd w' = cwd w -> env w' = env w ->
  possiblePaths w' = possiblePaths w.
Proof. unfold possiblePaths. now intros -> -> ->. Qed.

(** X23. The file that the setup writes is not a file that the
    configuration manager reads.  On a machine without configuration
    (no path in the environment, none of the manager's candidates
    present, the working directory not being the directory of the setup),
    after a first run that has completed the setup, the next run without
    [--config] does not find the new file: it warns that the
    configuration is missing, fails the validation with "No platforms
    configured" and exits with status 1. *)
Theorem setup_file_is_not_read (w w' : World) (possible : list string)
    (args1 args2 : SendCommandArgs) (trace : list Event) :
  env w !! "NOTIFE_CONFIG_PATH" = None ->
  Forall (fun q => existsSync w q = false) (possiblePaths w) ->
  join [cwd w; "config.json"] <> ConfigSetup.CONFIG_FILE w ->
  JS.truthy_opt (args_config args2) = false ->
  main w possible args1 = (w', trace, Some 0%N) ->
  ConfigSetup.hasConfig w' = true /\
  main w' possible args2 =
    (w',
     [ ConsoleWarn ("Config file not found at " +:+
                    join [homedir w; ".notife"; "config.json"] +:+
                    ". Using default configuration.");
       ConsoleError "Configuration validation failed:";
       ConsoleError "  - No platforms configured" ],
     Some 1%N).
Proof.
  intros Henv Hfresh Hcwd Harg Hmain.
  (* the first run was a completed setup *)
  assert (exists created,
            ConfigSetup.initializeConfig w possible = (w', Normal created))
    as (created & Hinit).
  { unfold main in Hmain. destruct (ConfigSetup.hasConfig w).
    - simpl in Hmain. pose proof (handleSendCommand_status w args1) as Hstatus.
      destruct (handleSendCommand w args1) as [t code]. simpl in Hstatus.
      injection Hmain as _ _ ->. destruct Hstatus; discriminate.
    - simpl in Hmain.
      destruct (ConfigSetup.initializeConfig w possible) as [w'' [created | err]];
        [| discriminate Hmain].
      injection Hmain as -> _. eauto. }
  pose proof (initializeConfig_success w possible created) as Hhas.
  pose proof (initializeConfig_frame w possible) as Hframe.
  rewrite Hinit in Hhas, Hframe. simpl in Hhas, Hframe.
  specialize (Hhas eq_refl).
  destruct Hframe as (Hfs & Hhome & Hcwd' & Henv' & _).
  split; [exact Hhas |].
  (* the manager's candidates are still missing *)
  assert (Forall (fun q => existsSync w' q = false) (possiblePaths w)) as Hmissing.
  { pose proof (manager_paths_not_setup_paths w Henv Hcwd) as Hother.
    rewrite Forall_forall in *. intros q Hq.
    destruct (Hother q Hq) as [Hd Hf]. rewrite <- (Hfresh q Hq).
    unfold existsSync. now rewrite Hfs. }
  assert (findConfigFile w' = join [homedir w; ".notife"; "config.json"]) as Hfind.
  { unfold findConfigFile.
    rewrite (possiblePaths_same w w' Hhome Hcwd' Henv'),
      (first_existing_none w' _ Hmissing), Hhome. reflexivity. }
  assert (existsSync w' (join [homedir w; ".notife"; "config.json"]) = false)
    as Hno.
  { rewrite Forall_forall in Hmissing. apply Hmissing.
    rewrite possiblePaths_order, Henv. apply list_elem_of_In. now left. }
  unfold main. rewrite Hhas. simpl.
  unfold handleSendCommand, new_ConfigManager.
  rewrite (or_else_falsy _ _ Harg), Hfind.
  unfold loadConfig. rewrite Hno. cbn [negb].
  rewrite validateConfig_no_platforms by reflexivity. reflexivity.
Qed.

(** X23 on the fresh machine: the first run completes the setup, the
    second run does not find the configuration. *)
Lemma setup_file_is_not_read_witness :
  let first := main fresh_world ["/srv/app/config.json.example"] sample_args in
  snd first = Some 0%N /\
  ConfigSetup.hasConfig (fst (fst first)) = true /\
  snd (main (fst (fst first)) ["/srv/app/config.json.example"] sample_args) =
    Some 1%N.
Proof.
  simpl.
  destruct (setup_file_is_not_read fresh_world
              (fst (fst (main fresh_world ["/srv/app/config.json.example"]
                           sample_args)))
              ["/srv/app/config.json.example"] sample_args sample_args
              (snd (fst (main fresh_world ["/srv/app/config.json.example"]
                           sample_args))))
    as [Hhas Hsecond].
  - reflexivity.
  - repeat constructor.
  - vm_compute. discriminate.
  - reflexivity.
  - reflexivity.
  - split; [reflexivity |]. split; [exact Hhas |]. now rewrite Hsecond.
Defined.

(** * The parts of an embed *)

Lemma split_clean_prefix (sep : ascii) (t s : string) :
  ~ In sep (list_ascii_of_string t) ->
  JS.split sep (t +:+ String sep s) = t :: JS.split sep s.
Proof.
  induction t as [|c t IH]; intros Hclean.
  - apply split_leading_separator.
  - rewrite append_cons. simpl in *.
    destruct (Ascii.eqb_spec c sep) as [-> | Hne]; [tauto |].
    rewrite IH by tauto. reflexivity.
Qed.

(** X24. The first two parts of an embed message.  For a message
    [title|description], possibly followed by [|] and more, with a
    non-empty title and description: the Discord embed has this title and
    this description, and the Telegram text is the escaped title in bold
    followed by the escaped description, whatever follows the second
    separator; Telegram drops the third part. *)
Theorem embed_title_and_description (w : World) (t d more : string)
    (third : bool) (silent_ : option bool) (title_ color_ : option string)
    (fields_ : option (list Field)) :
  t <> EmptyString ->
  d <> EmptyString ->
  ~ In "|"%char (list_ascii_of_string t) ->
  ~ In "|"%char (list_ascii_of_string d) ->
  let message :=
    t +:+ String "|"%char (if third then d +:+ String "|"%char more else d) in
  let options :=
    {| format := Some embed; silent := silent_; title := title_;
       color := color_; fields := fields_ |} in
  (exists e,
     DiscordPlatform.createBotPayload w message options = Embeds [e] /\
     embed_title e = t /\ embed_description e = d) /\
  TelegramPlatform.formatAsEmbed message options =
    match fields_ with
    | Some (f :: fs) =>
        TelegramPlatform.append_fields
          (("*" +:+ escape_once t +:+ "*" +:+ TelegramPlatform.newline2 +:+
            escape_once d) +:+ TelegramPlatform.newline2)
          (f :: fs)
    | _ =>
        "*" +:+ escape_once t +:+ "*" +:+ TelegramPlatform.newline2 +:+
        escape_once d
    end.
Proof.
  intros Ht Hd Hct Hcd. simpl.
  assert (exists rest,
            JS.split "|" (t +:+ String "|"%char
                            (if third then d +:+ String "|"%char more else d)) =
            t :: d :: rest) as (rest & Hsplit).
  { rewrite (split_clean_prefix _ _ _ Hct). destruct third.
    - rewrite (split_clean_prefix _ _ _ Hcd). eauto.
    - rewrite (split_without_separator _ _ Hcd). eauto. }
  apply truthy_nonempty in Ht, Hd. split.
  - unfold DiscordPlatform.createBotPayload. simpl. rewrite Hsplit. simpl.
    rewrite Ht, Hd. eexists. split; [reflexivity | split; reflexivity].
  - unfold TelegramPlatform.formatAsEmbed, JS.or_opt. simpl. rewrite Hsplit. simpl.
    rewrite Ht. simpl. rewrite Ht, Hd, !escapeMarkdownV2_escape_once.
    now destruct fields_ as [[|f fs]|].
Qed.

(** X24 at the message [Deploy|v1.2 is live|#00ff00]. *)
Lemma embed_title_and_description_witness :
  (exists e,
     DiscordPlatform.createBotPayload (sample_world "sample")
       "Deploy|v1.2 is live|#00ff00"
       {| format := Some embed; silent := None; title := None;
          color := None; fields := None |} = Embeds [e] /\
     embed_title e = "Deploy" /\ embed_description e = "v1.2 is live") /\
  TelegramPlatform.formatAsEmbed "Deploy|v1.2 is live|#00ff00"
    {| format := Some embed; silent := None; title := None;
       color := None; fields := None |} =
    "*Deploy*" +:+ TelegramPlatform.newline2 +:+ "v1\.2 is live".
Proof.
  apply (embed_title_and_description (sample_world "sample") "Deploy"
           "v1.2 is live" "#00ff00" true None None None None).
  - discriminate.
  - discriminate.
  - vm_compute. intuition discriminate.
  - vm_compute. intuition discriminate.
Defined.

(** * The errors of the validation *)

(** X25. The validation reports exactly the errors of the configuration.
    Whenever [validateConfig] returns, each of its five messages is in
    the list if and only if its condition holds, the list holds nothing
    else, and [valid] says that the list is empty.  The message for a
    Discord block without [bot] is in a returned list exactly when [bot]
    is a falsy value other than [undefined] and [null] ([false], [0], the
    empty string), and then, without a token in the environment, the
    message for the missing token is in the list too. *)
Theorem validation_reports_exactly_the_errors (w : World) (cm : ConfigManager)
    (v : Validation) :
  validateConfig w cm = Normal v ->
  (valid v = true <-> errors v = []) /\
  (In "No platforms configured" (errors v) <->
   platform_keys (platforms (config cm)) = []) /\
  (In "Discord platform configured but no bot configuration found" (errors v) <->
   exists d,
     discord (platforms (config cm)) = Some d /\ discord_bot d = Some FalsyBot) /\
  (In "Discord bot configured but no token provided" (errors v) <->
   exists d bot,
     discord (platforms (config cm)) = Some d /\ discord_bot d = Some bot /\
     match bot with
     | FalsyBot => true
     | BotBlock block => negb (JS.truthy_opt (token block))
     end = true /\
     JS.truthy_opt (env w !! "NOTIFE_DISCORD_TOKEN") = false) /\
  (In "Telegram platform configured but no bot configuration found" (errors v) <->
   exists t, telegram (platforms (config cm)) = Some t /\ telegram_bot t = None) /\
  (In "Telegram bot configured but no token provided" (errors v) <->
   exists t bot,
     telegram (platforms (config cm)) = Some t /\ telegram_bot t = Some bot /\
     JS.truthy_opt (token bot) = false /\
     JS.truthy_opt (env w !! "NOTIFE_TELEGRAM_TOKEN") = false) /\
  (forall e, In e (errors v) ->
     In e [ "No platforms configured";
            "Discord platform configured but no bot configuration found";
            "Discord bot configured but no token provided";
            "Telegram platform configured but no bot configuration found";
            "Telegram bot configured but no token provided" ]).
Proof.
  intros Hv.
  destruct (validateConfig_complete w cm v Hv)
    as (H1 & H2 & H3 & H4 & H5 & H6 & H7).
  split; [exact H1 |]. split; [exact H2 |]. split; [exact H3 |].
  split; [| split; [exact H5 | split; [exact H6 | exact H7]]].
  rewrite H4. split.
  - intros (d & bot & Hd & Hbot & Htoken & Henv).
    exists d, bot. repeat split; try assumption.
    destruct bot as [| block]; [reflexivity |].
    simpl in Htoken. now rewrite Htoken.
  - intros (d & bot & Hd & Hbot & Htoken & Henv).
    exists d, bot. repeat split; try assumption.
    destruct bot as [| block]; [reflexivity |].
    simpl. now apply negb_true_iff in Htoken.
Qed.

(** X25 on a configuration whose Discord block has [bot: false], without
    token in the environment: both Discord messages are reported. *)
Lemma validateConfig_complete_witness :
  validateConfig (sample_world "sample") falsy_bot_manager =
    Normal {| valid := false;
              errors := [ "Discord platform configured but no bot configuration found";
                          "Discord bot configured but no token provided" ] |} /\
  (In "Discord platform configured but no bot configuration found"
      [ "Discord platform configured but no bot configuration found";
        "Discord bot configured but no token provided" ] <->
   exists d,
     discord (platforms (config falsy_bot_manager)) = Some d /\
     discord_bot d = Some FalsyBot).
Proof.
  split; [reflexivity |].
  apply (validation_reports_exactly_the_errors (sample_world "sample")
           falsy_bot_manager
           {| valid := false;
              errors := [ "Discord platform configured but no bot configuration found";
                          "Discord bot configured but no token provided" ] |}).
  reflexivity.
Defined.
